(** * Otzovik review crawler: fetch, retry and checkpoint engine

    A shallow embedding of [src/parser.py] (class [OtzyovikParser]) and of the
    parts of [src/config.py] it reads, together with the properties of the
    fetch-and-checkpoint engine stated in the specification.

    Conventions.
    - A Python [str] is a list of Unicode code points ([pystr]); [len] is the
      length of that list and [in] on strings is substring search.
    - The attributes of [self] form the record [Parser]; everything outside
      the process (sent requests, sleeps, files) lives in [World].
    - Whatever the program obtains from outside its own code (the remote
      server, the random generator, the clock, the HTML extraction done with
      BeautifulSoup, pandas' column statistics, Unicode case tables) is a
      field of [Env]; all definitions are executable once an [Env] is fixed. *)

From Stdlib Require Import ZArith String Ascii List Bool Lia DecimalString.
From Stdlib Require Import Floats.SpecFloat.
From Stdlib Require Import DecimalZ.
From stdpp Require Import base decidable countable list gmap sets fin_maps.

Local Open Scope Z_scope.
Local Set Warnings "-register-all".

(** ** Python strings *)

Abbreviation pystr := (list N).

(** The code points of an ASCII literal. *)
Definition py (s : string) : pystr := List.map N_of_ascii (list_ascii_of_string s).
Arguments py : simpl never.

Fixpoint starts_with (needle hay : pystr) : bool :=
  match needle, hay with
  | [], _ => true
  | _ :: _, [] => false
  | a :: needle', b :: hay' => N.eqb a b && starts_with needle' hay'
  end.

(** [needle in hay] *)
Fixpoint contains (needle hay : pystr) : bool :=
  starts_with needle hay ||
  match hay with
  | [] => false
  | _ :: hay' => contains needle hay'
  end.

(** [len(s)] *)
Definition len (s : pystr) : Z := Z.of_nat (length s).

(** Truth value of a string: [''] is false. *)
Definition str_truthy (s : pystr) : bool :=
  match s with [] => false | _ :: _ => true end.

(** [s.replace(old, new)] for a non-empty [old] (the program only replaces
    the literal ['.csv']): every non-overlapping occurrence, left to right.
    [skip] counts the characters of the occurrence just replaced that are
    still to be passed over. *)
Fixpoint replace_skipping (skip : nat) (old new s : pystr) : pystr :=
  match s with
  | [] => []
  | c :: s' =>
      match skip with
      | S skip' => replace_skipping skip' old new s'
      | O =>
          if starts_with old s
          then new ++ replace_skipping (length old - 1) old new s'
          else c :: replace_skipping 0 old new s'
      end
  end.

Definition str_replace (old new s : pystr) : pystr :=
  match old with
  | [] => s
  | _ :: _ => replace_skipping 0 old new s
  end.

(** [str(n)] for an integer. *)
Definition str_of_Z (z : Z) : pystr :=
  py (NilZero.string_of_int (Z.to_int z)).

(** Equality test on strings ([==] on [str]). *)
Definition str_eqb (a b : pystr) : bool := bool_decide (a = b).

(** ** Python values

    The values found in a review record and in the configuration: [None],
    [bool], [int], [float] (an IEEE 754 binary64 value) and [str]. *)

Inductive scalar :=
  | SNone
  | SBool (b : bool)
  | SInt (z : Z)
  | SFloat (f : spec_float)
  | SStr (s : pystr).

#[global] Instance spec_float_eq_dec : EqDecision spec_float.
Proof. solve_decision. Defined.

#[global] Instance scalar_eq_dec : EqDecision scalar.
Proof. solve_decision. Defined.

(** [float(n)] for an integer [n]. *)
Definition float_of_Z (z : Z) : spec_float := binary_normalize 53 1024 z 0 false.

(** A number of the configuration: [int] or [float]. *)
Inductive pynum :=
  | NInt (z : Z)
  | NFloat (f : spec_float).

#[global] Instance pynum_eq_dec : EqDecision pynum.
Proof. solve_decision. Defined.

(** [x * k] for a configured number [x] and an [int] [k]. *)
Definition pynum_mul_int (x : pynum) (k : Z) : pynum :=
  match x with
  | NInt z => NInt (z * k)
  | NFloat f => NFloat (SFmul 53 1024 f (float_of_Z k))
  end.

Definition pynum_scalar (x : pynum) : scalar :=
  match x with
  | NInt z => SInt z
  | NFloat f => SFloat f
  end.

(** A review record: a [dict] from field names to scalar values. The order
    in which the keys were inserted is not kept; equality of Python dicts
    does not depend on it. *)
Abbreviation record := (gmap pystr scalar).

(** ** JSON documents

    [json.dump] and [json.load] belong to Python's standard library. They are
    modelled at the level of tokens: a file written by [json.dump] holds the
    token sequence of the value, and [json.load] is a recursive-descent
    parser over tokens that fails on anything that is not exactly one
    value. Numbers and strings are single tokens ([repr] of a [float] reads
    back as the same [float], [int] and [float] stay apart). The limit that
    recent versions of Python put on the number of digits of an [int] that
    is printed or read (4300 by default) is not modelled: the integers of a
    state are taken to be below it. *)

Inductive json :=
  | JAtom (a : scalar)
  | JArr (items : list json)
  | JObj (members : list (pystr * json)).

Inductive token :=
  | TAtom (a : scalar)
  | TLBracket
  | TRBracket
  | TLBrace
  | TRBrace
  | TComma
  | TColon.

#[global] Instance token_eq_dec : EqDecision token.
Proof. solve_decision. Defined.

(** The encoder. After the first element of an array (member of an object)
    the remaining ones follow, each behind a comma, up to the closing
    bracket. *)
Fixpoint encode (j : json) : list token :=
  match j with
  | JAtom a => [TAtom a]
  | JArr items =>
      TLBracket ::
      match items with
      | [] => [TRBracket]
      | x :: items' =>
          encode x ++
          (fix more (l : list json) : list token :=
             match l with
             | [] => [TRBracket]
             | y :: l' => TComma :: encode y ++ more l'
             end) items'
      end
  | JObj members =>
      TLBrace ::
      match members with
      | [] => [TRBrace]
      | (k, v) :: members' =>
          TAtom (SStr k) :: TColon :: encode v ++
          (fix more (l : list (pystr * json)) : list token :=
             match l with
             | [] => [TRBrace]
             | (k', v') :: l' =>
                 TComma :: TAtom (SStr k') :: TColon :: encode v' ++ more l'
             end) members'
      end
  end.

(** The two inner loops of [encode], named. *)
Fixpoint encode_items (l : list json) : list token :=
  match l with
  | [] => [TRBracket]
  | y :: l' => TComma :: encode y ++ encode_items l'
  end.

Fixpoint encode_members (l : list (pystr * json)) : list token :=
  match l with
  | [] => [TRBrace]
  | (k, v) :: l' => TComma :: TAtom (SStr k) :: TColon :: encode v ++ encode_members l'
  end.

(** The decoder. [parse_items] and [parse_members] read what follows an
    element: either the closing bracket or a comma and the next element.
    Every call consumes a token before it recurses, so a fuel above the
    number of tokens is never exhausted ([json_load] supplies it). *)
Fixpoint parse_value (fuel : nat) (ts : list token) {struct fuel}
  : option (json * list token) :=
  match fuel with
  | O => None
  | S fuel' =>
      match ts with
      | TAtom a :: r => Some (JAtom a, r)
      | TLBracket :: TRBracket :: r => Some (JArr [], r)
      | TLBracket :: r =>
          match parse_value fuel' r with
          | Some (x, r1) =>
              match parse_items fuel' r1 with
              | Some (l, r2) => Some (JArr (x :: l), r2)
              | None => None
              end
          | None => None
          end
      | TLBrace :: TRBrace :: r => Some (JObj [], r)
      | TLBrace :: TAtom (SStr k) :: TColon :: r =>
          match parse_value fuel' r with
          | Some (v, r1) =>
              match parse_members fuel' r1 with
              | Some (l, r2) => Some (JObj ((k, v) :: l), r2)
              | None => None
              end
          | None => None
          end
      | _ => None
      end
  end
with parse_items (fuel : nat) (ts : list token) {struct fuel}
  : option (list json * list token) :=
  match fuel with
  | O => None
  | S fuel' =>
      match ts with
      | TRBracket :: r => Some ([], r)
      | TComma :: r =>
          match parse_value fuel' r with
          | Some (y, r1) =>
              match parse_items fuel' r1 with
              | Some (l, r2) => Some (y :: l, r2)
              | None => None
              end
          | None => None
          end
      | _ => None
      end
  end
with parse_members (fuel : nat) (ts : list token) {struct fuel}
  : option (list (pystr * json) * list token) :=
  match fuel with
  | O => None
  | S fuel' =>
      match ts with
      | TRBrace :: r => Some ([], r)
      | TComma :: TAtom (SStr k) :: TColon :: r =>
          match parse_value fuel' r with
          | Some (v, r1) =>
              match parse_members fuel' r1 with
              | Some (l, r2) => Some ((k, v) :: l, r2)
              | None => None
              end
          | None => None
          end
      | _ => None
      end
  end.

(** [json.load]: exactly one value and nothing after it; [None] stands for
    [JSONDecodeError]. *)
Definition json_load (ts : list token) : option json :=
  match parse_value (S (length ts)) ts with
  | Some (j, []) => Some j
  | _ => None
  end.

(** [d.get(k)] on the [dict] that [json.load] builds from the members of an
    object: of two members with the same key the later one counts. *)
Fixpoint dict_get (k : pystr) (members : list (pystr * json)) : option json :=
  match members with
  | [] => None
  | (k', v) :: members' =>
      match dict_get k members' with
      | Some v' => Some v'
      | None => if str_eqb k' k then Some v else None
      end
  end.


(** ** Configuration ([src/config.py])

    The attributes of a [Config] object. [TIMEOUT] is optional because the
    constructor of the parser tests for its presence with [hasattr]. *)

Record Config := {
  BASE_URL : pystr;
  MAX_PAGES : Z;
  OUTPUT_FILE : pystr;
  PROGRESS_FILE : pystr;
  DELAY_MIN : pynum;
  DELAY_MAX : pynum;
  DELAY_BETWEEN_PAGES_MIN : pynum;
  DELAY_BETWEEN_PAGES_MAX : pynum;
  DELAY_BETWEEN_HOTELS_MIN : pynum;
  DELAY_BETWEEN_HOTELS_MAX : pynum;
  DELAY_AFTER_BLOCK : pynum;
  MAX_RETRIES : Z;
  TIMEOUT : option pynum;
  MAX_HOTELS_PER_PAGE : Z;
  MAX_REVIEWS_PER_HOTEL : Z;
  USER_AGENTS : list pystr;
  SELECTORS_LIST : list (pystr * pystr);
  SELECTORS_HOTEL : list (pystr * pystr)
}.

(** [Config._set_defaults] *)
Definition default_config : Config := {|
  BASE_URL := py "https://otzovik.com/travel/hotels/";
  MAX_PAGES := 1462;
  OUTPUT_FILE := py "otzovik_reviews.csv";
  PROGRESS_FILE := py "progress.json";
  DELAY_MIN := NInt 8;
  DELAY_MAX := NInt 15;
  DELAY_BETWEEN_PAGES_MIN := NInt 5;
  DELAY_BETWEEN_PAGES_MAX := NInt 10;
  DELAY_BETWEEN_HOTELS_MIN := NInt 3;
  DELAY_BETWEEN_HOTELS_MAX := NInt 7;
  DELAY_AFTER_BLOCK := NInt 60;
  MAX_RETRIES := 3;
  TIMEOUT := Some (NInt 30);
  MAX_HOTELS_PER_PAGE := 20;
  MAX_REVIEWS_PER_HOTEL := 50;
  USER_AGENTS :=
    [ py "Mozilla/5.0 (Macintosh; Intel Mac OS X 10_15_7) AppleWebKit/537.36 (KHTML, like Gecko) Chrome/121.0.0.0 Safari/537.36";
      py "Mozilla/5.0 (Macintosh; Intel Mac OS X 10_15_7) AppleWebKit/605.1.15 (KHTML, like Gecko) Version/17.0 Safari/605.1.15";
      py "Mozilla/5.0 (Macintosh; Intel Mac OS X 10.15; rv:121.0) Gecko/20100101 Firefox/121.0" ];
  SELECTORS_LIST :=
    [ (py "hotel_container", py "div.product-list div.item");
      (py "hotel_link", py "a.product-name");
      (py "reviews_count", py "a.reviews-counter");
      (py "rating", py "div.rating-score-2 span:nth-of-type(2)") ];
  SELECTORS_HOTEL :=
    [ (py "review_item", py "div.review-list-2 div.item");
      (py "review_rating", py "div.rating-score span");
      (py "review_rating_score", py "div.rating-score span");
      (py "review_date", py "div.review-postdate");
      (py "review_date_meta",
       py "meta[itemprop=" ++ [34%N] ++ py "datePublished" ++ [34%N] ++ py "]");
      (py "review_title", py "h3.review-title a");
      (py "review_teaser", py "div.review-teaser");
      (py "review_plus", py "div.review-plus");
      (py "review_minus", py "div.review-minus");
      (py "review_author", py "div.user-info a.user-login span");
      (py "review_author_location", py "div.user-info div:nth-of-type(3)");
      (py "review_recommendations", py "a.review-yes span");
      (py "review_comments", py "a.review-comments span");
      (py "review_images", py "div.review-thumbs img") ]
|}.

(** ** The outside world *)

(** A hotel descriptor, as built by [parse_list_page]. *)
Record Hotel := {
  hotel_id : pystr;
  hotel_name : pystr;
  hotel_url : pystr;
  reviews_count : Z;
  hotel_rating : pystr;
  list_page : Z;
  list_url : pystr
}.

(** What the program reads of a [requests.Response]. *)
Record Response := {
  status_code : Z;
  content_type : option pystr;   (* the Content-Type header, if any *)
  text : pystr
}.

(** The outcome of [session.get]: a response, [requests.exceptions.Timeout],
    or another [requests.exceptions.RequestException]. *)
Inductive NetResult :=
  | Responded (r : Response)
  | TimedOut
  | RequestFailed.

(** The two session headers the program changes after creating the session. *)
Record Session := {
  user_agent : pystr;
  referer : pystr
}.

(** What the process does to the outside, in program order. [EvRequest]
    records the URL, the [referer] argument of that call of [make_request]
    and the session headers in force. *)
Inductive Event :=
  | EvRequest (url : pystr) (referer_arg : option pystr) (headers : Session)
  | EvSleep (seconds : pynum)
  | EvSleepUniform (lo hi : pynum).

(** The contents of a file: a token sequence written by [json.dump] or
    [DataFrame.to_json], or a table written by [DataFrame.to_csv]. *)
Inductive content :=
  | JsonDoc (ts : list token)
  | CsvTable (rows : list record).

Record World := {
  files : gmap pystr content;
  trace : list Event;
  requests_sent : nat;
  random_draws : nat;
  clock_reads : nat
}.

(** The exceptions that the operations of the program raise and that can
    leave a method of the parser: [IndexError] from [random.choice],
    [TypeError] from the arithmetic on ratings, and [ValueError],
    [OverflowError] or [OSError] from [time.sleep]. An interruption from the
    keyboard ([KeyboardInterrupt]) can arrive at any moment and is not an
    operation of the program: the definitions below describe the program
    when it is not interrupted. *)
Inductive exn :=
  | IndexError
  | TypeError
  | ValueError
  | OverflowError
  | OSError.

Inductive outcome (A : Type) :=
  | Ret (a : A)
  | Raise (e : exn).
Arguments Ret {A} a.
Arguments Raise {A} e.

(** Everything the program takes from outside its own code. The server
    answers the [n]-th request of the process; [random_index] is the [n]-th
    draw of [random.choice]; the clock is read by [time.time] and
    [datetime.now]. [parse_list_page] and [parse_hotel_page] are the
    BeautifulSoup-based extraction routines, which do not touch the state of
    the parser; [frame_report_ok] tells whether the column statistics that
    [_save_results] logs complete without raising; [sleep_far] is what
    [time.sleep] does with a number of seconds beyond a million in absolute
    value or with a [float] that is not a number ([None] when it sleeps):
    that depends on the platform. [start_time_isoformat] is
    [self.start_time.isoformat()], [elapsed_seconds n] the seconds between
    the start time and the [n]-th reading of the clock, and [mean l] is
    [sum(l) / len(l)] for a non-empty list of numbers (the sum of [float]s
    depends on the version of Python, which adds them with compensation from
    3.12 on). *)
Record Env := {
  str_lower : pystr -> pystr;
  server : nat -> pystr -> NetResult;
  random_index : nat -> nat;
  time_time : nat -> Z;
  now_isoformat : nat -> pystr;
  parse_list_page : Config -> pystr -> Z -> pystr -> list Hotel;
  parse_hotel_page : Config -> pystr -> Hotel -> list record;
  frame_report_ok : list record -> bool;
  sleep_far : pynum -> option exn;
  start_time_isoformat : pystr;
  elapsed_seconds : nat -> spec_float;
  mean : list scalar -> scalar
}.

(** ** The parser object *)

Record Parser := {
  config : Config;
  session : Session;
  results : list record;
  processed_hotels : gset pystr;
  processed_pages : gset Z;
  total_requests : Z;
  blocked_count : Z
}.

(** Assignments to single attributes. *)
Definition set_session (s : Session) (p : Parser) : Parser :=
  {| config := config p; session := s; results := results p;
     processed_hotels := processed_hotels p; processed_pages := processed_pages p;
     total_requests := total_requests p; blocked_count := blocked_count p |}.

Definition set_results (r : list record) (p : Parser) : Parser :=
  {| config := config p; session := session p; results := r;
     processed_hotels := processed_hotels p; processed_pages := processed_pages p;
     total_requests := total_requests p; blocked_count := blocked_count p |}.

Definition set_processed_hotels (h : gset pystr) (p : Parser) : Parser :=
  {| config := config p; session := session p; results := results p;
     processed_hotels := h; processed_pages := processed_pages p;
     total_requests := total_requests p; blocked_count := blocked_count p |}.

Definition set_processed_pages (g : gset Z) (p : Parser) : Parser :=
  {| config := config p; session := session p; results := results p;
     processed_hotels := processed_hotels p; processed_pages := g;
     total_requests := total_requests p; blocked_count := blocked_count p |}.

Definition set_total_requests (n : Z) (p : Parser) : Parser :=
  {| config := config p; session := session p; results := results p;
     processed_hotels := processed_hotels p; processed_pages := processed_pages p;
     total_requests := n; blocked_count := blocked_count p |}.

Definition set_blocked_count (n : Z) (p : Parser) : Parser :=
  {| config := config p; session := session p; results := results p;
     processed_hotels := processed_hotels p; processed_pages := processed_pages p;
     total_requests := total_requests p; blocked_count := n |}.

Definition set_files (f : gmap pystr content) (w : World) : World :=
  {| files := f; trace := trace w; requests_sent := requests_sent w;
     random_draws := random_draws w; clock_reads := clock_reads w |}.

(** Appends an event to the trace. *)
Definition emit (e : Event) (w : World) : World :=
  {| files := files w; trace := trace w ++ [e]; requests_sent := requests_sent w;
     random_draws := random_draws w; clock_reads := clock_reads w |}.

(** The sign of a number of seconds, and whether it lies within a million
    seconds of zero. *)
Definition negative (seconds : pynum) : bool :=
  match seconds with
  | NInt z => z <? 0
  | NFloat f => SFltb f (float_of_Z 0)
  end.

Definition sleep_in_range (seconds : pynum) : bool :=
  match seconds with
  | NInt z => (-1000000 <=? z) && (z <=? 1000000)
  | NFloat f => SFleb (float_of_Z (-1000000)) f && SFleb f (float_of_Z 1000000)
  end.

(** [time.sleep(seconds)]: [ValueError] on a negative number, and no sleep
    then. *)
Definition sleep (env : Env) (seconds : pynum) (w : World) : outcome unit * World :=
  if sleep_in_range seconds then
    if negative seconds then (Raise ValueError, w)
    else (Ret tt, emit (EvSleep seconds) w)
  else
    match sleep_far env seconds with
    | Some e => (Raise e, w)
    | None => (Ret tt, emit (EvSleep seconds) w)
    end.

(** [time.sleep(random.uniform(lo, hi))]. The number drawn is not part of
    the model; it lies between the two bounds. The bounds of a parser are
    the positive ones that its constructor sets (3.0 and 5.0), for which
    [time.sleep] does not raise; other bounds are not considered. *)
Definition sleep_uniform (lo hi : pynum) (w : World) : World := emit (EvSleepUniform lo hi) w.

(** Reading the clock. *)
Definition tick (w : World) : World :=
  {| files := files w; trace := trace w; requests_sent := requests_sent w;
     random_draws := random_draws w; clock_reads := S (clock_reads w) |}.

(** [random.choice(l)]: [IndexError] on an empty list. *)
Definition random_choice (env : Env) (l : list pystr) (w : World) : outcome pystr * World :=
  match l !! (random_index env (random_draws w) mod length l)%nat with
  | None => (Raise IndexError, w)
  | Some x =>
      (Ret x,
       {| files := files w; trace := trace w; requests_sent := requests_sent w;
          random_draws := S (random_draws w); clock_reads := clock_reads w |})
  end.

(** [self.session.get(url, timeout=...)] *)
Definition session_get (env : Env) (url : pystr) (referer_arg : option pystr)
    (p : Parser) (w : World) : NetResult * World :=
  (server env (requests_sent w) url,
   {| files := files w;
      trace := trace w ++ [EvRequest url referer_arg (session p)];
      requests_sent := S (requests_sent w);
      random_draws := random_draws w; clock_reads := clock_reads w |}).

(** ** Block detection and the fetch operation *)

(** [_random_delay()] with no arguments: [min_delay or self.config.DELAY_MIN]
    is the configured value. *)
Definition _random_delay (p : Parser) (w : World) : World :=
  sleep_uniform (DELAY_MIN (config p)) (DELAY_MAX (config p)) w.

(** Truth value of a [requests.Response] object: [Response.__bool__] returns
    [self.ok], which is false exactly for the status codes from 400 to 599. *)
Definition response_truthy (r : Response) : bool :=
  negb ((400 <=? status_code r) && (status_code r <? 600)).

(** The literal list [block_indicators]; the fourth entry is the Russian
    phrase for "access restricted", given by its code points. *)
Definition block_indicators : list pystr :=
  [ py "captcha"; py "recaptcha"; py "cloudflare";
    [1076; 1086; 1089; 1090; 1091; 1087; 32;
     1086; 1075; 1088; 1072; 1085; 1080; 1095; 1077; 1085]%N;
    py "your access has been blocked"; py "blocked"; py "403 forbidden";
    py "too many requests"; py "rate limit exceeded" ].

(** [any(indicator in text_lower for indicator in block_indicators)] *)
Definition has_block_indicator (env : Env) (body : pystr) : bool :=
  existsb (fun indicator => contains indicator (str_lower env body)) block_indicators.

Definition _is_blocked_response (env : Env) (response : Response) : bool :=
  if negb (response_truthy response) then false
  else if existsb (Z.eqb (status_code response)) [403; 429; 503] then true
  else if str_truthy (text response) then
    if has_block_indicator env (text response) then true
    else if (len (text response) <? 1000)
            && negb (contains (py "product-list") (text response)) then true
    else false
  else false.

(** [response.headers.get('Content-Type', '')] *)
Definition content_type_or_empty (r : Response) : pystr :=
  match content_type r with
  | Some ct => ct
  | None => []
  end.

(** Truth value of an optional string argument ([if referer:]). *)
Definition opt_truthy (o : option pystr) : bool :=
  match o with
  | Some s => str_truthy s
  | None => false
  end.

(** [self.session.headers['Referer'] = referer] and
    [self.session.headers['User-Agent'] = new_agent] *)
Definition set_referer (r : pystr) (p : Parser) : Parser :=
  set_session {| user_agent := user_agent (session p); referer := r |} p.

Definition set_user_agent (ua : pystr) (p : Parser) : Parser :=
  set_session {| user_agent := ua; referer := referer (session p) |} p.

(** [make_request(url, referer, retry_count)]. An exception of [time.sleep]
    or of [random.choice] is caught by none of the handlers of the method
    and leaves it. The method calls itself with
    [retry_count + 1] while [retry_count < MAX_RETRIES]; [fuel] bounds the
    depth of these calls and [None] means that it ran out
    ([make_request] below supplies enough; the recursion limit of the
    interpreter is not modelled). *)
Fixpoint make_request_fuel (fuel : nat) (env : Env) (url : pystr)
    (referer_arg : option pystr) (retry_count : Z) (p : Parser) (w : World)
  : option (outcome (option pystr) * Parser * World) :=
  match fuel with
  | O => None
  | S fuel' =>
      let p := set_total_requests (total_requests p + 1) p in
      let w := _random_delay p w in
      let p := match referer_arg with
               | Some r => if str_truthy r then set_referer r p else p
               | None => p
               end in
      let '(result, w) := session_get env url referer_arg p w in
      match result with
      | Responded response =>
          if _is_blocked_response env response then
            let p := set_blocked_count (blocked_count p + 1) p in
            if retry_count <? MAX_RETRIES (config p) then
              let wait_time := pynum_mul_int (DELAY_AFTER_BLOCK (config p)) (retry_count + 1) in
              match sleep env wait_time w with
              | (Raise e, w) => Some (Raise e, p, w)
              | (Ret _, w) =>
                  match random_choice env (USER_AGENTS (config p)) w with
                  | (Raise e, w) => Some (Raise e, p, w)
                  | (Ret new_agent, w) =>
                      let p := set_user_agent new_agent p in
                      make_request_fuel fuel' env url referer_arg (retry_count + 1) p w
                  end
              end
            else Some (Ret None, p, w)
          else if status_code response =? 200 then
            if contains (py "text/html") (content_type_or_empty response)
               && (1000 <? len (text response))
            then Some (Ret (Some (text response)), p, w)
            else Some (Ret None, p, w)
          else if status_code response =? 404 then Some (Ret None, p, w)
          else Some (Ret None, p, w)
      | TimedOut =>
          if retry_count <? MAX_RETRIES (config p) then
            match sleep env (NInt (2 * (retry_count + 1))) w with
            | (Raise e, w) => Some (Raise e, p, w)
            | (Ret _, w) => make_request_fuel fuel' env url referer_arg (retry_count + 1) p w
            end
          else Some (Ret None, p, w)
      | RequestFailed =>
          if retry_count <? MAX_RETRIES (config p) then
            match sleep env (NInt (1 * (retry_count + 1))) w with
            | (Raise e, w) => Some (Raise e, p, w)
            | (Ret _, w) => make_request_fuel fuel' env url referer_arg (retry_count + 1) p w
            end
          else Some (Ret None, p, w)
      end
  end.

(** The number of calls [make_request] can still make from [retry_count]. *)
Definition retry_fuel (p : Parser) (retry_count : Z) : nat :=
  S (Z.to_nat (MAX_RETRIES (config p) - retry_count)).

Definition make_request (env : Env) (url : pystr) (referer_arg : option pystr)
    (retry_count : Z) (p : Parser) (w : World)
  : outcome (option pystr) * Parser * World :=
  match make_request_fuel (retry_fuel p retry_count) env url referer_arg retry_count p w with
  | Some r => r
  | None => (Ret None, p, w)
  end.

(** [get_list_page_url(page_num)] *)
Definition get_list_page_url (p : Parser) (page_num : Z) : pystr :=
  if page_num =? 1 then BASE_URL (config p)
  else BASE_URL (config p) ++ str_of_Z page_num ++ py "/".

(** ** Checkpoint: [_save_progress] and [_load_progress] *)

(** A record as a JSON object. *)
Definition record_json (r : record) : json :=
  JObj (List.map (fun kv => (fst kv, JAtom (snd kv))) (map_to_list r)).

(** The dictionary [data] built by [_save_progress]; [last_updated] is
    [datetime.now().isoformat()]. *)
Definition checkpoint_json (p : Parser) (last_updated : pystr) : json :=
  JObj
    [ (py "processed_hotels",
       JArr (List.map (fun u => JAtom (SStr u)) (elements (processed_hotels p))));
      (py "processed_pages",
       JArr (List.map (fun n => JAtom (SInt n)) (elements (processed_pages p))));
      (py "results", JArr (List.map record_json (results p)));
      (py "total_requests", JAtom (SInt (total_requests p)));
      (py "blocked_count", JAtom (SInt (blocked_count p)));
      (py "last_updated", JAtom (SStr last_updated));
      (py "parser_version", JAtom (SStr (py "3.2")));
      (py "delays_config",
       JObj
         [ (py "DELAY_MIN", JAtom (pynum_scalar (DELAY_MIN (config p))));
           (py "DELAY_MAX", JAtom (pynum_scalar (DELAY_MAX (config p))));
           (py "DELAY_BETWEEN_HOTELS_MIN",
            JAtom (pynum_scalar (DELAY_BETWEEN_HOTELS_MIN (config p))));
           (py "DELAY_BETWEEN_HOTELS_MAX",
            JAtom (pynum_scalar (DELAY_BETWEEN_HOTELS_MAX (config p))));
           (py "DELAY_BETWEEN_PAGES_MIN",
            JAtom (pynum_scalar (DELAY_BETWEEN_PAGES_MIN (config p))));
           (py "DELAY_BETWEEN_PAGES_MAX",
            JAtom (pynum_scalar (DELAY_BETWEEN_PAGES_MAX (config p))));
           (py "DELAY_AFTER_BLOCK", JAtom (pynum_scalar (DELAY_AFTER_BLOCK (config p)))) ]) ].

(** A string that UTF-8 can encode: one without surrogate code point. *)
Definition encodable (s : pystr) : bool :=
  forallb (fun c => negb ((55296 <=? c)%N && (c <=? 57343)%N)) s.

(** A token that the file object refuses to write. *)
Definition refused (t : token) : bool :=
  match t with
  | TAtom (SStr s) => negb (encodable s)
  | _ => false
  end.

(** A token sequence without such a token. *)
Definition dumpable (ts : list token) : bool := forallb (fun t => negb (refused t)) ts.

(** [json.dump(data, f, ensure_ascii=False, indent=2)] into a file opened with
    [encoding='utf-8'] writes the document in pieces, and the write of a
    piece with a string that cannot be encoded raises [UnicodeEncodeError];
    what was written before stays in the file. The pieces are the single
    tokens, except that an atom that is an element of a list goes out
    together with the bracket or the comma before it (a key is followed by
    a colon; an element of a list is not). [dump_stop_from prev ts n] is the
    number of tokens in the file when the dump raises on the remaining
    tokens [ts], [n] tokens being written already and [prev] being the last
    of them; it is [None] when the dump does not raise. *)
Fixpoint dump_stop_from (prev : option token) (ts : list token) (n : nat) : option nat :=
  match ts with
  | [] => None
  | t :: rest =>
      if refused t then
        match prev, rest with
        | Some TLBracket, TColon :: _ | Some TComma, TColon :: _ => Some n
        | Some TLBracket, _ | Some TComma, _ => Some (Nat.pred n)
        | _, _ => Some n
        end
      else dump_stop_from (Some t) rest (S n)
  end.

Definition dump_stop (ts : list token) : option nat := dump_stop_from None ts 0.

(** Writing a file happens in steps: [open(path, 'w')] empties the file, then
    [json.dump] writes the document piece by piece into that same file. *)
Inductive fs_op :=
  | Truncate (path : pystr)
  | Append (path : pystr) (t : token).

Definition apply_op (fs : gmap pystr content) (op : fs_op) : gmap pystr content :=
  match op with
  | Truncate path => <[path := JsonDoc []]> fs
  | Append path t =>
      match fs !! path with
      | Some (JsonDoc ts) => <[path := JsonDoc (ts ++ [t])]> fs
      | _ => <[path := JsonDoc [t]]> fs
      end
  end.

(** [with open(path, 'w') as f: json.dump(data, f)] *)
Definition dump_ops (path : pystr) (ts : list token) : list fs_op :=
  Truncate path :: List.map (Append path) ts.

(** The name of the backup file: [int(time.time())] in decimal. *)
Definition backup_path (seconds : Z) : pystr :=
  py "data/progress_backup_" ++ str_of_Z seconds ++ py ".json".

(** The steps of one [_save_progress]: the progress file, then the backup. *)
Definition _save_progress_ops (env : Env) (p : Parser) (w : World) : list fs_op :=
  let ts := encode (checkpoint_json p (now_isoformat env (clock_reads w))) in
  dump_ops (PROGRESS_FILE (config p)) ts
  ++ dump_ops (backup_path (time_time env (S (clock_reads w)))) ts.

(** A [_save_progress] that ends after the first [n] of its steps, because
    the process is stopped or because a write raises. The clock is read once
    for [last_updated] before the progress file is opened, and once more for
    the name of the backup after the progress file is written. *)
Definition _save_progress_stopped (n : nat) (env : Env) (p : Parser) (w : World) : World :=
  let ts := encode (checkpoint_json p (now_isoformat env (clock_reads w))) in
  set_files (foldl apply_op (files w) (take n (_save_progress_ops env p w)))
    (if (n <=? S (length ts))%nat then tick w else tick (tick w)).

(** [_save_progress()]. When every string of the document can be encoded,
    all steps are made. Otherwise [json.dump] raises while it writes the
    progress file; the method catches the exception and returns: the
    progress file holds what was written up to there, and no backup is
    written. Opening and writing the files is taken to succeed otherwise. *)
Definition _save_progress (env : Env) (p : Parser) (w : World) : World :=
  match dump_stop (encode (checkpoint_json p (now_isoformat env (clock_reads w)))) with
  | None => set_files (foldl apply_op (files w) (_save_progress_ops env p w)) (tick (tick w))
  | Some n => _save_progress_stopped (S n) env p w
  end.

(** Typed readers for the values of the checkpoint. The attributes of
    [Parser] are typed, so a value that Python would store as it is but that
    has another type than the one [_save_progress] writes (a list of numbers
    for [processed_hotels], say) cannot be represented: the readers return
    [None] for it, like for the values on which Python raises. *)
Definition json_str (j : json) : option pystr :=
  match j with JAtom (SStr s) => Some s | _ => None end.

Definition json_int (j : json) : option Z :=
  match j with JAtom (SInt z) => Some z | _ => None end.

Definition json_str_list (j : json) : option (list pystr) :=
  match j with JArr l => mapM json_str l | _ => None end.

Definition json_int_list (j : json) : option (list Z) :=
  match j with JArr l => mapM json_int l | _ => None end.

Definition member_scalar (kv : pystr * json) : option (pystr * scalar) :=
  match snd kv with JAtom a => Some (fst kv, a) | _ => None end.

(** The [dict] of an object: members are inserted in order. *)
Definition dict_of (l : list (pystr * scalar)) : record :=
  foldl (fun r kv => <[fst kv := snd kv]> r) ∅ l.

Definition json_record (j : json) : option record :=
  match j with JObj m => dict_of <$> mapM member_scalar m | _ => None end.

Definition json_records (j : json) : option (list record) :=
  match j with JArr l => mapM json_record l | _ => None end.

(** [data.get(key, default)] *)
Definition get_or (key : pystr) (dflt : json) (members : list (pystr * json)) : json :=
  match dict_get key members with
  | Some v => v
  | None => dflt
  end.

(** [_load_progress()]. The five assignments happen one after the other
    inside one [try]; an exception leaves the attributes assigned so far. *)
Definition _load_progress (p : Parser) (w : World) : Parser :=
  match files w !! PROGRESS_FILE (config p) with
  | None => p
  | Some (CsvTable _) => p
  | Some (JsonDoc ts) =>
      match json_load ts with
      | Some (JObj data) =>
          match json_str_list (get_or (py "processed_hotels") (JArr []) data) with
          | None => p
          | Some hotels =>
              let p := set_processed_hotels (list_to_set hotels) p in
              match json_int_list (get_or (py "processed_pages") (JArr []) data) with
              | None => p
              | Some pages =>
                  let p := set_processed_pages (list_to_set pages) p in
                  match json_records (get_or (py "results") (JArr []) data) with
                  | None => p
                  | Some rs =>
                      let p := set_results rs p in
                      match json_int (get_or (py "total_requests") (JAtom (SInt 0)) data) with
                      | None => p
                      | Some n =>
                          let p := set_total_requests n p in
                          match json_int (get_or (py "blocked_count") (JAtom (SInt 0)) data) with
                          | None => p
                          | Some b => set_blocked_count b p
                          end
                      end
                  end
              end
          end
      | _ => p
      end
  end.

(** ** Result persistence: [_save_results] *)

(** The cell of a record in the column [review_id]; a record without that
    key has no cell. *)
Definition review_id_cell (r : record) : option scalar := r !! py "review_id".

(** The key under which [drop_duplicates] files a cell. pandas fills the
    cell of a record without the key with [NaN], and counts [NaN] and [None]
    as one and the same missing value; numbers are compared by value across
    [bool], [int] and [float] ([True], [1] and [1.0] are one key), strings
    by their characters, and a string is never the key of a number. A
    number is kept as an odd integer times a power of two, the form in which
    equal values are equal. Two things are left aside: integers beyond
    2^53 lose digits when pandas turns a column of integers and floats into
    floats, and whether [None] and [NaN] are one key in a column that also
    holds strings depends on the version of pandas (they are one key here).
    The statements that depend on either are made for buffers without such
    identifiers ([plain_id] below). *)
Inductive id_key :=
  | KeyNA
  | KeyNumber (mantissa exponent : Z)
  | KeyInfinity (negative : bool)
  | KeyText (s : pystr).

#[global] Instance id_key_eq_dec : EqDecision id_key.
Proof. solve_decision. Defined.

(** The odd part of a positive number and the power of two taken out. *)
Fixpoint odd_part (m : positive) : positive * Z :=
  match m with
  | xO m' => let '(o, k) := odd_part m' in (o, k + 1)
  | _ => (m, 0)
  end.

(** The key of the number [v * 2 ^ e]. *)
Definition number_key (v e : Z) : id_key :=
  match v with
  | 0 => KeyNumber 0 0
  | Zpos m => let '(o, k) := odd_part m in KeyNumber (Zpos o) (e + k)
  | Zneg m => let '(o, k) := odd_part m in KeyNumber (Zneg o) (e + k)
  end.

Definition scalar_key (a : scalar) : id_key :=
  match a with
  | SNone => KeyNA
  | SBool b => number_key (if b then 1 else 0) 0
  | SInt z => number_key z 0
  | SFloat (S754_zero _) => number_key 0 0
  | SFloat (S754_infinity negative) => KeyInfinity negative
  | SFloat S754_nan => KeyNA
  | SFloat (S754_finite negative m e) => number_key (if negative then Zneg m else Zpos m) e
  | SStr s => KeyText s
  end.

Definition cell_key (cell : option scalar) : id_key :=
  match cell with
  | Some a => scalar_key a
  | None => KeyNA
  end.

(** The key of a row of the frame. *)
Definition row_key (r : record) : id_key := cell_key (review_id_cell r).

(** [df.drop_duplicates(subset=['review_id'], keep='last')]: a row is dropped
    when a later row has the same key; the order of the others is kept. *)
Fixpoint drop_duplicates_last (rows : list record) : list record :=
  match rows with
  | [] => []
  | r :: rows' =>
      if existsb (fun r' => bool_decide (row_key r' = row_key r)) rows'
      then drop_duplicates_last rows'
      else r :: drop_duplicates_last rows'
  end.

(** ['review_id' in df.columns]: some record has that key. *)
Definition has_review_id_column (rows : list record) : bool :=
  existsb (fun r => bool_decide (is_Some (review_id_cell r))) rows.


(** The frame that [_save_results] writes. A frame is represented by the
    records behind its rows; the cell types that pandas infers per column are
    not modelled. *)
Definition results_frame (p : Parser) : list record :=
  if has_review_id_column (results p) then drop_duplicates_last (results p)
  else results p.

Definition frame_json (df : list record) : json := JArr (List.map record_json df).

(** [_save_results()]: nothing is written for an empty buffer, or when the
    logged statistics raise (the method catches the exception). *)
Definition _save_results (env : Env) (p : Parser) (w : World) : World :=
  match results p with
  | [] => w
  | _ :: _ =>
      let df := results_frame p in
      if frame_report_ok env df then
        let csv_path := OUTPUT_FILE (config p) in
        let w := set_files (<[csv_path := CsvTable df]> (files w)) w in
        let json_path := str_replace (py ".csv") (py ".json") csv_path in
        set_files (<[json_path := JsonDoc (encode (frame_json df))]> (files w)) w
      else w
  end.

(** ** The crawl: [scrape_page] and [run] *)

(** [r.get('review_rating_numeric', 0)] *)
Definition rating_or_zero (r : record) : scalar :=
  match r !! py "review_rating_numeric" with
  | Some v => v
  | None => SInt 0
  end.

Definition is_number (v : scalar) : bool :=
  match v with
  | SBool _ | SInt _ | SFloat _ => true
  | SNone | SStr _ => false
  end.

(** The progress printout after a hotel sums the ratings of the new reviews
    and formats them with [:.1f]; both raise [TypeError] on a rating that is
    [None] or a string. (Integers too large for a [float] are not
    considered.) *)
Definition ratings_printable (reviews : list record) : bool :=
  forallb (fun r => is_number (rating_or_zero r)) reviews.

(** [self.processed_hotels.add(url)] and [self.processed_pages.add(n)] *)
Definition mark_hotel (url : pystr) (p : Parser) : Parser :=
  set_processed_hotels ({[url]} ∪ processed_hotels p) p.

Definition mark_page (page_num : Z) (p : Parser) : Parser :=
  set_processed_pages ({[page_num]} ∪ processed_pages p) p.

(** The loop [for i, hotel in enumerate(hotels, 1)] of [scrape_page], from
    position [i] on; [n] is [len(hotels)]. *)
Fixpoint scrape_hotels (env : Env) (page_url : pystr) (n : Z) (i : Z)
    (hotels : list Hotel) (p : Parser) (w : World) : outcome unit * Parser * World :=
  match hotels with
  | [] => (Ret tt, p, w)
  | hotel :: rest =>
      if bool_decide (hotel_url hotel ∈ processed_hotels p) then
        scrape_hotels env page_url n (i + 1) rest p w
      else if reviews_count hotel =? 0 then
        scrape_hotels env page_url n (i + 1) rest (mark_hotel (hotel_url hotel) p) w
      else
        match make_request env (hotel_url hotel) (Some page_url) 0 p w with
        | (Raise e, p, w) => (Raise e, p, w)
        | (Ret hotel_html, p, w) =>
            if negb (opt_truthy hotel_html) then
              scrape_hotels env page_url n (i + 1) rest p w
            else
              let html := default [] hotel_html in
              let reviews := parse_hotel_page env (config p) html hotel in
              let p := match reviews with
                       | [] => p
                       | _ :: _ => set_results (results p ++ reviews) p
                       end in
              if negb (ratings_printable reviews) then (Raise TypeError, p, w)
              else
                let p := mark_hotel (hotel_url hotel) p in
                let w := if i mod 10 =? 0
                         then _save_results env p (_save_progress env p w)
                         else w in
                let w := if i <? n
                         then sleep_uniform (DELAY_BETWEEN_HOTELS_MIN (config p))
                                (DELAY_BETWEEN_HOTELS_MAX (config p)) w
                         else w in
                scrape_hotels env page_url n (i + 1) rest p w
        end
  end.

(** [scrape_page(page_num)] *)
Definition scrape_page (env : Env) (page_num : Z) (p : Parser) (w : World)
  : outcome bool * Parser * World :=
  if bool_decide (page_num ∈ processed_pages p) then (Ret true, p, w)
  else
    let page_url := get_list_page_url p page_num in
    match make_request env page_url None 0 p w with
    | (Raise e, p, w) => (Raise e, p, w)
    | (Ret html_opt, p, w) =>
        if negb (opt_truthy html_opt) then (Ret false, p, w)
        else
          let html := default [] html_opt in
          let hotels := parse_list_page env (config p) html page_num page_url in
          match hotels with
          | [] =>
              let p := mark_page page_num p in
              (Ret true, p, _save_progress env p w)
          | _ :: _ =>
              match scrape_hotels env page_url (Z.of_nat (length hotels)) 1 hotels p w with
              | (Raise e, p, w) => (Raise e, p, w)
              | (Ret _, p, w) =>
                  let p := mark_page page_num p in
                  (Ret true, p, _save_results env p (_save_progress env p w))
              end
          end
    end.

(** The loop [for page_num in range(start_page, end_page + 1)] of [run]. *)
Fixpoint run_pages (env : Env) (end_page : Z) (pages : list Z) (p : Parser) (w : World)
  : outcome unit * Parser * World :=
  match pages with
  | [] => (Ret tt, p, w)
  | page_num :: rest =>
      match scrape_page env page_num p w with
      | (Raise e, p, w) => (Raise e, p, w)
      | (Ret _, p, w) =>
          let w := if page_num <? end_page
                   then sleep_uniform (DELAY_BETWEEN_PAGES_MIN (config p))
                          (DELAY_BETWEEN_PAGES_MAX (config p)) w
                   else w in
          run_pages env end_page rest p w
      end
  end.

(** The number of pages for which [scrape_page] returned [True]
    ([successful_pages]) when the loop of [run] comes to its end. *)
Fixpoint successful_pages (env : Env) (end_page : Z) (pages : list Z) (p : Parser) (w : World)
  : Z :=
  match pages with
  | [] => 0
  | page_num :: rest =>
      match scrape_page env page_num p w with
      | (Raise _, _, _) => 0
      | (Ret success, p, w) =>
          let w := if page_num <? end_page
                   then sleep_uniform (DELAY_BETWEEN_PAGES_MIN (config p))
                          (DELAY_BETWEEN_PAGES_MAX (config p)) w
                   else w in
          (if success then 1 else 0) + successful_pages env end_page rest p w
      end
  end.

(** The truth value of a scalar. *)
Definition scalar_truthy (v : scalar) : bool :=
  match v with
  | SNone => false
  | SBool b => b
  | SInt z => negb (z =? 0)
  | SFloat f => negb (SFeqb f (float_of_Z 0))
  | SStr s => str_truthy s
  end.

(** The list [ratings] of the final report: the ratings that are true. *)
Definition report_ratings (rs : list record) : list scalar :=
  omap (fun r => match r !! py "review_rating_numeric" with
                 | Some v => if scalar_truthy v then Some v else None
                 | None => None
                 end) rs.

(** [sum(ratings)] raises [TypeError] on a rating that is a string.
    (Integers too large for a [float] are not considered.) *)
Definition report_printable (rs : list record) : bool :=
  forallb is_number (report_ratings rs).

(** [sum(1 for r in self.results if r.get('before_2020'))] *)
Definition before_2020_count (rs : list record) : Z :=
  Z.of_nat (length (List.filter (fun r => match r !! py "before_2020" with
                                          | Some v => scalar_truthy v
                                          | None => false
                                          end) rs)).

(** [(count / total) * 100] on two [int]s (below 2^53, which [float]
    represents exactly). *)
Definition percent (count total : Z) : spec_float :=
  SFmul 53 1024 (SFdiv 53 1024 (float_of_Z count) (float_of_Z total)) (float_of_Z 100).

(** The dictionary [stats] that [run] writes after the loop. [elapsed] is
    the number of the clock reading taken right after the loop, [ended] that
    of the reading taken for [end_time]. *)
Definition stats_json (env : Env) (successful : Z) (start_page end_page : Z) (p : Parser)
    (elapsed ended : nat) : json :=
  JObj
    ([ (py "successful_pages", JAtom (SInt successful));
       (py "total_pages_attempted", JAtom (SInt (end_page - start_page + 1)));
       (py "hotels_processed", JAtom (SInt (Z.of_nat (size (processed_hotels p)))));
       (py "reviews_collected", JAtom (SInt (Z.of_nat (length (results p)))));
       (py "total_requests", JAtom (SInt (total_requests p)));
       (py "blocked_count", JAtom (SInt (blocked_count p)));
       (py "start_time", JAtom (SStr (start_time_isoformat env)));
       (py "end_time", JAtom (SStr (now_isoformat env ended)));
       (py "elapsed_seconds", JAtom (SFloat (elapsed_seconds env elapsed)));
       (py "start_page", JAtom (SInt start_page));
       (py "end_page", JAtom (SInt end_page));
       (py "delays_config",
        JObj
          [ (py "DELAY_MIN", JAtom (pynum_scalar (DELAY_MIN (config p))));
            (py "DELAY_MAX", JAtom (pynum_scalar (DELAY_MAX (config p))));
            (py "DELAY_BETWEEN_HOTELS_MIN",
             JAtom (pynum_scalar (DELAY_BETWEEN_HOTELS_MIN (config p))));
            (py "DELAY_BETWEEN_HOTELS_MAX",
             JAtom (pynum_scalar (DELAY_BETWEEN_HOTELS_MAX (config p))));
            (py "DELAY_BETWEEN_PAGES_MIN",
             JAtom (pynum_scalar (DELAY_BETWEEN_PAGES_MIN (config p))));
            (py "DELAY_BETWEEN_PAGES_MAX",
             JAtom (pynum_scalar (DELAY_BETWEEN_PAGES_MAX (config p))));
            (py "DELAY_AFTER_BLOCK", JAtom (pynum_scalar (DELAY_AFTER_BLOCK (config p)))) ]) ]
     ++ match results p with
        | [] => []
        | _ :: _ =>
            [ (py "average_rating",
               JAtom (match report_ratings (results p) with
                      | [] => SInt 0
                      | _ :: _ => mean env (report_ratings (results p))
                      end));
              (py "reviews_before_2020", JAtom (SInt (before_2020_count (results p))));
              (py "percent_before_2020",
               JAtom (SFloat (percent (before_2020_count (results p))
                                (Z.of_nat (length (results p)))))) ]
        end).

Definition stats_path : pystr := py "data/scraping_stats.json".

(** The two saves of the handlers of [run]. *)
Definition save_all (env : Env) (p : Parser) (w : World) : World :=
  _save_results env p (_save_progress env p w).

(** [run(start_page, end_page)]: the crawl loop, the final report, the final
    [_save_results], the statistics file, and the handler [except Exception],
    which saves progress and results. An exception that leaves the loop, the
    [TypeError] of the report and the exception of a statistics file that
    cannot be encoded all end in that handler. What [run] prints is left
    out. (The handler [except KeyboardInterrupt] makes the same two saves;
    keyboard interruptions are outside the model.) *)
Definition run (env : Env) (start_page : Z) (end_page : option Z) (p : Parser) (w : World)
  : Parser * World :=
  let end_page := default (MAX_PAGES (config p)) end_page in
  let pages := seqZ start_page (end_page + 1 - start_page) in
  let successful := successful_pages env end_page pages p w in
  match run_pages env end_page pages p w with
  | (Ret _, p, w) =>
      let elapsed := clock_reads w in
      let w := tick w in
      if report_printable (results p) then
        let w := _save_results env p w in
        let ts := encode (stats_json env successful start_page end_page p elapsed
                            (clock_reads w)) in
        let w := tick w in
        match dump_stop ts with
        | None => (p, set_files (foldl apply_op (files w) (dump_ops stats_path ts)) w)
        | Some n =>
            (p, save_all env p
                  (set_files (foldl apply_op (files w) (take (S n) (dump_ops stats_path ts)))
                     w))
        end
      else (p, save_all env p w)
  | (Raise _, p, w) => (p, save_all env p w)
  end.

(** ** Construction: [__init__] *)

(** The assignments of the constructor to the configuration object: the
    seven delay attributes are overwritten, [TIMEOUT] is set when absent. *)
Definition init_config (c : Config) : Config := {|
  BASE_URL := BASE_URL c;
  MAX_PAGES := MAX_PAGES c;
  OUTPUT_FILE := OUTPUT_FILE c;
  PROGRESS_FILE := PROGRESS_FILE c;
  DELAY_MIN := NFloat (float_of_Z 3);
  DELAY_MAX := NFloat (float_of_Z 5);
  DELAY_BETWEEN_PAGES_MIN := NFloat (float_of_Z 3);
  DELAY_BETWEEN_PAGES_MAX := NFloat (float_of_Z 5);
  DELAY_BETWEEN_HOTELS_MIN := NFloat (float_of_Z 3);
  DELAY_BETWEEN_HOTELS_MAX := NFloat (float_of_Z 5);
  DELAY_AFTER_BLOCK := NInt 10;
  MAX_RETRIES := MAX_RETRIES c;
  TIMEOUT := match TIMEOUT c with
             | Some t => Some t
             | None => Some (NInt 10)
             end;
  MAX_HOTELS_PER_PAGE := MAX_HOTELS_PER_PAGE c;
  MAX_REVIEWS_PER_HOTEL := MAX_REVIEWS_PER_HOTEL c;
  USER_AGENTS := USER_AGENTS c;
  SELECTORS_LIST := SELECTORS_LIST c;
  SELECTORS_HOTEL := SELECTORS_HOTEL c
|}.

(** [_create_session()]: a random User-Agent and the fixed Referer. *)
Definition _create_session (env : Env) (c : Config) (w : World) : outcome Session * World :=
  match random_choice env (USER_AGENTS c) w with
  | (Raise e, w) => (Raise e, w)
  | (Ret ua, w) => (Ret {| user_agent := ua; referer := py "https://otzovik.com/" |}, w)
  end.

(** [OtzyovikParser(config)] for a given configuration object. The object is
    shared with the caller: the assignments of [init_config] are made to it. *)
Definition __init__ (env : Env) (c : Config) (w : World) : outcome Parser * World :=
  let c := init_config c in
  match _create_session env c w with
  | (Raise e, w) => (Raise e, w)
  | (Ret s, w) =>
      let p := {| config := c; session := s; results := [];
                  processed_hotels := ∅; processed_pages := ∅;
                  total_requests := 0; blocked_count := 0 |} in
      (Ret (_load_progress p w), w)
  end.

(** ** Extraction of a listing: [parse_list_page] *)

(** What [parse_list_page] reads from one container of the listing: the
    [href] attribute and the stripped text of the hotel link when the link
    element exists, the text of the review counter and the stripped text of
    the rating when these elements exist. *)
Record Container := {
  link : option (option pystr * pystr);
  counter_text : option pystr;
  rating_text : option pystr
}.

(** The library routines that [parse_list_page] applies to these texts:
    [urljoin] against the site root ([None] when it raises), the integer of
    the first run of digits of a text ([re.search] with the pattern
    [(\d+)], then [int]; [None] without a match), and the six digits that
    the identifier takes from [hash]. *)
Record ListLib := {
  urljoin_site : pystr -> option pystr;
  first_number : pystr -> option Z;
  hash_digits : pystr -> pystr
}.

(** [l[:n]]: the first [n] elements, or all but the last [-n] when [n] is
    negative. *)
Definition slice_to {A : Type} (n : Z) (l : list A) : list A :=
  if 0 <=? n then take (Z.to_nat n) l
  else take (length l - Z.to_nat (- n)) l.

(** The body of the loop over the containers: [None] when the container is
    passed over ([continue], or an exception caught inside the loop). The
    rating of a hotel without rating element is the Russian word for "no",
    given by its code points. *)
Definition hotel_of (lib : ListLib) (page_num : Z) (page_url : pystr) (c : Container)
  : option Hotel :=
  match link c with
  | None => None
  | Some (None, _) => None
  | Some (Some href, name) =>
      if negb (str_truthy href) then None
      else
        match (if starts_with (py "http") href then Some href else urljoin_site lib href) with
        | None => None
        | Some url =>
            Some {| hotel_id := py "hotel_" ++ hash_digits lib url;
                    hotel_name := name;
                    hotel_url := url;
                    reviews_count :=
                      match counter_text c with
                      | Some t => default 0 (first_number lib t)
                      | None => 0
                      end;
                    hotel_rating :=
                      match rating_text c with
                      | Some t => t
                      | None => [1053; 1077; 1090]%N
                      end;
                    list_page := page_num;
                    list_url := page_url |}
        end
  end.

(** [parse_list_page] on the containers that the selector finds in the
    page. *)
Definition list_page_hotels (lib : ListLib) (c : Config) (containers : list Container)
    (page_num : Z) (page_url : pystr) : list Hotel :=
  match containers with
  | [] => []
  | _ :: _ =>
      omap (hotel_of lib page_num page_url) (slice_to (MAX_HOTELS_PER_PAGE c) containers)
  end.

(** ** Extraction of the reviews: [extract_review_rating],
    [extract_review_date], [parse_hotel_page] *)

(** The element selected by [review_date]: its [content] attribute, if it
    has one, and its text. *)
Record DateElem := {
  content_attr : option pystr;
  elem_text : pystr
}.

(** What the extraction routines read from one review item: the stripped
    text of the elements that the selectors find ([None] when there is no
    such element), the date element, the [content] attribute of the meta
    element (when the element exists and has the attribute), the text nodes
    of the item in document order, and the [src] attribute of each image. *)
Record Item := {
  item_rating : option pystr;
  item_date : option DateElem;
  item_date_meta : option pystr;
  item_texts : list pystr;
  item_title : option pystr;
  item_teaser : option pystr;
  item_plus : option pystr;
  item_minus : option pystr;
  item_author : option pystr;
  item_location : option pystr;
  item_recommendations : option pystr;
  item_comments : option pystr;
  item_images : list (option pystr)
}.

(** What the code takes from a [datetime] parsed by [fromisoformat]:
    [isoformat()], [strftime('%d.%m.%Y')], [str(dt.year)] and the month and
    the day on two digits. *)
Record IsoDate := {
  iso_text : pystr;
  iso_dmy : pystr;
  iso_year : pystr;
  iso_month : pystr;
  iso_day : pystr
}.

(** The library routines applied to these texts. [None] stands for the
    exception that the routine can raise ([ValueError] of [float], [int] and
    [fromisoformat]) or for a pattern that does not match. The searches are
    [re.search] with the patterns of the code: [search_rating] gives the two
    groups of the rating pattern, [search_date_words] the three groups of
    the first date pattern (day, month name, year), [search_date_dots] and
    [search_date_dashes] tell whether the second and the third date pattern
    match, and the three [find_] routines give the matched text of the
    patterns tried on the text nodes. *)
Record ReviewLib := {
  search_rating : pystr -> option (pystr * pystr);
  float_of_text : pystr -> option spec_float;
  str_strip : pystr -> pystr;
  str_isdigit : pystr -> bool;
  int_of_text : pystr -> option Z;
  lower_text : pystr -> pystr;
  fromisoformat : pystr -> option IsoDate;
  search_date_words : pystr -> option (pystr * pystr * pystr);
  search_date_dots : pystr -> bool;
  search_date_dashes : pystr -> bool;
  find_date_words : pystr -> option pystr;
  find_date_dots : pystr -> option pystr;
  find_date_dashes : pystr -> option pystr;
  hash_digits4 : pystr -> pystr;
  scraped_at : Z -> pystr
}.

(** The dictionary [rating_data]. *)
Record RatingData := {
  rd_text : pystr;
  rd_numeric : option spec_float;
  rd_stars : option Z
}.

(** The float [n / 2], for the literals 4.5, 3.5, 2.5 and 1.5. *)
Definition float_of_halves (n : Z) : spec_float := binary_normalize 53 1024 n (-1) false.

(** The stars of a numeric rating. *)
Definition stars_of (rating_num : spec_float) : Z :=
  if SFleb (float_of_halves 9) rating_num then 5
  else if SFleb (float_of_halves 7) rating_num then 4
  else if SFleb (float_of_halves 5) rating_num then 3
  else if SFleb (float_of_halves 3) rating_num then 2
  else 1.

(** [extract_review_rating], from the stripped text of the rating element.
    An exception inside the method is caught there and the dictionary is
    returned as far as it was filled. *)
Definition extract_review_rating (lib : ReviewLib) (rating_elem : option pystr) : RatingData :=
  match rating_elem with
  | None => {| rd_text := []; rd_numeric := None; rd_stars := None |}
  | Some rating_text =>
      match search_rating lib (str_replace (py ",") (py ".") rating_text) with
      | None => {| rd_text := rating_text; rd_numeric := None; rd_stars := None |}
      | Some (whole, fraction) =>
          match float_of_text lib (if str_truthy fraction
                                   then whole ++ py "." ++ fraction
                                   else whole) with
          | None => {| rd_text := rating_text; rd_numeric := None; rd_stars := None |}
          | Some rating_num =>
              {| rd_text := rating_text; rd_numeric := Some rating_num;
                 rd_stars := Some (stars_of rating_num) |}
          end
      end
  end.

(** The dictionary [date_data]. *)
Record DateData := {
  date_display : pystr;
  date_iso : pystr;
  date_raw : pystr;
  date_year : pystr;
  date_month : pystr;
  date_day : pystr
}.

Definition empty_date : DateData :=
  {| date_display := []; date_iso := []; date_raw := [];
     date_year := []; date_month := []; date_day := [] |}.

(** A final [Z] is replaced by [+00:00]. *)
Definition iso_input (s : pystr) : pystr :=
  match last s with
  | Some 90%N => removelast s ++ py "+00:00"
  | _ => s
  end.

(** The date from a [content] attribute; [fallback] is what is displayed
    when the attribute is not an ISO date. *)
Definition date_from_content (lib : ReviewLib) (content fallback : pystr) (d : DateData)
  : DateData :=
  match fromisoformat lib (iso_input content) with
  | Some dt =>
      {| date_display := iso_dmy dt; date_iso := iso_text dt; date_raw := content;
         date_year := iso_year dt; date_month := iso_month dt; date_day := iso_day dt |}
  | None =>
      {| date_display := fallback; date_iso := date_iso d; date_raw := content;
         date_year := date_year d; date_month := date_month d; date_day := date_day d |}
  end.

(** The dictionary [months_ru], with the names given by their code points. *)
Definition months_ru : list (pystr * pystr) :=
  [ ([1103; 1085; 1074; 1072; 1088; 1103]%N, py "01");
    ([1092; 1077; 1074; 1088; 1072; 1083; 1103]%N, py "02");
    ([1084; 1072; 1088; 1090; 1072]%N, py "03");
    ([1072; 1087; 1088; 1077; 1083; 1103]%N, py "04");
    ([1084; 1072; 1103]%N, py "05");
    ([1080; 1102; 1085; 1103]%N, py "06");
    ([1080; 1102; 1083; 1103]%N, py "07");
    ([1072; 1074; 1075; 1091; 1089; 1090; 1072]%N, py "08");
    ([1089; 1077; 1085; 1090; 1103; 1073; 1088; 1103]%N, py "09");
    ([1086; 1082; 1090; 1103; 1073; 1088; 1103]%N, py "10");
    ([1085; 1086; 1103; 1073; 1088; 1103]%N, py "11");
    ([1076; 1077; 1082; 1072; 1073; 1088; 1103]%N, py "12") ].

(** [months_ru.get(name, '01')] *)
Definition month_number (name : pystr) : pystr :=
  match List.find (fun kv => str_eqb (fst kv) name) months_ru with
  | Some kv => snd kv
  | None => py "01"
  end.

(** An integer formatted with [:02d]. *)
Definition pad2 (n : Z) : pystr :=
  if (0 <=? n) && (n <? 10) then py "0" ++ str_of_Z n else str_of_Z n.

(** The date from the text of the date element. The second component tells
    that [int] raised: the method then returns the dictionary as it is. *)
Definition date_from_text (lib : ReviewLib) (date_text : pystr) : DateData * bool :=
  match search_date_words lib date_text with
  | Some (day, month_ru, year) =>
      let month := month_number (lower_text lib month_ru) in
      match int_of_text lib day with
      | None =>
          ({| date_display := date_text; date_iso := []; date_raw := date_text;
              date_year := year; date_month := month; date_day := [] |}, true)
      | Some n =>
          ({| date_display := day ++ py "." ++ month ++ py "." ++ year;
              date_iso := []; date_raw := date_text;
              date_year := year; date_month := month; date_day := pad2 n |}, false)
      end
  | None =>
      if search_date_dots lib date_text || search_date_dashes lib date_text
      then ({| date_display := date_text; date_iso := []; date_raw := date_text;
               date_year := []; date_month := []; date_day := [] |}, false)
      else ({| date_display := date_text; date_iso := []; date_raw := [];
               date_year := []; date_month := []; date_day := [] |}, false)
  end.

(** The first of the three patterns that matches in a text node. *)
Definition find_date (lib : ReviewLib) (text : pystr) : option pystr :=
  match find_date_words lib text with
  | Some m => Some m
  | None =>
      match find_date_dots lib text with
      | Some m => Some m
      | None => find_date_dashes lib text
      end
  end.

(** The loop over the text nodes of the item. *)
Fixpoint scan_texts (lib : ReviewLib) (texts : list pystr) (d : DateData) : DateData :=
  match texts with
  | [] => d
  | text :: rest =>
      let d := if str_truthy text then
                 match find_date lib text with
                 | Some m =>
                     {| date_display := m; date_iso := date_iso d; date_raw := m;
                        date_year := date_year d; date_month := date_month d;
                        date_day := date_day d |}
                 | None => d
                 end
               else d in
      if str_truthy (date_display d) then d else scan_texts lib rest d
  end.

(** The first way of [extract_review_date]: the element selected by
    [review_date]. The second component tells that an exception was raised:
    the method then returns the dictionary as it is. *)
Definition date_first_way (lib : ReviewLib) (item : Item) : DateData * bool :=
  match item_date item with
  | None => (empty_date, false)
  | Some date_elem =>
      match content_attr date_elem with
      | Some content =>
          (date_from_content lib content (str_strip lib (elem_text date_elem)) empty_date,
           false)
      | None =>
          if str_truthy (elem_text date_elem)
          then date_from_text lib (str_strip lib (elem_text date_elem))
          else (empty_date, false)
      end
  end.

(** The second way: the meta element, when nothing is displayed yet. When
    its [content] is not an ISO date, what is displayed is the text that was
    given to [fromisoformat], with [+00:00] in the place of a final [Z]. *)
Definition date_second_way (lib : ReviewLib) (item : Item) (d : DateData) : DateData :=
  if str_truthy (date_display d) then d
  else match item_date_meta item with
       | Some content => date_from_content lib content (iso_input content) d
       | None => d
       end.

(** [extract_review_date]; the third way is the scan of the text nodes. *)
Definition extract_review_date (lib : ReviewLib) (item : Item) : DateData :=
  let '(d, raised) := date_first_way lib item in
  if raised then d
  else
    let d := date_second_way lib item d in
    if str_truthy (date_display d) then d
    else scan_texts lib (item_texts item) d.

(** [sep.join(parts)] *)
Fixpoint str_join (sep : pystr) (parts : list pystr) : pystr :=
  match parts with
  | [] => []
  | [part] => part
  | part :: rest => part ++ sep ++ str_join sep rest
  end.

(** The text of an optional element: [elem.text.strip() if elem else '']. *)
Definition text_or_empty (elem : option pystr) : pystr := default [] elem.

(** The text of the element of advantages or of drawbacks, without its
    label: when the stripped text starts with [label], the first
    [label_length] characters are cut and the rest is stripped again. *)
Definition unlabelled (lib : ReviewLib) (label : pystr) (label_length : nat)
    (elem : option pystr) : pystr :=
  match elem with
  | None => []
  | Some text => if starts_with label text then str_strip lib (drop label_length text) else text
  end.

(** The labels, given by their code points: "Достоинства:" and
    "Недостатки:" (with a space appended in the full text), "Заголовок: "
    and "Текст: ". *)
Definition label_plus : pystr :=
  [1044; 1086; 1089; 1090; 1086; 1080; 1085; 1089; 1090; 1074; 1072; 58]%N.
Definition label_minus : pystr :=
  [1053; 1077; 1076; 1086; 1089; 1090; 1072; 1090; 1082; 1080; 58]%N.
Definition label_title : pystr :=
  [1047; 1072; 1075; 1086; 1083; 1086; 1074; 1086; 1082; 58; 32]%N.
Definition label_teaser : pystr := [1058; 1077; 1082; 1089; 1090; 58; 32]%N.

(** A counter read from an element: 0 without element or when the text is
    not made of digits; [None] when [int] raises. *)
Definition counter_of (lib : ReviewLib) (elem : option pystr) : option Z :=
  match elem with
  | None => Some 0
  | Some text => if str_isdigit lib text then int_of_text lib text else Some 0
  end.

(** [before_2020]; [None] when [int] raises. *)
Definition before_2020_of (lib : ReviewLib) (year : pystr) : option bool :=
  if str_truthy year && str_isdigit lib year then
    match int_of_text lib year with
    | Some y => Some (y <? 2020)
    | None => None
    end
  else Some false.

(** The list [text_parts]. *)
Definition text_parts (title teaser plus_text minus_text : pystr) : list pystr :=
  (if str_truthy title then [label_title ++ title] else [])
  ++ (if str_truthy teaser then [label_teaser ++ teaser] else [])
  ++ (if str_truthy plus_text then [label_plus ++ py " " ++ plus_text] else [])
  ++ (if str_truthy minus_text then [label_minus ++ py " " ++ minus_text] else []).

Definition scalar_of_float (f : option spec_float) : scalar :=
  match f with Some x => SFloat x | None => SNone end.

Definition scalar_of_int (n : option Z) : scalar :=
  match n with Some x => SInt x | None => SNone end.

(** The body of the loop over the review items, for the item at position
    [idx]: the dictionary [review], or [None] when an exception is caught
    and the item is passed over. *)
Definition review_of (lib : ReviewLib) (hotel_data : Hotel) (idx : Z) (item : Item)
  : option record :=
  let rating_data := extract_review_rating lib (item_rating item) in
  let date_data := extract_review_date lib item in
  match before_2020_of lib (date_year date_data) with
  | None => None
  | Some before_2020 =>
      let title := text_or_empty (item_title item) in
      let teaser := text_or_empty (item_teaser item) in
      let plus_text := unlabelled lib label_plus 12 (item_plus item) in
      let minus_text := unlabelled lib label_minus 11 (item_minus item) in
      let author := text_or_empty (item_author item) in
      let location := text_or_empty (item_location item) in
      match counter_of lib (item_recommendations item) with
      | None => None
      | Some recommendations =>
          match counter_of lib (item_comments item) with
          | None => None
          | Some comments =>
              let images :=
                omap (fun src => match src with
                                 | Some s => if str_truthy s then Some s else None
                                 | None => None
                                 end) (item_images item) in
              let full_text :=
                str_join [10; 10]%N (text_parts title teaser plus_text minus_text) in
              let review_id :=
                hotel_id hotel_data ++ py "_review_" ++ str_of_Z idx ++ py "_"
                ++ hash_digits4 lib (title ++ date_display date_data) in
              Some (dict_of
                [ (py "review_id", SStr review_id);
                  (py "hotel_id", SStr (hotel_id hotel_data));
                  (py "hotel_name", SStr (hotel_name hotel_data));
                  (py "hotel_url", SStr (hotel_url hotel_data));
                  (py "hotel_rating", SStr (hotel_rating hotel_data));
                  (py "review_rating_text", SStr (rd_text rating_data));
                  (py "review_rating_numeric", scalar_of_float (rd_numeric rating_data));
                  (py "review_rating_stars", scalar_of_int (rd_stars rating_data));
                  (py "review_title", SStr title);
                  (py "review_text", SStr full_text);
                  (py "review_teaser", SStr teaser);
                  (py "review_plus", SStr plus_text);
                  (py "review_minus", SStr minus_text);
                  (py "review_date", SStr (date_display date_data));
                  (py "review_date_iso", SStr (date_iso date_data));
                  (py "review_date_raw", SStr (date_raw date_data));
                  (py "review_year", SStr (date_year date_data));
                  (py "review_month", SStr (date_month date_data));
                  (py "review_day", SStr (date_day date_data));
                  (py "before_2020", SBool before_2020);
                  (py "review_author", SStr author);
                  (py "review_author_location", SStr location);
                  (py "recommendations", SInt recommendations);
                  (py "comments", SInt comments);
                  (py "images_count", SInt (Z.of_nat (length images)));
                  (py "images", SStr (str_join (py "; ") images));
                  (py "list_page", SInt (list_page hotel_data));
                  (py "scraped_at", SStr (scraped_at lib idx)) ])
          end
      end
  end.

(** The loop [for idx, item in enumerate(..., 1)], from position [idx] on. *)
Fixpoint reviews_from (lib : ReviewLib) (hotel_data : Hotel) (idx : Z) (items : list Item)
  : list record :=
  match items with
  | [] => []
  | item :: rest =>
      match review_of lib hotel_data idx item with
      | Some review => review :: reviews_from lib hotel_data (idx + 1) rest
      | None => reviews_from lib hotel_data (idx + 1) rest
      end
  end.

(** [parse_hotel_page] on the review items that the selector finds in the
    page. *)
Definition hotel_page_reviews (lib : ReviewLib) (c : Config) (review_items : list Item)
    (hotel_data : Hotel) : list record :=
  match review_items with
  | [] => []
  | _ :: _ =>
      reviews_from lib hotel_data 1 (slice_to (MAX_REVIEWS_PER_HOTEL c) review_items)
  end.

(** ** The command line: [main] *)

(** The page range that [main] computes from the two lines it reads and
    passes to [run]. An input is [None] when the stripped line is empty or
    when [int] raises [ValueError] on it: the default is kept in both
    cases. *)
Definition page_range (max_pages : Z) (start_input end_input : option Z) : Z * Z :=
  let start_page := match start_input with
                    | Some n => Z.max 1 n
                    | None => 1
                    end in
  let end_page := match end_input with
                  | Some n => Z.min n max_pages
                  | None => max_pages
                  end in
  let start_page := if start_page <? 1 then 1 else start_page in
  let end_page := if max_pages <? end_page then max_pages else end_page in
  if end_page <? start_page then (end_page, start_page) else (start_page, end_page).

(** [main] from the point where the configuration [c] is loaded: the range
    is computed from the two inputs and, when the answer to the last
    question is one of the accepted ones ([confirmed]), the parser is
    constructed and run over the range. An exception of the constructor is
    caught by [main]; the result is the parser after the run, if there was
    one. What [main] prints is left out. *)
Definition main (env : Env) (c : Config) (start_input end_input : option Z)
    (confirmed : bool) (w : World) : option Parser * World :=
  let r := page_range (MAX_PAGES c) start_input end_input in
  if confirmed then
    match __init__ env c w with
    | (Ret p, w) =>
        let '(p, w) := run env (fst r) (Some (snd r)) p w in
        (Some p, w)
    | (Raise _, w) => (None, w)
    end
  else (None, w).

(** ** Notions used in the statements *)

(** A token sequence that starts like a value. *)
Definition opens_value (ts : list token) : bool :=
  match ts with
  | TAtom _ :: _ | TLBracket :: _ | TLBrace :: _ => true
  | _ => false
  end.

(** [p] is what has been written of [l] when the writing is not finished. *)
Definition strict_prefix (p l : list token) : Prop :=
  exists s, s <> [] /\ l = p ++ s.

(** A save is atomic when, wherever it stops, the progress file holds either
    what it held before the save or what it holds after it. *)
Definition atomic_save (env : Env) (p : Parser) (w : World) : Prop :=
  forall n,
    files (_save_progress_stopped n env p w) !! PROGRESS_FILE (config p)
      = files w !! PROGRESS_FILE (config p)
    \/ files (_save_progress_stopped n env p w) !! PROGRESS_FILE (config p)
      = files (_save_progress env p w) !! PROGRESS_FILE (config p).

(** The parser and the world of one call of [make_request] at the moment its
    response arrives: the request counter is advanced, the random delay has
    been slept, the Referer header is set and the request is sent. *)
Definition attempt_parser (referer_arg : option pystr) (p : Parser) : Parser :=
  let p := set_total_requests (total_requests p + 1) p in
  match referer_arg with
  | Some r => if str_truthy r then set_referer r p else p
  | None => p
  end.

Definition attempt_world (env : Env) (url : pystr) (referer_arg : option pystr)
    (p : Parser) (w : World) : World :=
  snd (session_get env url referer_arg (attempt_parser referer_arg p) (_random_delay p w)).

(** The response to the request that a call of [make_request] sends from [w]. *)
Definition attempt_result (env : Env) (url : pystr) (w : World) : NetResult :=
  server env (requests_sent w) url.

(** The wait after a block at attempt [a]. *)
Definition block_wait (p : Parser) (a : Z) : pynum :=
  pynum_mul_int (DELAY_AFTER_BLOCK (config p)) (a + 1).

(** The requests among the events [evs] are all for [url], made with the
    argument [referer_arg]. *)
Definition requests_only (url : pystr) (referer_arg : option pystr) (evs : list Event) : Prop :=
  Forall (fun e => match e with
                   | EvRequest u r _ => u = url /\ r = referer_arg
                   | _ => True
                   end) evs.

(** From [(p, w)] to [(p', w')] only the session, the two counters and the
    trace changed, and the new events are [evs]. *)
Record fetch_frame (p : Parser) (w : World) (p' : Parser) (w' : World)
    (evs : list Event) : Prop := {
  ff_config : config p' = config p;
  ff_results : results p' = results p;
  ff_hotels : processed_hotels p' = processed_hotels p;
  ff_pages : processed_pages p' = processed_pages p;
  ff_files : files w' = files w;
  ff_trace : trace w' = trace w ++ evs
}.

(** Among the events [evs], a request for a hotel page (it carries a
    [referer] argument; the request for a list page carries none) is never
    for a URL of the set [H]. *)
Definition hotel_requests_avoid (H : gset pystr) (evs : list Event) : Prop :=
  Forall (fun e => match e with
                   | EvRequest u (Some _) _ => u ∉ H
                   | _ => True
                   end) evs.

(** From [(p, w)] to [(p', w')] the configuration is the same, the processed
    sets have only grown, and the new events are [evs]. *)
Record crawl_frame (p : Parser) (w : World) (p' : Parser) (w' : World)
    (evs : list Event) : Prop := {
  cf_config : config p' = config p;
  cf_hotels : processed_hotels p ⊆ processed_hotels p';
  cf_pages : processed_pages p ⊆ processed_pages p';
  cf_trace : trace w' = trace w ++ evs
}.


(** The keys and the string values of a record can be encoded. *)
Definition record_encodable (r : record) : bool :=
  forallb (fun kv => encodable (fst kv) && negb (refused (TAtom (snd kv)))) (map_to_list r).

(** The strings of the state that a checkpoint holds can be encoded: the
    URLs of the processed hotels and the strings of the results. *)
Definition state_encodable (p : Parser) : bool :=
  forallb encodable (elements (processed_hotels p)) && forallb record_encodable (results p).


(** The URLs requested by hotel-page fetches among [evs]. *)
Definition hotel_fetches (evs : list Event) : list pystr :=
  omap (fun e => match e with
                 | EvRequest u (Some _) _ => Some u
                 | _ => None
                 end) evs.

(** The number of requests sent between two worlds. *)
Definition requests_made (w w' : World) : Z :=
  Z.of_nat (requests_sent w') - Z.of_nat (requests_sent w).


(** The largest number of requests one call of [make_request] from attempt 0
    can send. *)
Definition attempts_limit (p : Parser) : Z := 1 + Z.max 0 (MAX_RETRIES (config p)).

(** From [(p, w)] to [(p', w')] the request counter advanced by the number
    of requests sent, the block counter did not go down and advanced by no
    more than that number, and the buffer of results was only appended to. *)
Record crawl_account (p : Parser) (w : World) (p' : Parser) (w' : World) : Prop := {
  ca_sent : (requests_sent w <= requests_sent w')%nat;
  ca_requests : total_requests p' = total_requests p + requests_made w w';
  ca_blocked : blocked_count p <= blocked_count p' <= blocked_count p + requests_made w w';
  ca_results : results p `prefix_of` results p'
}.

(** From [w] to [w'] events were added to the trace, and they satisfy [P]. *)
Definition traced (P : list Event -> Prop) (w w' : World) : Prop :=
  exists evs, trace w' = trace w ++ evs /\ P evs.

(** No request for a list page (a request without [referer] argument) among
    the events. *)
Definition no_list_request (evs : list Event) : Prop :=
  Forall (fun e => match e with
                   | EvRequest _ None _ => False
                   | _ => True
                   end) evs.

(** Among the events [evs], a request for a list page is for the page of a
    number that satisfies [ok] and is not in [processed_pages] of [p]. *)
Definition list_requests_within (p : Parser) (ok : Z -> Prop) (evs : list Event) : Prop :=
  Forall (fun e => match e with
                   | EvRequest u None _ =>
                       exists k, ok k /\ (k ∉ processed_pages p) /\ u = get_list_page_url p k
                   | _ => True
                   end) evs.

(** Where the year of a review can come from: an ISO date in the [content]
    attribute of the date element or of the meta element, or the year group
    of the pattern with a month name, found in the text of a date element
    without [content] attribute. *)
Definition year_source (lib : ReviewLib) (item : Item) (year : pystr) : Prop :=
  (exists content dt,
     ((exists e, item_date item = Some e /\ content_attr e = Some content)
      \/ item_date_meta item = Some content) /\
     fromisoformat lib (iso_input content) = Some dt /\
     year = iso_year dt)
  \/ (exists e day month_ru,
        item_date item = Some e /\ content_attr e = None /\
        search_date_words lib (str_strip lib (elem_text e)) = Some (day, month_ru, year)).

(** ** Scenarios

    Concrete inputs on which the definitions are evaluated: one list page
    with hotel A (three reviews announced) and hotel B (none), a server whose
    answer for the page of hotel A is a parameter, and a parser as the
    constructor builds it from the default configuration. *)

(** [str.lower] on ASCII text. *)
Definition ascii_lower (s : pystr) : pystr :=
  List.map (fun c => if (65 <=? c)%N && (c <=? 90)%N then (c + 32)%N else c) s.

(** A page of 1030 characters that carries the content marker. *)
Definition real_page : pystr :=
  py "<html><div class=product-list>" ++ repeat 120%N 1000.

Definition html_response (body : pystr) : Response :=
  {| status_code := 200; content_type := Some (py "text/html; charset=utf-8"); text := body |}.

(** The same page served with another status code. *)
Definition status_response (code : Z) : Response :=
  {| status_code := code; content_type := Some (py "text/html"); text := real_page |}.

(** A block page served with status 200. *)
Definition captcha_page : Response :=
  html_response (py "<html>Please solve the CAPTCHA to continue</html>").

Definition hotel_a : Hotel :=
  {| hotel_id := py "hotel_000001"; hotel_name := py "Hotel A";
     hotel_url := py "https://otzovik.com/reviews/hotel_a/";
     reviews_count := 3; hotel_rating := py "4.5";
     list_page := 1; list_url := BASE_URL default_config |}.

Definition hotel_b : Hotel :=
  {| hotel_id := py "hotel_000002"; hotel_name := py "Hotel B";
     hotel_url := py "https://otzovik.com/reviews/hotel_b/";
     reviews_count := 0; hotel_rating := py "3.0";
     list_page := 1; list_url := BASE_URL default_config |}.

Definition review_first : record :=
  {[ py "review_id" := SStr (py "hotel_000001_review_1_0042");
     py "review_title" := SStr (py "Good");
     py "review_rating_numeric" := SFloat (float_of_Z 4) ]}.

(** A later record with the identifier of [review_first]. *)
Definition review_again : record :=
  {[ py "review_id" := SStr (py "hotel_000001_review_1_0042");
     py "review_title" := SStr (py "Good, updated");
     py "review_rating_numeric" := SFloat (float_of_Z 5) ]}.

Definition review_other : record :=
  {[ py "review_id" := SStr (py "hotel_000001_review_2_0007");
     py "review_title" := SStr (py "Bad");
     py "review_rating_numeric" := SFloat (float_of_Z 1) ]}.

(** The server answers [hotel_page] for the page of hotel A and a real page
    for every other URL; list page 1 shows hotels A and B, other list pages
    show none; a hotel page yields [review_first]. *)
Definition scenario_env (hotel_page : NetResult) : Env :=
  {| str_lower := ascii_lower;
     server := fun _ url =>
       if str_eqb url (hotel_url hotel_a) then hotel_page
       else Responded (html_response real_page);
     random_index := fun n => n;
     time_time := fun _ => 1700000000;
     now_isoformat := fun _ => py "2023-11-14T22:13:20";
     parse_list_page := fun _ _ page_num _ =>
       if page_num =? 1 then [hotel_a; hotel_b] else [];
     parse_hotel_page := fun _ _ _ => [review_first];
     frame_report_ok := fun _ => true;
     sleep_far := fun _ => Some OverflowError;
     start_time_isoformat := py "2024-01-01T00:00:00";
     elapsed_seconds := fun n => float_of_Z (Z.of_nat n);
     mean := fun _ => SFloat (float_of_Z 4) |}.

Definition empty_world : World :=
  {| files := ∅; trace := []; requests_sent := 0; random_draws := 0; clock_reads := 0 |}.

(** The parser that [__init__] builds from the default configuration when
    there is no progress file. *)
Definition fresh_parser : Parser :=
  {| config := init_config default_config;
     session := {| user_agent := default [] (USER_AGENTS default_config !! 0%nat);
                   referer := py "https://otzovik.com/" |};
     results := []; processed_hotels := ∅; processed_pages := ∅;
     total_requests := 0; blocked_count := 0 |}.

(** A parser in the middle of a crawl. *)
Definition busy_parser : Parser :=
  {| config := init_config default_config;
     session := session fresh_parser;
     results := [review_first; review_other; review_again];
     processed_hotels := {[ hotel_url hotel_a; hotel_url hotel_b ]};
     processed_pages := {[ 1; 2 ]};
     total_requests := 7; blocked_count := 2 |}.

(** A record whose title holds a lone surrogate, as [json.load] builds it
    from the escape [\ud800], and a parser that has it in its buffer. *)
Definition review_surrogate : record :=
  {[ py "review_id" := SStr (py "hotel_000001_review_3_0011");
     py "review_title" := SStr [55296%N];
     py "review_rating_numeric" := SFloat (float_of_Z 3) ]}.

Definition surrogate_parser : Parser :=
  set_results (results busy_parser ++ [review_surrogate]) busy_parser.

(** A server that never answers: every request times out. *)
Definition offline_env : Env :=
  {| str_lower := ascii_lower;
     server := fun _ _ => TimedOut;
     random_index := fun n => n;
     time_time := fun _ => 1700000000;
     now_isoformat := fun _ => py "2023-11-14T22:13:20";
     parse_list_page := fun _ _ _ _ => [];
     parse_hotel_page := fun _ _ _ => [];
     frame_report_ok := fun _ => true;
     sleep_far := fun _ => Some OverflowError;
     start_time_isoformat := py "2024-01-01T00:00:00";
     elapsed_seconds := fun n => float_of_Z (Z.of_nat n);
     mean := fun _ => SFloat (float_of_Z 4) |}.

(** A review without rating element: [extract_review_rating] leaves
    ['numeric'] at [None]. *)
Definition review_unrated : record :=
  {[ py "review_id" := SStr (py "hotel_000001_review_1_0099");
     py "review_title" := SStr (py "No stars given");
     py "review_rating_numeric" := SNone ]}.

(** Every page is served; the page of a hotel yields [review_unrated]. *)
Definition unrated_env : Env :=
  {| str_lower := ascii_lower;
     server := fun _ _ => Responded (html_response real_page);
     random_index := fun n => n;
     time_time := fun _ => 1700000000;
     now_isoformat := fun _ => py "2023-11-14T22:13:20";
     parse_list_page := fun _ _ page_num _ =>
       if page_num =? 1 then [hotel_a; hotel_b] else [];
     parse_hotel_page := fun _ _ _ => [review_unrated];
     frame_report_ok := fun _ => true;
     sleep_far := fun _ => Some OverflowError;
     start_time_isoformat := py "2024-01-01T00:00:00";
     elapsed_seconds := fun n => float_of_Z (Z.of_nat n);
     mean := fun _ => SFloat (float_of_Z 4) |}.

(** A progress file whose [processed_pages] is [null]. *)
Definition damaged_checkpoint : json :=
  JObj [ (py "processed_hotels", JArr [JAtom (SStr (hotel_url hotel_a))]);
         (py "processed_pages", JAtom SNone);
         (py "results", JArr []);
         (py "total_requests", JAtom (SInt 40));
         (py "blocked_count", JAtom (SInt 3)) ].

Definition damaged_world : World :=
  set_files {[ PROGRESS_FILE default_config := JsonDoc (encode damaged_checkpoint) ]}
    empty_world.



(** A listing of two containers, the second without hotel link, and simple
    stand-ins for the library routines. *)
Definition listing_lib : ListLib :=
  {| urljoin_site := fun href => Some (py "https://otzovik.com" ++ href);
     first_number := fun _ => Some 3;
     hash_digits := fun _ => py "000001" |}.

Definition container_a : Container :=
  {| link := Some (Some (py "/reviews/hotel_a/"), py "Hotel A");
     counter_text := Some (py "3");
     rating_text := Some (py "4.5") |}.

Definition container_bare : Container :=
  {| link := None; counter_text := None; rating_text := None |}.

(** Every page is served and shows this listing. *)
Definition listing_env : Env :=
  {| str_lower := ascii_lower;
     server := fun _ _ => Responded (html_response real_page);
     random_index := fun n => n;
     time_time := fun _ => 1700000000;
     now_isoformat := fun _ => py "2023-11-14T22:13:20";
     parse_list_page := fun c _ page_num page_url =>
       list_page_hotels listing_lib c [container_a; container_bare] page_num page_url;
     parse_hotel_page := fun _ _ _ => [review_first];
     frame_report_ok := fun _ => true;
     sleep_far := fun _ => Some OverflowError;
     start_time_isoformat := py "2024-01-01T00:00:00";
     elapsed_seconds := fun n => float_of_Z (Z.of_nat n);
     mean := fun _ => SFloat (float_of_Z 4) |}.

(** Stand-ins for the library routines on review items: no pattern ever
    matches and no text is made of digits. *)
Definition review_lib : ReviewLib :=
  {| search_rating := fun _ => None;
     float_of_text := fun _ => None;
     str_strip := fun s => s;
     str_isdigit := fun _ => false;
     int_of_text := fun _ => None;
     lower_text := ascii_lower;
     fromisoformat := fun _ => None;
     search_date_words := fun _ => None;
     search_date_dots := fun _ => false;
     search_date_dashes := fun _ => false;
     find_date_words := fun _ => None;
     find_date_dots := fun _ => None;
     find_date_dashes := fun _ => None;
     hash_digits4 := fun _ => py "0042";
     scraped_at := fun _ => py "2023-11-14T22:13:20" |}.

(** A review item with a title and a numeric date, and no rating element. *)
Definition item_unrated : Item :=
  {| item_rating := None;
     item_date := Some {| content_attr := None; elem_text := py "08.10.2019" |};
     item_date_meta := None;
     item_texts := [py "Good"; py "08.10.2019"];
     item_title := Some (py "Good");
     item_teaser := None;
     item_plus := None;
     item_minus := None;
     item_author := None;
     item_location := None;
     item_recommendations := None;
     item_comments := None;
     item_images := [] |}.

(** Every page is served; the page of a hotel shows [item_unrated]. *)
Definition reviewing_env : Env :=
  {| str_lower := ascii_lower;
     server := fun _ _ => Responded (html_response real_page);
     random_index := fun n => n;
     time_time := fun _ => 1700000000;
     now_isoformat := fun _ => py "2023-11-14T22:13:20";
     parse_list_page := fun _ _ page_num _ =>
       if page_num =? 1 then [hotel_a; hotel_b] else [];
     parse_hotel_page := fun c _ hotel => hotel_page_reviews review_lib c [item_unrated] hotel;
     frame_report_ok := fun _ => true;
     sleep_far := fun _ => Some OverflowError;
     start_time_isoformat := py "2024-01-01T00:00:00";
     elapsed_seconds := fun n => float_of_Z (Z.of_nat n);
     mean := fun _ => SFloat (float_of_Z 4) |}.

(** * Properties *)

(** ** The JSON model: decoding inverts encoding *)

Lemma encode_arr_cons x l :
  encode (JArr (x :: l)) = TLBracket :: encode x ++ encode_items l.
Proof.
  reflexivity.
Qed.

Lemma encode_obj_cons k v m :
  encode (JObj ((k, v) :: m))
  = TLBrace :: TAtom (SStr k) :: TColon :: encode v ++ encode_members m.
Proof.
  reflexivity.
Qed.

Lemma opens_value_encode j rest : opens_value (encode j ++ rest) = true.
Proof. destruct j as [a|[|x l]|[|[k v] m]]; reflexivity. Qed.

Lemma parse_value_bracket fuel ts :
  opens_value ts = true ->
  parse_value (S fuel) (TLBracket :: ts)
  = match parse_value fuel ts with
    | Some (x, r1) =>
        match parse_items fuel r1 with
        | Some (l, r2) => Some (JArr (x :: l), r2)
        | None => None
        end
    | None => None
    end.
Proof. destruct ts as [|[] ts]; simpl; intros H; try discriminate H; reflexivity. Qed.

Lemma parse_encode_fuel fuel :
  (forall j rest, (length (encode j ++ rest) < fuel)%nat ->
     parse_value fuel (encode j ++ rest) = Some (j, rest)) /\
  (forall l rest, (length (encode_items l ++ rest) < fuel)%nat ->
     parse_items fuel (encode_items l ++ rest) = Some (l, rest)) /\
  (forall m rest, (length (encode_members m ++ rest) < fuel)%nat ->
     parse_members fuel (encode_members m ++ rest) = Some (m, rest)).
Proof.
  induction fuel as [|fuel (IHv & IHi & IHm)].
  { repeat split; intros; lia. }
  repeat split.
  - intros [a|[|x l]|[|[k v] m]] rest Hlen; try reflexivity.
    + rewrite encode_arr_cons in *. simpl app in *.
      rewrite <- app_assoc in *.
      rewrite parse_value_bracket by apply opens_value_encode.
      simpl in Hlen. rewrite IHv by lia.
      rewrite length_app in Hlen. rewrite IHi by lia. reflexivity.
    + rewrite encode_obj_cons in *. simpl app in *.
      rewrite <- app_assoc in *. simpl in Hlen.
      cbn [parse_value]. rewrite IHv by lia.
      rewrite length_app in Hlen. rewrite IHm by lia. reflexivity.
  - intros [|y l] rest Hlen; [reflexivity|].
    cbn [encode_items app] in *. rewrite <- app_assoc in *.
    cbn [parse_items]. simpl in Hlen. rewrite IHv by lia.
    rewrite length_app in Hlen. rewrite IHi by lia. reflexivity.
  - intros [|[k v] m] rest Hlen; [reflexivity|].
    cbn [encode_members app] in *. rewrite <- app_assoc in *.
    cbn [parse_members]. simpl in Hlen. rewrite IHv by lia.
    rewrite length_app in Hlen. rewrite IHm by lia. reflexivity.
Qed.

Lemma json_load_encode j : json_load (encode j) = Some j.
Proof.
  unfold json_load.
  destruct (parse_encode_fuel (S (length (encode j)))) as (Hv & _ & _).
  specialize (Hv j []). rewrite app_nil_r in Hv. rewrite Hv by lia. reflexivity.
Qed.

(** ** The JSON model: an incomplete document does not parse *)

Lemma strict_prefix_cons p t l :
  strict_prefix p (t :: l) ->
  p = [] \/ exists p', p = t :: p' /\ strict_prefix p' l.
Proof.
  intros (s & Hs & E). destruct p as [|t' p']; [now left|right].
  injection E as -> E. exists p'. split; [reflexivity|]. exists s. auto.
Qed.

Lemma strict_prefix_app p a b :
  b <> [] ->
  strict_prefix p (a ++ b) ->
  strict_prefix p a \/ exists q, p = a ++ q /\ strict_prefix q b.
Proof.
  intros Hb (s & Hs & E).
  apply app_eq_app in E as [l [[Ea Es]|[Ep Eb]]].
  - destruct l as [|t l].
    + right. exists []. rewrite app_nil_r in Ea. subst a. rewrite app_nil_r.
      split; [reflexivity|]. exists b. auto.
    + left. exists (t :: l). split; [discriminate|exact Ea].
  - right. exists l. split; [exact Ep|]. exists s. auto.
Qed.

Lemma strict_prefix_single p t : strict_prefix p [t] -> p = [].
Proof.
  intros H. apply strict_prefix_cons in H as [->|(p' & -> & s & Hs & E)]; [reflexivity|].
  destruct p'; destruct s; simpl in E; congruence.
Qed.

Lemma strict_prefix_length p l : strict_prefix p l -> (length p < length l)%nat.
Proof.
  intros (s & Hs & ->). rewrite length_app. destruct s; [congruence|simpl; lia].
Qed.

Lemma encode_items_nonempty l : encode_items l <> [].
Proof. destruct l; discriminate. Qed.

Lemma encode_members_nonempty m : encode_members m <> [].
Proof. destruct m as [|[k v] m]; discriminate. Qed.

Lemma parse_value_nil fuel : parse_value fuel [] = None.
Proof. destruct fuel; reflexivity. Qed.

Lemma parse_items_nil fuel : parse_items fuel [] = None.
Proof. destruct fuel; reflexivity. Qed.

Lemma parse_members_nil fuel : parse_members fuel [] = None.
Proof. destruct fuel; reflexivity. Qed.

Lemma opens_value_prefix j p :
  strict_prefix p (encode j) -> p = [] \/ opens_value p = true.
Proof.
  intros (s & Hs & E). destruct p as [|t p]; [now left|right].
  pose proof (opens_value_encode j []) as H. rewrite app_nil_r, E in H. exact H.
Qed.

Lemma parse_prefix_fuel fuel :
  (forall j p, strict_prefix p (encode j) -> (length p < fuel)%nat ->
     parse_value fuel p = None) /\
  (forall l p, strict_prefix p (encode_items l) -> (length p < fuel)%nat ->
     parse_items fuel p = None) /\
  (forall m p, strict_prefix p (encode_members m) -> (length p < fuel)%nat ->
     parse_members fuel p = None).
Proof.
  induction fuel as [|fuel (IHv & IHi & IHm)].
  { repeat split; intros; lia. }
  destruct (parse_encode_fuel fuel) as (Rv & _ & _).
  repeat split.
  - intros [a|[|x l]|[|[k v] m]] p Hp Hlen.
    + apply strict_prefix_single in Hp as ->. reflexivity.
    + apply strict_prefix_cons in Hp as [->|(p' & -> & Hp)]; [reflexivity|].
      apply strict_prefix_single in Hp as ->. simpl. now rewrite parse_value_nil.
    + rewrite encode_arr_cons in Hp.
      apply strict_prefix_cons in Hp as [->|(p' & -> & Hp)]; [reflexivity|].
      simpl in Hlen.
      destruct (strict_prefix_app _ _ _ (encode_items_nonempty _) Hp) as [Hp'|(q & -> & Hq)].
      * destruct (opens_value_prefix _ _ Hp') as [->|Ho].
        { simpl. now rewrite parse_value_nil. }
        rewrite parse_value_bracket by exact Ho.
        rewrite IHv with (j := x) by (trivial || lia). reflexivity.
      * rewrite parse_value_bracket by apply opens_value_encode.
        rewrite Rv by lia. rewrite length_app in Hlen.
        rewrite IHi with (l := l) by (trivial || lia). reflexivity.
    + apply strict_prefix_cons in Hp as [->|(p' & -> & Hp)]; [reflexivity|].
      apply strict_prefix_single in Hp as ->. reflexivity.
    + rewrite encode_obj_cons in Hp.
      apply strict_prefix_cons in Hp as [->|(p1 & -> & Hp)]; [reflexivity|].
      apply strict_prefix_cons in Hp as [->|(p2 & -> & Hp)]; [reflexivity|].
      apply strict_prefix_cons in Hp as [->|(p3 & -> & Hp)]; [reflexivity|].
      simpl in Hlen. cbn [parse_value].
      destruct (strict_prefix_app _ _ _ (encode_members_nonempty _) Hp) as [Hp'|(q & -> & Hq)].
      * rewrite IHv with (j := v) by (trivial || lia). reflexivity.
      * rewrite Rv by lia. rewrite length_app in Hlen.
        rewrite IHm with (m := m) by (trivial || lia). reflexivity.
  - intros [|y l] p Hp Hlen.
    + apply strict_prefix_single in Hp as ->. reflexivity.
    + cbn [encode_items] in Hp.
      apply strict_prefix_cons in Hp as [->|(p' & -> & Hp)]; [reflexivity|].
      simpl in Hlen. cbn [parse_items].
      destruct (strict_prefix_app _ _ _ (encode_items_nonempty _) Hp) as [Hp'|(q & -> & Hq)].
      * rewrite IHv with (j := y) by (trivial || lia). reflexivity.
      * rewrite Rv by lia. rewrite length_app in Hlen.
        rewrite IHi with (l := l) by (trivial || lia). reflexivity.
  - intros [|[k v] m] p Hp Hlen.
    + apply strict_prefix_single in Hp as ->. reflexivity.
    + cbn [encode_members] in Hp.
      apply strict_prefix_cons in Hp as [->|(p1 & -> & Hp)]; [reflexivity|].
      apply strict_prefix_cons in Hp as [->|(p2 & -> & Hp)]; [reflexivity|].
      apply strict_prefix_cons in Hp as [->|(p3 & -> & Hp)]; [reflexivity|].
      simpl in Hlen. cbn [parse_members].
      destruct (strict_prefix_app _ _ _ (encode_members_nonempty _) Hp) as [Hp'|(q & -> & Hq)].
      * rewrite IHv with (j := v) by (trivial || lia). reflexivity.
      * rewrite Rv by lia. rewrite length_app in Hlen.
        rewrite IHm with (m := m) by (trivial || lia). reflexivity.
Qed.

Lemma json_load_strict_prefix j p :
  strict_prefix p (encode j) -> json_load p = None.
Proof.
  intros Hp. unfold json_load.
  destruct (parse_prefix_fuel (S (length p))) as (Hv & _ & _).
  rewrite (Hv j p Hp) by lia. reflexivity.
Qed.

(** ** Files *)

Lemma foldl_append_ops path ts : forall fs pre,
  fs !! path = Some (JsonDoc pre) ->
  foldl apply_op fs (List.map (Append path) ts) = <[path := JsonDoc (pre ++ ts)]> fs.
Proof.
  induction ts as [|t ts IH]; intros fs pre Hfs; simpl.
  - rewrite app_nil_r. symmetry. now apply insert_id.
  - rewrite Hfs. rewrite (IH _ (pre ++ [t])) by apply lookup_insert_eq.
    rewrite insert_insert_eq, <- app_assoc. reflexivity.
Qed.

Lemma foldl_dump_ops path ts fs :
  foldl apply_op fs (dump_ops path ts) = <[path := JsonDoc ts]> fs.
Proof.
  unfold dump_ops. simpl.
  rewrite (foldl_append_ops path ts _ []) by apply lookup_insert_eq.
  now rewrite insert_insert_eq.
Qed.

Lemma foldl_dump_ops_take path ts fs k :
  foldl apply_op fs (take (S k) (dump_ops path ts)) = <[path := JsonDoc (take k ts)]> fs.
Proof.
  unfold dump_ops. simpl. rewrite <- fmap_take.
  rewrite (foldl_append_ops path (take k ts) _ []) by apply lookup_insert_eq.
  now rewrite insert_insert_eq.
Qed.

(** The dump raises exactly when a token is refused, and then fewer tokens
    are in the file than the document has. *)
Lemma dump_stop_from_none ts : forall prev n,
  dump_stop_from prev ts n = None <-> dumpable ts = true.
Proof.
  induction ts as [|t rest IH]; intros prev n; cbn [dump_stop_from dumpable forallb].
  - split; reflexivity.
  - destruct (refused t); cbn [negb andb].
    + split; [|discriminate]. repeat case_match; discriminate.
    + apply IH.
Qed.

Lemma dump_stop_from_lt ts : forall prev n k,
  dump_stop_from prev ts n = Some k -> (k < n + length ts)%nat.
Proof.
  induction ts as [|t rest IH]; intros prev n k; cbn [dump_stop_from length]; [discriminate|].
  destruct (refused t).
  - repeat case_match; intros [= <-]; lia.
  - intros H. apply IH in H. lia.
Qed.

Lemma dump_stop_dumpable ts : dumpable ts = true -> dump_stop ts = None.
Proof. apply dump_stop_from_none. Qed.

Lemma dump_stop_refused ts :
  dumpable ts = false -> exists k, dump_stop ts = Some k /\ (k < length ts)%nat.
Proof.
  intros H. unfold dump_stop. destruct (dump_stop_from None ts 0) as [k|] eqn:E.
  - exists k. split; [reflexivity|]. now apply dump_stop_from_lt in E.
  - apply dump_stop_from_none in E. congruence.
Qed.

Lemma files_save_progress env p w :
  dumpable (encode (checkpoint_json p (now_isoformat env (clock_reads w)))) = true ->
  files (_save_progress env p w)
  = <[backup_path (time_time env (S (clock_reads w))) :=
        JsonDoc (encode (checkpoint_json p (now_isoformat env (clock_reads w))))]>
      (<[PROGRESS_FILE (config p) :=
           JsonDoc (encode (checkpoint_json p (now_isoformat env (clock_reads w))))]>
         (files w)).
Proof.
  intros Hd. unfold _save_progress. rewrite (dump_stop_dumpable _ Hd).
  unfold _save_progress_ops, set_files, tick. cbn [files clock_reads].
  cbv zeta. rewrite foldl_app, !foldl_dump_ops. reflexivity.
Qed.

Lemma progress_file_after_save env p w :
  dumpable (encode (checkpoint_json p (now_isoformat env (clock_reads w)))) = true ->
  files (_save_progress env p w) !! PROGRESS_FILE (config p)
  = Some (JsonDoc (encode (checkpoint_json p (now_isoformat env (clock_reads w))))).
Proof.
  intros Hd. rewrite files_save_progress by exact Hd.
  destruct (decide (backup_path (time_time env (S (clock_reads w))) = PROGRESS_FILE (config p)))
    as [E|N].
  - rewrite E. apply lookup_insert_eq.
  - rewrite lookup_insert_ne by exact N. apply lookup_insert_eq.
Qed.

(** A save that cannot encode its document is a save stopped while the
    progress file is written. *)
Lemma save_progress_failed env p w :
  dumpable (encode (checkpoint_json p (now_isoformat env (clock_reads w)))) = false ->
  exists k,
    (k < length (encode (checkpoint_json p (now_isoformat env (clock_reads w)))))%nat /\
    _save_progress env p w = _save_progress_stopped (S k) env p w.
Proof.
  intros Hd. destruct (dump_stop_refused _ Hd) as (k & E & Hk).
  exists k. split; [exact Hk|]. unfold _save_progress. now rewrite E.
Qed.

(** Only the files and the clock change in a save. *)
Lemma save_progress_stopped_world n env p w :
  trace (_save_progress_stopped n env p w) = trace w /\
  requests_sent (_save_progress_stopped n env p w) = requests_sent w /\
  random_draws (_save_progress_stopped n env p w) = random_draws w.
Proof.
  unfold _save_progress_stopped. cbv zeta. destruct (_ <=? _)%nat; repeat split.
Qed.

Lemma save_progress_world env p w :
  trace (_save_progress env p w) = trace w /\
  requests_sent (_save_progress env p w) = requests_sent w /\
  random_draws (_save_progress env p w) = random_draws w.
Proof.
  unfold _save_progress. destruct (dump_stop _); [apply save_progress_stopped_world|].
  repeat split.
Qed.

(** ** Documents that can be encoded *)

Lemma dumpable_app a b : dumpable (a ++ b) = dumpable a && dumpable b.
Proof. apply forallb_app. Qed.

Lemma dumpable_items (l : list json) :
  Forall (fun x => dumpable (encode x) = true) l -> dumpable (encode_items l) = true.
Proof.
  induction 1 as [|x l Hx _ IH]; [reflexivity|].
  cbn [encode_items]. change (TComma :: encode x ++ encode_items l)
    with ([TComma] ++ encode x ++ encode_items l).
  now rewrite !dumpable_app, Hx, IH.
Qed.

Lemma dumpable_arr (l : list json) :
  Forall (fun x => dumpable (encode x) = true) l -> dumpable (encode (JArr l)) = true.
Proof.
  intros H. destruct H as [|x l Hx Hl]; [reflexivity|].
  rewrite encode_arr_cons. change (TLBracket :: encode x ++ encode_items l)
    with ([TLBracket] ++ encode x ++ encode_items l).
  now rewrite !dumpable_app, Hx, dumpable_items.
Qed.

Lemma dumpable_members (m : list (pystr * json)) :
  Forall (fun kv => encodable (fst kv) = true /\ dumpable (encode (snd kv)) = true) m ->
  dumpable (encode_members m) = true.
Proof.
  induction 1 as [|[k v] m [Hk Hv] _ IH]; [reflexivity|].
  cbn [encode_members]. cbn [fst snd] in Hk, Hv.
  change (TComma :: TAtom (SStr k) :: TColon :: encode v ++ encode_members m)
    with ([TComma; TAtom (SStr k); TColon] ++ encode v ++ encode_members m).
  rewrite !dumpable_app, Hv, IH. cbn. now rewrite Hk.
Qed.

Lemma dumpable_obj (m : list (pystr * json)) :
  Forall (fun kv => encodable (fst kv) = true /\ dumpable (encode (snd kv)) = true) m ->
  dumpable (encode (JObj m)) = true.
Proof.
  intros H. destruct H as [|[k v] m [Hk Hv] Hm]; [reflexivity|].
  rewrite encode_obj_cons. cbn [fst snd] in Hk, Hv.
  change (TLBrace :: TAtom (SStr k) :: TColon :: encode v ++ encode_members m)
    with ([TLBrace; TAtom (SStr k); TColon] ++ encode v ++ encode_members m).
  rewrite !dumpable_app, Hv, dumpable_members by exact Hm. cbn. now rewrite Hk.
Qed.

Lemma dumpable_record (r : record) :
  record_encodable r = true -> dumpable (encode (record_json r)) = true.
Proof.
  intros H. unfold record_json. apply dumpable_obj.
  unfold record_encodable in H. rewrite forallb_forall in H.
  apply Forall_forall. intros [k j] Hin. apply list_elem_of_In, in_map_iff in Hin.
  destruct Hin as ([k' v] & [= <- <-] & Hin). apply H in Hin.
  apply andb_true_iff in Hin as [Hk Hv]. cbn [fst snd] in *. split; [exact Hk|].
  change (dumpable [TAtom v] = true). unfold dumpable. cbn [forallb]. now rewrite Hv.
Qed.

Lemma dumpable_number (x : pynum) : dumpable (encode (JAtom (pynum_scalar x))) = true.
Proof. destruct x; reflexivity. Qed.

(** The checkpoint of a state whose strings can be encoded can be written. *)
Lemma checkpoint_dumpable (p : Parser) (stamp : pystr) :
  state_encodable p = true ->
  encodable stamp = true ->
  dumpable (encode (checkpoint_json p stamp)) = true.
Proof.
  intros Hs Hstamp. apply andb_true_iff in Hs as [Hh Hr].
  rewrite forallb_forall in Hh, Hr.
  unfold checkpoint_json. apply dumpable_obj.
  repeat apply Forall_cons_2; try apply Forall_nil_2; cbn [fst snd];
    (split; [vm_compute; reflexivity|]); try reflexivity.
  - apply dumpable_arr, Forall_forall. intros j Hin.
    apply list_elem_of_In, in_map_iff in Hin as (u & <- & Hin). cbn.
    now rewrite (Hh u Hin).
  - apply dumpable_arr, Forall_forall. intros j Hin.
    apply list_elem_of_In, in_map_iff in Hin as (u & <- & Hin). reflexivity.
  - apply dumpable_arr, Forall_forall. intros j Hin.
    apply list_elem_of_In, in_map_iff in Hin as (r & <- & Hin).
    apply dumpable_record. now apply Hr.
  - cbn. now rewrite Hstamp.
  - apply dumpable_obj.
    repeat apply Forall_cons_2; try apply Forall_nil_2; cbn [fst snd];
      (split; [vm_compute; reflexivity|apply dumpable_number]).
Qed.

(** ** Reading back what the checkpoint holds *)

Lemma mapM_json_str l : mapM json_str (List.map (fun u => JAtom (SStr u)) l) = Some l.
Proof. induction l as [|u l IH]; simpl; [reflexivity|]. now rewrite IH. Qed.

Lemma mapM_json_int l : mapM json_int (List.map (fun n => JAtom (SInt n)) l) = Some l.
Proof. induction l as [|u l IH]; simpl; [reflexivity|]. now rewrite IH. Qed.

Lemma mapM_member_scalar (l : list (pystr * scalar)) :
  mapM member_scalar (List.map (fun kv => (fst kv, JAtom (snd kv))) l) = Some l.
Proof.
  induction l as [|[k v] l IH]; simpl; [reflexivity|]. now rewrite IH.
Qed.

Lemma foldl_insert_union (l : list (pystr * scalar)) : forall acc : gmap pystr scalar,
  foldl (fun r kv => <[fst kv := snd kv]> r) acc l = list_to_map (reverse l) ∪ acc.
Proof.
  induction l as [|[k v] l IH]; intros acc; simpl.
  - now rewrite (left_id_L ∅ (∪)).
  - rewrite IH, reverse_cons, list_to_map_app. simpl.
    rewrite insert_empty, <- (assoc_L (∪)), <- insert_union_singleton_l. reflexivity.
Qed.

Lemma dict_of_map_to_list (r : gmap pystr scalar) : dict_of (map_to_list r) = r.
Proof.
  unfold dict_of. rewrite foldl_insert_union, (right_id_L ∅ (∪)).
  rewrite <- (list_to_map_to_list r) at 2. symmetry.
  apply list_to_map_proper.
  - apply NoDup_fst_map_to_list.
  - symmetry. apply reverse_Permutation.
Qed.

Lemma json_record_roundtrip (r : gmap pystr scalar) : json_record (record_json r) = Some r.
Proof.
  unfold json_record, record_json. rewrite mapM_member_scalar. simpl.
  now rewrite dict_of_map_to_list.
Qed.

Lemma json_records_roundtrip (rs : list (gmap pystr scalar)) :
  json_records (JArr (List.map record_json rs)) = Some rs.
Proof.
  unfold json_records. induction rs as [|r rs IH]; [reflexivity|].
  cbn -[json_record record_json]. rewrite json_record_roundtrip.
  cbn -[json_record record_json]. cbn -[json_record record_json] in IH.
  now rewrite IH.
Qed.

Lemma load_checkpoint_json p0 w p stamp :
  files w !! PROGRESS_FILE (config p0) = Some (JsonDoc (encode (checkpoint_json p stamp))) ->
  _load_progress p0 w
  = {| config := config p0; session := session p0; results := results p;
       processed_hotels := processed_hotels p; processed_pages := processed_pages p;
       total_requests := total_requests p; blocked_count := blocked_count p |}.
Proof.
  intros Hfile. unfold _load_progress. rewrite Hfile, json_load_encode.
  unfold checkpoint_json.
  change (get_or (py "processed_hotels") (JArr []) _)
    with (JArr (List.map (fun u => JAtom (SStr u)) (elements (processed_hotels p)))).
  cbn [json_str_list]. rewrite mapM_json_str.
  change (get_or (py "processed_pages") (JArr []) _)
    with (JArr (List.map (fun n => JAtom (SInt n)) (elements (processed_pages p)))).
  cbn [json_int_list]. rewrite mapM_json_int.
  change (get_or (py "results") (JArr []) _) with (JArr (List.map record_json (results p))).
  rewrite json_records_roundtrip.
  change (get_or (py "total_requests") (JAtom (SInt 0)) _) with (JAtom (SInt (total_requests p))).
  change (get_or (py "blocked_count") (JAtom (SInt 0)) _) with (JAtom (SInt (blocked_count p))).
  cbn [json_int].
  unfold set_blocked_count, set_total_requests, set_results, set_processed_pages,
    set_processed_hotels; simpl.
  now rewrite !list_to_set_elements_L.
Qed.

(** ** One attempt of [make_request] *)

Lemma config_attempt_parser r p : config (attempt_parser r p) = config p.
Proof. unfold attempt_parser. destruct r as [r|]; [destruct (str_truthy r)|]; reflexivity. Qed.

Lemma make_request_fuel_S fuel env url r rc p w :
  make_request_fuel (S fuel) env url r rc p w =
  let p1 := attempt_parser r p in
  let w1 := attempt_world env url r p w in
  match attempt_result env url w with
  | Responded response =>
      if _is_blocked_response env response then
        let p2 := set_blocked_count (blocked_count p1 + 1) p1 in
        if rc <? MAX_RETRIES (config p) then
          match sleep env (pynum_mul_int (DELAY_AFTER_BLOCK (config p)) (rc + 1)) w1 with
          | (Raise e, w2) => Some (Raise e, p2, w2)
          | (Ret _, w2) =>
              match random_choice env (USER_AGENTS (config p)) w2 with
              | (Raise e, w3) => Some (Raise e, p2, w3)
              | (Ret new_agent, w3) =>
                  make_request_fuel fuel env url r (rc + 1) (set_user_agent new_agent p2) w3
              end
          end
        else Some (Ret None, p2, w1)
      else if status_code response =? 200 then
        if contains (py "text/html") (content_type_or_empty response)
           && (1000 <? len (text response))
        then Some (Ret (Some (text response)), p1, w1)
        else Some (Ret None, p1, w1)
      else Some (Ret None, p1, w1)
  | TimedOut =>
      if rc <? MAX_RETRIES (config p) then
        match sleep env (NInt (2 * (rc + 1))) w1 with
        | (Raise e, w2) => Some (Raise e, p1, w2)
        | (Ret _, w2) => make_request_fuel fuel env url r (rc + 1) p1 w2
        end
      else Some (Ret None, p1, w1)
  | RequestFailed =>
      if rc <? MAX_RETRIES (config p) then
        match sleep env (NInt (1 * (rc + 1))) w1 with
        | (Raise e, w2) => Some (Raise e, p1, w2)
        | (Ret _, w2) => make_request_fuel fuel env url r (rc + 1) p1 w2
        end
      else Some (Ret None, p1, w1)
  end.
Proof.
  cbv zeta. unfold attempt_result, attempt_world, attempt_parser.
  cbn [make_request_fuel session_get snd].
  destruct r as [r|]; [destruct (str_truthy r)|];
    cbn [config set_referer set_session set_total_requests set_blocked_count
         _random_delay sleep_uniform emit requests_sent];
    destruct (server env (requests_sent w) url) as [resp| |]; try reflexivity;
    destruct (_is_blocked_response env resp); try reflexivity;
    destruct (status_code resp =? 200); try reflexivity;
    destruct (status_code resp =? 404); reflexivity.
Qed.

(** What [time.sleep] leaves behind. *)
Lemma sleep_ret env d w u w' : sleep env d w = (Ret u, w') -> w' = emit (EvSleep d) w.
Proof.
  unfold sleep. destruct (sleep_in_range d); [destruct (negative d)|destruct (sleep_far env d)];
    intros H; try discriminate H; injection H; intros; subst; reflexivity.
Qed.

Lemma sleep_raise env d w e w' : sleep env d w = (Raise e, w') -> w' = w.
Proof.
  unfold sleep. destruct (sleep_in_range d); [destruct (negative d)|destruct (sleep_far env d)];
    intros H; try discriminate H; injection H; intros; subst; reflexivity.
Qed.


(** A negative whole number of seconds, down to minus a million, is refused. *)
Lemma sleep_ok env (z : Z) w :
  0 <= z -> z <= 1000000 \/ sleep_far env (NInt z) = None ->
  sleep env (NInt z) w = (Ret tt, emit (EvSleep (NInt z)) w).
Proof.
  intros Hz Hok. unfold sleep, sleep_in_range, negative.
  destruct (Z.leb_spec (-1000000) z); [|lia]. cbn [andb].
  destruct (Z.leb_spec z 1000000) as [Hle|Hgt].
  - destruct (Z.ltb_spec z 0); [lia|reflexivity].
  - destruct Hok as [Hle|Hfar]; [lia|]. now rewrite Hfar.
Qed.

Lemma sleep_far_raises env (z : Z) w e :
  1000000 < z -> sleep_far env (NInt z) = Some e ->
  sleep env (NInt z) w = (Raise e, w).
Proof.
  intros Hz Hfar. unfold sleep, sleep_in_range.
  destruct (Z.leb_spec z 1000000); [lia|]. rewrite andb_false_r. now rewrite Hfar.
Qed.


Lemma config_set_user_agent ua p : config (set_user_agent ua p) = config p.
Proof. reflexivity. Qed.

Lemma retry_fuel_step p p' rc :
  config p' = config p ->
  (rc <? MAX_RETRIES (config p)) = true ->
  retry_fuel p rc = S (retry_fuel p' (rc + 1)).
Proof.
  intros Hc Hlt. apply Z.ltb_lt in Hlt. unfold retry_fuel. rewrite Hc. lia.
Qed.

(** The fuel supplied by [make_request] is never exhausted. *)
Lemma make_request_fuel_total fuel env url r : forall rc p w,
  (Z.to_nat (MAX_RETRIES (config p) - rc) < fuel)%nat ->
  is_Some (make_request_fuel fuel env url r rc p w).
Proof.
  induction fuel as [|fuel IH]; intros rc p w Hfuel; [lia|].
  rewrite make_request_fuel_S. cbv zeta.
  assert (Hrec : forall p' w', config p' = config p ->
            (rc <? MAX_RETRIES (config p)) = true ->
            is_Some (make_request_fuel fuel env url r (rc + 1) p' w')).
  { intros p' w' Hc Hlt. apply Z.ltb_lt in Hlt. apply IH. rewrite Hc. lia. }
  destruct (attempt_result env url w) as [resp| |].
  - destruct (_is_blocked_response env resp).
    + destruct (rc <? MAX_RETRIES (config p)) eqn:Hlt; [|eauto].
      destruct (sleep env _ _) as [[[]|e] w2]; [|eauto].
      destruct (random_choice _ _ _) as [[ua|e] w3]; [|eauto].
      apply Hrec; [|reflexivity]. apply config_attempt_parser.
    + repeat case_match; eauto.
  - destruct (rc <? MAX_RETRIES (config p)) eqn:Hlt; [|eauto].
    destruct (sleep env _ _) as [[[]|e] w2]; [|eauto].
    apply Hrec; [|reflexivity]. apply config_attempt_parser.
  - destruct (rc <? MAX_RETRIES (config p)) eqn:Hlt; [|eauto].
    destruct (sleep env _ _) as [[[]|e] w2]; [|eauto].
    apply Hrec; [|reflexivity]. apply config_attempt_parser.
Qed.

Lemma make_request_fuel_retry env url r rc p w :
  make_request_fuel (retry_fuel p rc) env url r rc p w
  = Some (make_request env url r rc p w).
Proof.
  unfold make_request.
  destruct (make_request_fuel_total (retry_fuel p rc) env url r rc p w) as [res ->];
    [unfold retry_fuel; lia|reflexivity].
Qed.

(** [make_request] obeys the recursive equation of the method. *)
Lemma make_request_unfold env url r rc p w :
  make_request env url r rc p w =
  (let p1 := attempt_parser r p in
   let w1 := attempt_world env url r p w in
   match attempt_result env url w with
   | Responded response =>
       if _is_blocked_response env response then
         let p2 := set_blocked_count (blocked_count p1 + 1) p1 in
         if rc <? MAX_RETRIES (config p) then
           match sleep env (pynum_mul_int (DELAY_AFTER_BLOCK (config p)) (rc + 1)) w1 with
           | (Raise e, w2) => (Raise e, p2, w2)
           | (Ret _, w2) =>
               match random_choice env (USER_AGENTS (config p)) w2 with
               | (Raise e, w3) => (Raise e, p2, w3)
               | (Ret new_agent, w3) =>
                   make_request env url r (rc + 1) (set_user_agent new_agent p2) w3
               end
           end
         else (Ret None, p2, w1)
       else if status_code response =? 200 then
         if contains (py "text/html") (content_type_or_empty response)
            && (1000 <? len (text response))
         then (Ret (Some (text response)), p1, w1)
         else (Ret None, p1, w1)
       else (Ret None, p1, w1)
   | TimedOut =>
       if rc <? MAX_RETRIES (config p) then
         match sleep env (NInt (2 * (rc + 1))) w1 with
         | (Raise e, w2) => (Raise e, p1, w2)
         | (Ret _, w2) => make_request env url r (rc + 1) p1 w2
         end
       else (Ret None, p1, w1)
   | RequestFailed =>
       if rc <? MAX_RETRIES (config p) then
         match sleep env (NInt (1 * (rc + 1))) w1 with
         | (Raise e, w2) => (Raise e, p1, w2)
         | (Ret _, w2) => make_request env url r (rc + 1) p1 w2
         end
       else (Ret None, p1, w1)
   end).
Proof.
  assert (Hrec : forall p' w', config p' = config p ->
            (rc <? MAX_RETRIES (config p)) = true ->
            make_request_fuel (Z.to_nat (MAX_RETRIES (config p) - rc)) env url r (rc + 1) p' w'
            = Some (make_request env url r (rc + 1) p' w')).
  { intros p' w' Hc Hlt. rewrite <- make_request_fuel_retry. f_equal.
    pose proof (retry_fuel_step p p' rc Hc Hlt) as E. unfold retry_fuel in *. lia. }
  unfold make_request at 1. unfold retry_fuel at 1.
  rewrite make_request_fuel_S. cbv zeta.
  destruct (attempt_result env url w) as [resp| |].
  - destruct (_is_blocked_response env resp).
    + destruct (rc <? MAX_RETRIES (config p)) eqn:Hlt; [|reflexivity].
      destruct (sleep env _ _) as [[[]|e] w2]; [|reflexivity].
      destruct (random_choice _ _ _) as [[ua|e] w3]; [|reflexivity].
      rewrite Hrec; [reflexivity| |reflexivity]. apply config_attempt_parser.
    + destruct (status_code resp =? 200); [|reflexivity].
      destruct (contains _ _ && _); reflexivity.
  - destruct (rc <? MAX_RETRIES (config p)) eqn:Hlt; [|reflexivity].
    destruct (sleep env _ _) as [[[]|e] w2]; [|reflexivity].
    rewrite Hrec; [reflexivity| |reflexivity]. apply config_attempt_parser.
  - destruct (rc <? MAX_RETRIES (config p)) eqn:Hlt; [|reflexivity].
    destruct (sleep env _ _) as [[[]|e] w2]; [|reflexivity].
    rewrite Hrec; [reflexivity| |reflexivity]. apply config_attempt_parser.
Qed.

(** ** What [make_request] leaves alone *)

Lemma fetch_frame_trans p w p1 w1 p2 w2 evs1 evs2 :
  fetch_frame p w p1 w1 evs1 -> fetch_frame p1 w1 p2 w2 evs2 ->
  fetch_frame p w p2 w2 (evs1 ++ evs2).
Proof.
  intros [] []. split; try congruence.
  rewrite app_assoc. congruence.
Qed.

Lemma fetch_frame_attempt env url r p w :
  fetch_frame p w (attempt_parser r p) (attempt_world env url r p w)
    [EvSleepUniform (DELAY_MIN (config p)) (DELAY_MAX (config p));
     EvRequest url r (session (attempt_parser r p))].
Proof.
  split; try (unfold attempt_parser; destruct r as [r|]; [destruct (str_truthy r)|]; reflexivity).
  unfold attempt_world. cbn. rewrite <- app_assoc. reflexivity.
Qed.

Lemma fetch_frame_sleep env d p w o w' :
  sleep env d w = (o, w') ->
  fetch_frame p w p w' (match o with Ret _ => [EvSleep d] | Raise _ => [] end).
Proof.
  intros H. destruct o as [u|e].
  - apply sleep_ret in H as ->. split; reflexivity.
  - apply sleep_raise in H as ->. split; try reflexivity. cbn. now rewrite app_nil_r.
Qed.

Lemma fetch_frame_blocked n p w : fetch_frame p w (set_blocked_count n p) w [].
Proof. split; try reflexivity. now rewrite app_nil_r. Qed.

Lemma fetch_frame_choice env l w o w' p :
  random_choice env l w = (o, w') -> fetch_frame p w p w' [].
Proof.
  unfold random_choice. intros H.
  destruct (l !! _); injection H as <- <-; split; try reflexivity; cbn; now rewrite app_nil_r.
Qed.

Lemma fetch_frame_user_agent ua p w : fetch_frame p w (set_user_agent ua p) w [].
Proof. split; try reflexivity. now rewrite app_nil_r. Qed.

Lemma make_request_frame env url r n : forall rc p w o p' w',
  Z.to_nat (MAX_RETRIES (config p) - rc) = n ->
  make_request env url r rc p w = (o, p', w') ->
  exists evs, fetch_frame p w p' w' evs /\ requests_only url r evs.
Proof.
  induction n as [n IH] using lt_wf_ind. intros rc p w o p' w' Hn.
  rewrite make_request_unfold. cbv zeta.
  pose proof (fetch_frame_attempt env url r p w) as Fa.
  assert (Ra : requests_only url r
                 [EvSleepUniform (DELAY_MIN (config p)) (DELAY_MAX (config p));
                  EvRequest url r (session (attempt_parser r p))]).
  { repeat constructor. }
  assert (Hrec : forall p1 w1 evs1, fetch_frame p w p1 w1 evs1 -> requests_only url r evs1 ->
            (rc <? MAX_RETRIES (config p)) = true ->
            make_request env url r (rc + 1) p1 w1 = (o, p', w') ->
            exists evs, fetch_frame p w p' w' evs /\ requests_only url r evs).
  { intros p1 w1 evs1 F1 R1 Hlt Hm. apply Z.ltb_lt in Hlt.
    destruct (IH (Z.to_nat (MAX_RETRIES (config p1) - (rc + 1)))
                (ltac:(rewrite (ff_config _ _ _ _ _ F1); lia))
                (rc + 1) p1 w1 o p' w' eq_refl Hm) as (evs2 & F2 & R2).
    exists (evs1 ++ evs2). split; [eapply fetch_frame_trans; eassumption|].
    apply Forall_app; split; assumption. }
  assert (Hsleep : forall d p0 w0 o0 w2, sleep env d w0 = (o0, w2) ->
            exists evs, fetch_frame p0 w0 p0 w2 evs /\ requests_only url r evs).
  { intros d p0 w0 o0 w2 Hsl. eexists. split; [eapply fetch_frame_sleep, Hsl|].
    destruct o0; repeat constructor. }
  destruct (attempt_result env url w) as [resp| |].
  - destruct (_is_blocked_response env resp).
    + destruct (rc <? MAX_RETRIES (config p)) eqn:Hlt.
      * destruct (sleep env _ _) as [[[]|e] w2] eqn:Hsl;
          destruct (Hsleep _ (set_blocked_count (blocked_count (attempt_parser r p) + 1)
                                (attempt_parser r p)) _ _ _ Hsl) as (evs_s & Fs & Rs).
        2: { intros [= <- <- <-]. eexists. split.
             - eapply fetch_frame_trans; [exact Fa|].
               eapply fetch_frame_trans; [apply fetch_frame_blocked|exact Fs].
             - now apply Forall_app. }
        destruct (random_choice _ _ _) as [[ua|e] w3] eqn:Hch.
        -- eapply Hrec;
             [eapply fetch_frame_trans; [exact Fa|];
              eapply fetch_frame_trans; [eapply fetch_frame_trans;
                [apply fetch_frame_blocked|exact Fs]|];
              eapply fetch_frame_trans; [eapply fetch_frame_choice; exact Hch|];
              apply fetch_frame_user_agent
             |rewrite !app_nil_r; now apply Forall_app|reflexivity].
        -- intros [= <- <- <-]. eexists. split.
           ++ eapply fetch_frame_trans; [exact Fa|].
              eapply fetch_frame_trans; [eapply fetch_frame_trans;
                [apply fetch_frame_blocked|exact Fs]|].
              eapply fetch_frame_choice; exact Hch.
           ++ rewrite !app_nil_r. now apply Forall_app.
      * intros [= <- <- <-]. eexists. split.
        -- eapply fetch_frame_trans; [exact Fa|apply fetch_frame_blocked].
        -- cbn; repeat constructor.
    + intros H. exists [EvSleepUniform (DELAY_MIN (config p)) (DELAY_MAX (config p));
                        EvRequest url r (session (attempt_parser r p))].
      destruct (status_code resp =? 200); [destruct (contains _ _ && _)|];
        injection H as <- <- <-; split; assumption.
  - destruct (rc <? MAX_RETRIES (config p)) eqn:Hlt.
    + destruct (sleep env _ _) as [[[]|e] w2] eqn:Hsl;
        destruct (Hsleep _ (attempt_parser r p) _ _ _ Hsl) as (evs_s & Fs & Rs).
      * eapply Hrec;
          [eapply fetch_frame_trans; [exact Fa|exact Fs]
          |now apply Forall_app|reflexivity].
      * intros [= <- <- <-]. eexists. split.
        -- eapply fetch_frame_trans; [exact Fa|exact Fs].
        -- now apply Forall_app.
    + intros [= <- <- <-]. eexists; split; eassumption.
  - destruct (rc <? MAX_RETRIES (config p)) eqn:Hlt.
    + destruct (sleep env _ _) as [[[]|e] w2] eqn:Hsl;
        destruct (Hsleep _ (attempt_parser r p) _ _ _ Hsl) as (evs_s & Fs & Rs).
      * eapply Hrec;
          [eapply fetch_frame_trans; [exact Fa|exact Fs]
          |now apply Forall_app|reflexivity].
      * intros [= <- <- <-]. eexists. split.
        -- eapply fetch_frame_trans; [exact Fa|exact Fs].
        -- now apply Forall_app.
    + intros [= <- <- <-]. eexists; split; eassumption.
Qed.

Lemma requests_sent_attempt env url r p w :
  requests_sent (attempt_world env url r p w) = S (requests_sent w).
Proof. reflexivity. Qed.

Lemma requests_sent_sleep env d w o w' :
  sleep env d w = (o, w') -> requests_sent w' = requests_sent w.
Proof.
  intros H. destruct o; [apply sleep_ret in H|apply sleep_raise in H]; now subst.
Qed.

Lemma requests_sent_choice env l w o w' :
  random_choice env l w = (o, w') -> requests_sent w' = requests_sent w.
Proof.
  unfold random_choice. destruct (l !! _); intros [= <- <-]; reflexivity.
Qed.

(** A body is returned only from the branch that checks the last response. *)
Lemma make_request_body env url r n : forall rc p w body p' w',
  Z.to_nat (MAX_RETRIES (config p) - rc) = n ->
  make_request env url r rc p w = (Ret (Some body), p', w') ->
  exists resp,
    (requests_sent w < requests_sent w')%nat /\
    server env (Nat.pred (requests_sent w')) url = Responded resp /\
    _is_blocked_response env resp = false /\
    status_code resp = 200 /\
    contains (py "text/html") (content_type_or_empty resp) = true /\
    1000 < len (text resp) /\
    body = text resp.
Proof.
  induction n as [n IH] using lt_wf_ind. intros rc p w body p' w' Hn.
  rewrite make_request_unfold. cbv zeta.
  assert (Hrec : forall p1 w1, config p1 = config p ->
            requests_sent w1 = S (requests_sent w) ->
            (rc <? MAX_RETRIES (config p)) = true ->
            make_request env url r (rc + 1) p1 w1 = (Ret (Some body), p', w') ->
            exists resp,
              (requests_sent w < requests_sent w')%nat /\
              server env (Nat.pred (requests_sent w')) url = Responded resp /\
              _is_blocked_response env resp = false /\
              status_code resp = 200 /\
              contains (py "text/html") (content_type_or_empty resp) = true /\
              1000 < len (text resp) /\
              body = text resp).
  { intros p1 w1 Hc Hs Hlt Hm. apply Z.ltb_lt in Hlt.
    destruct (IH (Z.to_nat (MAX_RETRIES (config p1) - (rc + 1)))
                (ltac:(rewrite Hc; lia)) (rc + 1) p1 w1 body p' w' eq_refl Hm)
      as (resp & Hlt' & H).
    exists resp. split; [lia|exact H]. }
  unfold attempt_result.
  destruct (server env (requests_sent w) url) as [resp| |] eqn:Hsrv.
  - destruct (_is_blocked_response env resp) eqn:Hb.
    + destruct (rc <? MAX_RETRIES (config p)) eqn:Hlt; [|discriminate].
      destruct (sleep env _ _) as [[[]|e] w2] eqn:Hsl; [|discriminate].
      destruct (random_choice _ _ _) as [[ua|e] w3] eqn:Hch; [|discriminate].
      apply Hrec; [apply config_attempt_parser| |reflexivity].
      now rewrite (requests_sent_choice _ _ _ _ _ Hch), (requests_sent_sleep _ _ _ _ _ Hsl).
    + destruct (status_code resp =? 200) eqn:Hst; [|discriminate].
      destruct (contains _ _ && _) eqn:Hck; [|discriminate].
      intros [= <- <- <-]. exists resp.
      apply andb_true_iff in Hck as [Hct Hlen].
      rewrite requests_sent_attempt. cbn [Nat.pred].
      apply Z.eqb_eq in Hst. apply Z.ltb_lt in Hlen.
      repeat split; try assumption; try lia.
  - destruct (rc <? MAX_RETRIES (config p)) eqn:Hlt; [|discriminate].
    destruct (sleep env _ _) as [[[]|e] w2] eqn:Hsl; [|discriminate].
    apply Hrec; [apply config_attempt_parser| |reflexivity].
    now rewrite (requests_sent_sleep _ _ _ _ _ Hsl).
  - destruct (rc <? MAX_RETRIES (config p)) eqn:Hlt; [|discriminate].
    destruct (sleep env _ _) as [[[]|e] w2] eqn:Hsl; [|discriminate].
    apply Hrec; [apply config_attempt_parser| |reflexivity].
    now rewrite (requests_sent_sleep _ _ _ _ _ Hsl).
Qed.

(** ** The crawl loop *)

Lemma crawl_frame_refl p w : crawl_frame p w p w [].
Proof. split; try reflexivity. now rewrite app_nil_r. Qed.

Lemma crawl_frame_trans p w p1 w1 p2 w2 evs1 evs2 :
  crawl_frame p w p1 w1 evs1 -> crawl_frame p1 w1 p2 w2 evs2 ->
  crawl_frame p w p2 w2 (evs1 ++ evs2).
Proof.
  intros [Hc1 Hh1 Hp1 Ht1] [Hc2 Hh2 Hp2 Ht2]. split; try congruence; try set_solver.
  rewrite app_assoc. congruence.
Qed.

Lemma crawl_frame_fetch p w p' w' evs :
  fetch_frame p w p' w' evs -> crawl_frame p w p' w' evs.
Proof. intros [Hc Hr Hh Hp Hf Ht]. split; try assumption; [by rewrite Hh|by rewrite Hp]. Qed.

Lemma trace_save_progress env p w : trace (_save_progress env p w) = trace w.
Proof. apply save_progress_world. Qed.

Lemma trace_save_results env p w : trace (_save_results env p w) = trace w.
Proof.
  unfold _save_results. destruct (results p); [reflexivity|].
  cbv zeta. destruct (frame_report_ok env _); reflexivity.
Qed.

Lemma crawl_frame_saves p w w1 :
  trace w1 = trace w -> crawl_frame p w p w1 [].
Proof. intros H. split; try reflexivity. now rewrite app_nil_r. Qed.

Lemma hotel_requests_avoid_app H evs1 evs2 :
  hotel_requests_avoid H evs1 -> hotel_requests_avoid H evs2 ->
  hotel_requests_avoid H (evs1 ++ evs2).
Proof. intros. now apply Forall_app. Qed.

Lemma hotel_requests_avoid_mono (H H' : gset pystr) evs :
  H ⊆ H' -> hotel_requests_avoid H' evs -> hotel_requests_avoid H evs.
Proof.
  intros Hsub HF. eapply Forall_impl; [exact HF|].
  intros [u [r|] s| |]; cbn; set_solver.
Qed.

Lemma requests_only_avoid (H : gset pystr) url r evs :
  url ∉ H -> requests_only url r evs -> hotel_requests_avoid H evs.
Proof.
  intros Hu HF. eapply Forall_impl; [exact HF|].
  intros [u [r'|] s| |]; cbn; try tauto.
  intros [-> _]. exact Hu.
Qed.

Lemma requests_only_none_avoid (H : gset pystr) url evs :
  requests_only url None evs -> hotel_requests_avoid H evs.
Proof.
  intros HF. eapply Forall_impl; [exact HF|].
  intros [u [r'|] s| |]; cbn; try tauto. intros [_ [=]].
Qed.

Lemma make_request_crawl env url r rc p w o p' w' :
  make_request env url r rc p w = (o, p', w') ->
  exists evs, fetch_frame p w p' w' evs /\ requests_only url r evs.
Proof. intros H. eapply make_request_frame; [reflexivity|exact H]. Qed.

(** The bookkeeping after a hotel page was fetched and parsed. *)
Lemma hotel_done_frame (env : Env) (n i : Z) (url : pystr) (reviews : list record)
    (p : Parser) (w : World) :
  let p1 := match reviews with
            | [] => p
            | _ :: _ => set_results (results p ++ reviews) p
            end in
  let p2 := mark_hotel url p1 in
  let w1 := if i mod 10 =? 0 then _save_results env p2 (_save_progress env p2 w) else w in
  let w2 := if i <? n
            then sleep_uniform (DELAY_BETWEEN_HOTELS_MIN (config p2))
                   (DELAY_BETWEEN_HOTELS_MAX (config p2)) w1
            else w1 in
  exists evs, crawl_frame p w p2 w2 evs /\ forall H, hotel_requests_avoid H evs.
Proof.
  cbv zeta.
  assert (Hs : forall q w0, trace (if i mod 10 =? 0
                                   then _save_results env q (_save_progress env q w0)
                                   else w0) = trace w0).
  { intros q w0. destruct (i mod 10 =? 0);
      [rewrite trace_save_results, trace_save_progress|]; reflexivity. }
  destruct (i <? n).
  - exists [EvSleepUniform (DELAY_BETWEEN_HOTELS_MIN (config p))
              (DELAY_BETWEEN_HOTELS_MAX (config p))].
    split; [|intros H; repeat constructor].
    destruct reviews; (split; [reflexivity|apply union_subseteq_r|reflexivity|]);
      cbn; rewrite Hs; reflexivity.
  - exists []. split; [|intros H; constructor].
    destruct reviews; (split; [reflexivity|apply union_subseteq_r|reflexivity|]);
      rewrite Hs, app_nil_r; reflexivity.
Qed.

Lemma scrape_hotels_frame env page_url n hotels : forall i p w o p' w',
  scrape_hotels env page_url n i hotels p w = (o, p', w') ->
  exists evs, crawl_frame p w p' w' evs /\
              hotel_requests_avoid (processed_hotels p) evs.
Proof.
  induction hotels as [|hotel rest IH]; intros i p w o p' w'; cbn [scrape_hotels].
  { intros [= <- <- <-]. exists []. split; [apply crawl_frame_refl|constructor]. }
  destruct (bool_decide (hotel_url hotel ∈ processed_hotels p)) eqn:Hin.
  { apply IH. }
  apply bool_decide_eq_false in Hin.
  destruct (reviews_count hotel =? 0).
  { intros H. apply IH in H as (evs & F & A). exists evs. split.
    - destruct F as [Hc Hh Hp Ht]. split; try assumption.
      etrans; [|exact Hh]. apply union_subseteq_r.
    - eapply hotel_requests_avoid_mono; [|exact A]. apply union_subseteq_r. }
  destruct (make_request env (hotel_url hotel) (Some page_url) 0 p w)
    as [[[html|e] p1] w1] eqn:Hm.
  2: { intros [= <- <- <-]. apply make_request_crawl in Hm as (evs & F & R).
       exists evs. split; [now apply crawl_frame_fetch|].
       eapply requests_only_avoid; eassumption. }
  apply make_request_crawl in Hm as (evs1 & F1 & R1).
  pose proof (requests_only_avoid _ _ _ _ Hin R1) as A1.
  assert (Hrest : forall j p2 w2 evs2,
            crawl_frame p1 w1 p2 w2 evs2 ->
            hotel_requests_avoid (processed_hotels p) evs2 ->
            scrape_hotels env page_url n j rest p2 w2 = (o, p', w') ->
            exists evs, crawl_frame p w p' w' evs /\
                        hotel_requests_avoid (processed_hotels p) evs).
  { intros j p2 w2 evs2 F2 A2 H. apply IH in H as (evs3 & F3 & A3).
    exists (evs1 ++ evs2 ++ evs3). split.
    - eapply crawl_frame_trans; [apply crawl_frame_fetch, F1|].
      eapply crawl_frame_trans; eassumption.
    - apply hotel_requests_avoid_app; [exact A1|].
      apply hotel_requests_avoid_app; [exact A2|].
      eapply hotel_requests_avoid_mono; [|exact A3].
      rewrite <- (ff_hotels _ _ _ _ _ F1). apply (cf_hotels _ _ _ _ _ F2). }
  destruct (negb (opt_truthy html)).
  { eapply Hrest; [apply crawl_frame_refl|constructor]. }
  cbv zeta.
  destruct (negb (ratings_printable _)).
  { intros [= <- <- <-]. exists evs1. split; [|exact A1].
    destruct F1 as [Hc Hr Hh Hp Hf Ht].
    destruct (parse_hotel_page _ _ _ _); split; cbn; try assumption;
      try (by rewrite Hh); by rewrite Hp. }
  destruct (hotel_done_frame env n i (hotel_url hotel)
              (parse_hotel_page env (config p1) (default [] html) hotel) p1 w1)
    as (evs2 & F2 & A2).
  eapply Hrest; [exact F2|apply A2].
Qed.

Lemma crawl_frame_mark_page page_num p w w1 evs :
  crawl_frame p w p w1 evs -> crawl_frame p w (mark_page page_num p) w1 evs.
Proof.
  intros [Hc Hh Hp Ht]. split; try assumption. apply union_subseteq_r.
Qed.

Lemma scrape_page_frame env page_num p w o p' w' :
  scrape_page env page_num p w = (o, p', w') ->
  exists evs, crawl_frame p w p' w' evs /\
              hotel_requests_avoid (processed_hotels p) evs.
Proof.
  unfold scrape_page.
  destruct (bool_decide (page_num ∈ processed_pages p)).
  { intros [= <- <- <-]. exists []. split; [apply crawl_frame_refl|constructor]. }
  cbv zeta.
  destruct (make_request env (get_list_page_url p page_num) None 0 p w)
    as [[[html|e] p1] w1] eqn:Hm;
    apply make_request_crawl in Hm as (evs1 & F1 & R1);
    pose proof (requests_only_none_avoid (processed_hotels p) _ _ R1) as A1.
  2: { intros [= <- <- <-]. exists evs1. split; [now apply crawl_frame_fetch|exact A1]. }
  destruct (negb (opt_truthy html)).
  { intros [= <- <- <-]. exists evs1. split; [now apply crawl_frame_fetch|exact A1]. }
  destruct (parse_list_page env (config p1) (default [] html) page_num
              (get_list_page_url p page_num)) as [|hotel hotels] eqn:Hh.
  { intros [= <- <- <-]. exists (evs1 ++ []). split.
    - eapply crawl_frame_trans; [apply crawl_frame_fetch, F1|].
      apply crawl_frame_mark_page, crawl_frame_saves, trace_save_progress.
    - now rewrite app_nil_r. }
  destruct (scrape_hotels env _ _ 1 (hotel :: hotels) p1 w1) as [[[u|e] p2] w2] eqn:Hs;
    apply scrape_hotels_frame in Hs as (evs2 & F2 & A2);
    rewrite (ff_hotels _ _ _ _ _ F1) in A2;
    intros [= <- <- <-].
  - exists (evs1 ++ evs2 ++ []). split.
    + eapply crawl_frame_trans; [apply crawl_frame_fetch, F1|].
      eapply crawl_frame_trans; [exact F2|].
      apply crawl_frame_mark_page, crawl_frame_saves.
      now rewrite trace_save_results, trace_save_progress.
    + rewrite app_nil_r. now apply hotel_requests_avoid_app.
  - exists (evs1 ++ evs2). split.
    + eapply crawl_frame_trans; [apply crawl_frame_fetch, F1|exact F2].
    + now apply hotel_requests_avoid_app.
Qed.

Lemma run_pages_frame env end_page pages : forall p w o p' w',
  run_pages env end_page pages p w = (o, p', w') ->
  exists evs, crawl_frame p w p' w' evs /\
              hotel_requests_avoid (processed_hotels p) evs.
Proof.
  induction pages as [|page_num rest IH]; intros p w o p' w'; cbn [run_pages].
  { intros [= <- <- <-]. exists []. split; [apply crawl_frame_refl|constructor]. }
  destruct (scrape_page env page_num p w) as [[[b|e] p1] w1] eqn:Hs;
    apply scrape_page_frame in Hs as (evs1 & F1 & A1).
  2: { intros [= <- <- <-]. exists evs1. split; assumption. }
  intros H. apply IH in H as (evs3 & F3 & A3).
  assert (exists evs2, crawl_frame p1 w1 p1
            (if page_num <? end_page
             then sleep_uniform (DELAY_BETWEEN_PAGES_MIN (config p1))
                    (DELAY_BETWEEN_PAGES_MAX (config p1)) w1
             else w1) evs2
          /\ hotel_requests_avoid (processed_hotels p) evs2) as (evs2 & F2 & A2).
  { destruct (page_num <? end_page).
    - eexists [_]. split; [split; reflexivity|repeat constructor].
    - exists []. split; [apply crawl_frame_refl|constructor]. }
  exists (evs1 ++ evs2 ++ evs3). split.
  - eapply crawl_frame_trans; [exact F1|]. eapply crawl_frame_trans; eassumption.
  - apply hotel_requests_avoid_app; [exact A1|].
    apply hotel_requests_avoid_app; [exact A2|].
    eapply hotel_requests_avoid_mono; [|exact A3]. apply (cf_hotels _ _ _ _ _ F1).
Qed.

Lemma requests_sent_save_progress env p w :
  requests_sent (_save_progress env p w) = requests_sent w.
Proof. apply save_progress_world. Qed.

Lemma requests_sent_save_results env p w :
  requests_sent (_save_results env p w) = requests_sent w.
Proof.
  unfold _save_results. destruct (results p); [reflexivity|].
  cbv zeta. destruct (frame_report_ok env _); reflexivity.
Qed.

(** What follows the loop in [run] (the report, the saves, the statistics
    file) changes neither the parser nor the trace nor the number of
    requests sent. *)
Lemma run_end env start_page end_page p w :
  exists o p1 w1,
    run_pages env (default (MAX_PAGES (config p)) end_page)
      (seqZ start_page (default (MAX_PAGES (config p)) end_page + 1 - start_page)) p w
    = (o, p1, w1) /\
    (run env start_page end_page p w).1 = p1 /\
    trace (run env start_page end_page p w).2 = trace w1 /\
    requests_sent (run env start_page end_page p w).2 = requests_sent w1.
Proof.
  unfold run. cbv zeta.
  generalize (successful_pages env (default (MAX_PAGES (config p)) end_page)
      (seqZ start_page (default (MAX_PAGES (config p)) end_page + 1 - start_page)) p w).
  intros k.
  generalize (run_pages env (default (MAX_PAGES (config p)) end_page)
      (seqZ start_page (default (MAX_PAGES (config p)) end_page + 1 - start_page)) p w).
  intros [[o p1] w1]. exists o, p1, w1. split; [reflexivity|].
  assert (Hall : forall w0, trace (save_all env p1 w0) = trace w0 /\
                            requests_sent (save_all env p1 w0) = requests_sent w0).
  { intros w0. unfold save_all.
    now rewrite trace_save_results, trace_save_progress, requests_sent_save_results,
      requests_sent_save_progress. }
  destruct o as [u|e].
  - destruct (report_printable (results p1)).
    + match goal with |- context [dump_stop ?ts] => generalize ts end. intros ts.
      destruct (dump_stop ts) as [n|]; cbn [fst snd].
      * destruct (Hall (set_files
                          (foldl apply_op (files (tick (_save_results env p1 (tick w1))))
                             (take (S n) (dump_ops stats_path ts)))
                          (tick (_save_results env p1 (tick w1))))) as [-> ->].
        cbn [set_files tick trace requests_sent].
        now rewrite trace_save_results, requests_sent_save_results.
      * cbn [set_files tick trace requests_sent].
        now rewrite trace_save_results, requests_sent_save_results.
    + cbn [fst snd]. destruct (Hall (tick w1)) as [-> ->]. repeat split.
  - cbn [fst snd]. destruct (Hall w1) as [-> ->]. repeat split.
Qed.

Lemma run_frame env start_page end_page p w p' w' :
  run env start_page end_page p w = (p', w') ->
  exists evs, crawl_frame p w p' w' evs /\
              hotel_requests_avoid (processed_hotels p) evs.
Proof.
  intros Hrun.
  destruct (run_end env start_page end_page p w) as (o & p1 & w1 & Hr & Hp1 & Ht1 & _).
  rewrite Hrun in Hp1, Ht1. cbn [fst snd] in Hp1, Ht1. subst p1.
  apply run_pages_frame in Hr as (evs & [Hc Hh Hp Ht] & A).
  exists evs. split; [split; try assumption|exact A].
  now rewrite Ht1.
Qed.



Lemma marks_skip (A B C : gset pystr) (u : pystr) :
  A ⊆ B ∪ C -> A ⊆ B ∪ ({[u]} ∪ C).
Proof.
  intros H x Hx. apply H in Hx. apply elem_of_union in Hx as [Hx|Hx].
  - apply elem_of_union. now left.
  - apply elem_of_union. right. apply elem_of_union. now right.
Qed.

Lemma marks_add (A B C : gset pystr) (u : pystr) :
  A ⊆ ({[u]} ∪ B) ∪ C -> A ⊆ B ∪ ({[u]} ∪ C).
Proof.
  intros H x Hx. apply H in Hx. apply elem_of_union in Hx as [Hx|Hx].
  - apply elem_of_union in Hx as [Hx|Hx].
    + apply elem_of_union. right. apply elem_of_union. now left.
    + apply elem_of_union. now left.
  - apply elem_of_union. right. apply elem_of_union. now right.
Qed.

(** The loop marks no other hotels than those of its list. *)
Lemma scrape_hotels_marks env page_url n hotels : forall i p w o p' w',
  scrape_hotels env page_url n i hotels p w = (o, p', w') ->
  processed_hotels p' ⊆ processed_hotels p ∪ list_to_set (hotel_url <$> hotels).
Proof.
  induction hotels as [|hotel rest IH]; intros i p w o p' w'; cbn [scrape_hotels].
  { intros [= <- <- <-]. apply union_subseteq_l. }
  rewrite fmap_cons, list_to_set_cons.
  destruct (bool_decide (hotel_url hotel ∈ processed_hotels p)).
  { intros H. apply IH in H. now apply marks_skip. }
  destruct (reviews_count hotel =? 0).
  { intros H. apply IH in H. now apply marks_add. }
  destruct (make_request env (hotel_url hotel) (Some page_url) 0 p w)
    as [[[html|e] p1] w1] eqn:Hm;
    apply make_request_crawl in Hm as (evs & F & _);
    pose proof (ff_hotels _ _ _ _ _ F) as Ehot.
  2: { intros [= <- <- <-]. rewrite Ehot. apply union_subseteq_l. }
  destruct (negb (opt_truthy html)).
  { intros H. apply IH in H. rewrite Ehot in H. now apply marks_skip. }
  cbv zeta. destruct (negb (ratings_printable _)).
  { intros [= <- <- <-].
    destruct (parse_hotel_page _ _ _ _); cbn; rewrite Ehot; apply union_subseteq_l. }
  intros H. apply IH in H. apply marks_add.
  destruct (parse_hotel_page _ _ _ _); cbn in H; rewrite Ehot in H; exact H.
Qed.

(** A hotel whose fetch ends in [None] is left as it was found. *)
Lemma scrape_hotels_failed_fetch env page_url n i hotel rest p w p1 w1 :
  hotel_url hotel ∉ processed_hotels p ->
  reviews_count hotel <> 0 ->
  make_request env (hotel_url hotel) (Some page_url) 0 p w = (Ret None, p1, w1) ->
  scrape_hotels env page_url n i (hotel :: rest) p w
  = scrape_hotels env page_url n (i + 1) rest p1 w1.
Proof.
  intros Hin Hcount Hm. cbn [scrape_hotels].
  rewrite bool_decide_eq_false_2 by exact Hin.
  apply Z.eqb_neq in Hcount. rewrite Hcount, Hm. reflexivity.
Qed.

(** ** Deduplication at persistence time *)















(** ** Block detection on a status-200 response *)

Lemma response_truthy_200 r : status_code r = 200 -> response_truthy r = true.
Proof. unfold response_truthy. intros ->. reflexivity. Qed.

Lemma is_blocked_200 env r :
  status_code r = 200 ->
  has_block_indicator env (text r) = false ->
  _is_blocked_response env r
  = str_truthy (text r) && (len (text r) <? 1000)
    && negb (contains (py "product-list") (text r)).
Proof.
  intros Hs Hi. unfold _is_blocked_response.
  rewrite response_truthy_200 by exact Hs. rewrite Hs, Hi.
  change (existsb (Z.eqb 200) [403; 429; 503]) with false. cbn [negb].
  destruct (str_truthy (text r)); [|reflexivity]. cbn [andb].
  destruct ((len (text r) <? 1000) && negb (contains (py "product-list") (text r))); reflexivity.
Qed.

Lemma is_blocked_falsy env r :
  400 <= status_code r < 600 -> _is_blocked_response env r = false.
Proof.
  intros [H1 H2]. unfold _is_blocked_response, response_truthy.
  apply Z.leb_le in H1. apply Z.ltb_lt in H2. rewrite H1, H2. reflexivity.
Qed.

(** * The claims *)

(** Settles a decidable statement about concrete data by evaluation. *)
Ltac by_evaluation :=
  match goal with
  | |- ~ ?P => apply (bool_decide_eq_false_1 P); vm_compute; reflexivity
  | |- ?P => apply (bool_decide_eq_true_1 P); vm_compute; reflexivity
  end.

(** ** C1: a hotel whose fetch fails for good *)

(** C1, as stated, fails. On list page 1 hotel A announces three reviews and
    hotel B none. When every request for the page of hotel A is answered
    with status 403, or with a block page until the retries are used up,
    [make_request] returns [None], [scrape_page] finishes the page and
    returns [True], yet the URL of hotel A is not in [processed_hotels]
    afterwards (that of hotel B is). *)
Example failed_hotel_not_marked :
  let forbidden := scenario_env (Responded (status_response 403)) in
  let blocked := scenario_env (Responded captcha_page) in
  let after env := scrape_page env 1 fresh_parser empty_world in
  (make_request forbidden (hotel_url hotel_a) (Some (BASE_URL default_config)) 0
     fresh_parser empty_world).1.1 = Ret None /\
  (after forbidden).1.1 = Ret true /\
  bool_decide (hotel_url hotel_a ∈ processed_hotels (after forbidden).1.2) = false /\
  bool_decide (hotel_url hotel_b ∈ processed_hotels (after forbidden).1.2) = true /\
  bool_decide (1 ∈ processed_pages (after forbidden).1.2) = true /\
  (after blocked).1.1 = Ret true /\
  length (hotel_fetches (trace (after blocked).2)) = 4%nat /\
  blocked_count (after blocked).1.2 = 4 /\
  bool_decide (hotel_url hotel_a ∈ processed_hotels (after blocked).1.2) = false.
Proof. vm_compute. repeat split; reflexivity. Qed.

(** C1 (amended): when the fetch of a hotel page ends in [None] (the hotel is
    not yet in [processed_hotels] and announces reviews), the hotel is not
    added to [processed_hotels] and no review is added for it; the loop goes
    on with the next hotel from the state the fetch left, and unless a later
    entry of the page has the same URL, the URL is still absent from
    [processed_hotels] when the loop ends. *)
Theorem failed_hotel_left_unmarked (env : Env) (page_url : pystr) (n i : Z)
    (hotel : Hotel) (rest : list Hotel) (p p1 p' : Parser) (w w1 w' : World)
    (o : outcome unit) :
  hotel_url hotel ∉ processed_hotels p ->
  reviews_count hotel <> 0 ->
  make_request env (hotel_url hotel) (Some page_url) 0 p w = (Ret None, p1, w1) ->
  hotel_url hotel ∉ (hotel_url <$> rest) ->
  scrape_hotels env page_url n i (hotel :: rest) p w = (o, p', w') ->
  processed_hotels p1 = processed_hotels p /\
  results p1 = results p /\
  scrape_hotels env page_url n (i + 1) rest p1 w1 = (o, p', w') /\
  hotel_url hotel ∉ processed_hotels p'.
Proof.
  intros Hnew Hcount Hfetch Hlater Hloop.
  rewrite (scrape_hotels_failed_fetch _ _ _ _ _ _ _ _ _ _ Hnew Hcount Hfetch) in Hloop.
  destruct (make_request_crawl _ _ _ _ _ _ _ _ _ Hfetch) as (evs & F & _).
  pose proof (ff_hotels _ _ _ _ _ F) as Ehot.
  repeat split; [exact Ehot|apply (ff_results _ _ _ _ _ F)|exact Hloop|].
  intros Hin. apply (scrape_hotels_marks _ _ _ _ _ _ _ _ _ _ Hloop) in Hin.
  apply elem_of_union in Hin as [Hin|Hin].
  - rewrite Ehot in Hin. now apply Hnew.
  - apply elem_of_list_to_set in Hin. now apply Hlater.
Qed.

Lemma failed_hotel_left_unmarked_witness :
  let env := scenario_env (Responded (status_response 403)) in
  let page_url := BASE_URL default_config in
  let fetch := make_request env (hotel_url hotel_a) (Some page_url) 0 fresh_parser empty_world in
  let loop := scrape_hotels env page_url 2 1 [hotel_a; hotel_b] fresh_parser empty_world in
  processed_hotels fetch.1.2 = processed_hotels fresh_parser /\
  results fetch.1.2 = results fresh_parser /\
  scrape_hotels env page_url 2 (1 + 1) [hotel_b] fetch.1.2 fetch.2 = (loop.1.1, loop.1.2, loop.2) /\
  hotel_url hotel_a ∉ processed_hotels loop.1.2.
Proof.
  intros env page_url fetch loop.
  apply (failed_hotel_left_unmarked env page_url 2 1 hotel_a [hotel_b]
           fresh_parser fetch.1.2 loop.1.2 empty_world fetch.2 loop.2 loop.1.1).
  - by_evaluation.
  - vm_compute. discriminate.
  - vm_compute. reflexivity.
  - by_evaluation.
  - vm_compute. reflexivity.
Defined.

(** ** C2: how a checkpoint is written *)

Lemma strict_prefix_take (n : nat) (doc : list token) :
  (n < length doc)%nat -> strict_prefix (take n doc) doc.
Proof.
  intros Hn. exists (drop n doc). split; [|symmetry; apply take_drop].
  intros E. apply (f_equal length) in E. rewrite length_drop in E. simpl in E. lia.
Qed.

Lemma files_save_progress_stopped env p w n :
  (n < length (encode (checkpoint_json p (now_isoformat env (clock_reads w)))))%nat ->
  files (_save_progress_stopped (S n) env p w)
  = <[PROGRESS_FILE (config p) :=
        JsonDoc (take n (encode (checkpoint_json p (now_isoformat env (clock_reads w)))))]>
      (files w).
Proof.
  intros Hn. unfold _save_progress_stopped, _save_progress_ops, set_files, tick.
  cbn [files clock_reads]. cbv zeta.
  rewrite take_app_le by (unfold dump_ops; cbn [length]; rewrite length_map; lia).
  apply foldl_dump_ops_take.
Qed.

Lemma load_unparsable p0 w ts :
  files w !! PROGRESS_FILE (config p0) = Some (JsonDoc ts) ->
  json_load ts = None ->
  _load_progress p0 w = p0.
Proof. intros Hf Hl. unfold _load_progress. now rewrite Hf, Hl. Qed.

(** C2, as stated, fails: the save is not atomic and the backup is not
    immutable. A first checkpoint of [busy_parser] is on disk; a second save,
    of a parser that has completed one more page, is stopped right after the
    progress file was opened. The file is then empty: it holds neither the
    first checkpoint nor the second, and a resume finds no completed page
    although the first checkpoint recorded two. When the second save runs to
    its end within the same second as the first, it writes its backup over
    the backup of the first: only the progress file and one backup exist. *)
Example save_progress_not_atomic :
  let env := scenario_env TimedOut in
  let first := _save_progress env busy_parser empty_world in
  let later := mark_page 3 busy_parser in
  let stopped := _save_progress_stopped 1 env later first in
  let second := _save_progress env later first in
  ~ atomic_save env later first /\
  files stopped !! PROGRESS_FILE (config later) = Some (JsonDoc []) /\
  elements (processed_pages (_load_progress fresh_parser first)) = [2; 1] /\
  elements (processed_pages (_load_progress fresh_parser stopped)) = [] /\
  backup_path (time_time env (S (clock_reads first)))
    = backup_path (time_time env (S (clock_reads empty_world))) /\
  files second !! backup_path (time_time env (S (clock_reads first)))
    = Some (JsonDoc (encode (checkpoint_json later (now_isoformat env (clock_reads first))))) /\
  files second !! backup_path (time_time env (S (clock_reads first)))
    <> files first !! backup_path (time_time env (S (clock_reads empty_world))) /\
  size (files second) = 2%nat.
Proof.
  cbv zeta. split.
  { intros H. specialize (H 1%nat). vm_compute in H. destruct H as [H|H]; discriminate H. }
  repeat split; try (vm_compute; reflexivity).
  vm_compute. discriminate.
Qed.

(** C2 (amended): a completed [_save_progress] (one whose document holds
    only strings that can be encoded) leaves the full state (processed pages
    and hotels, results, counters) in the progress file and in the backup
    file named after the current second, replacing whatever these files
    held. The progress file is rewritten in place: once it has been opened
    and [n] tokens of the document are written, with [n] below the length of
    the document, it holds exactly these [n] tokens; this incomplete
    document does not parse, and [_load_progress] then leaves the parser as
    it is (a cold start when called by the constructor). A save whose
    document holds a string that cannot be encoded ends in this way by
    itself: it stops while it writes the progress file. *)
Theorem save_progress_in_place (env : Env) (p p0 : Parser) (w : World) (n : nat) :
  let doc := encode (checkpoint_json p (now_isoformat env (clock_reads w))) in
  PROGRESS_FILE (config p0) = PROGRESS_FILE (config p) ->
  (n < length doc)%nat ->
  (dumpable doc = true ->
   files (_save_progress env p w) !! PROGRESS_FILE (config p) = Some (JsonDoc doc) /\
   files (_save_progress env p w) !! backup_path (time_time env (S (clock_reads w)))
     = Some (JsonDoc doc)) /\
  files (_save_progress_stopped (S n) env p w) !! PROGRESS_FILE (config p)
    = Some (JsonDoc (take n doc)) /\
  json_load (take n doc) = None /\
  _load_progress p0 (_save_progress_stopped (S n) env p w) = p0 /\
  (dumpable doc = false ->
   exists k, (k < length doc)%nat /\
             _save_progress env p w = _save_progress_stopped (S k) env p w).
Proof.
  intros doc Hpath Hn.
  assert (Hstop : files (_save_progress_stopped (S n) env p w) !! PROGRESS_FILE (config p)
                  = Some (JsonDoc (take n doc))).
  { rewrite files_save_progress_stopped by exact Hn. apply lookup_insert_eq. }
  assert (Hload : json_load (take n doc) = None).
  { apply (json_load_strict_prefix (checkpoint_json p (now_isoformat env (clock_reads w)))).
    now apply strict_prefix_take. }
  repeat apply conj.
  - intros Hd. split.
    + now apply progress_file_after_save.
    + rewrite files_save_progress by exact Hd. apply lookup_insert_eq.
  - exact Hstop.
  - exact Hload.
  - apply (load_unparsable p0 _ (take n doc)); [|exact Hload]. now rewrite Hpath.
  - apply save_progress_failed.
Qed.

Lemma save_progress_in_place_witness :
  let env := scenario_env TimedOut in
  let doc := encode (checkpoint_json busy_parser (now_isoformat env 0%nat)) in
  (dumpable doc = true ->
   files (_save_progress env busy_parser empty_world) !! PROGRESS_FILE (config busy_parser)
     = Some (JsonDoc doc) /\
   files (_save_progress env busy_parser empty_world)
     !! backup_path (time_time env 1%nat) = Some (JsonDoc doc)) /\
  files (_save_progress_stopped 8 env busy_parser empty_world)
    !! PROGRESS_FILE (config busy_parser) = Some (JsonDoc (take 7 doc)) /\
  json_load (take 7 doc) = None /\
  _load_progress fresh_parser (_save_progress_stopped 8 env busy_parser empty_world)
    = fresh_parser /\
  (dumpable doc = false ->
   exists k, (k < length doc)%nat /\
             _save_progress env busy_parser empty_world
             = _save_progress_stopped (S k) env busy_parser empty_world).
Proof.
  intros env doc.
  apply (save_progress_in_place env busy_parser fresh_parser empty_world 7).
  - reflexivity.
  - vm_compute. lia.
Defined.

(** ** C3: processed pages and hotels are not fetched again *)

Lemma files_random_choice env l w o w' :
  random_choice env l w = (o, w') -> files w' = files w.
Proof.
  unfold random_choice. destruct (l !! _); intros [= <- <-]; reflexivity.
Qed.




(** ** C4: save, then load *)

(** C4, as stated, fails: not every state comes back. A string with a lone
    surrogate (Python strings can hold one; [json.load] builds one from the
    escape [\ud800]) cannot be written to a UTF-8 file. With such a string
    in the title of one result, [json.dump] raises while the progress file
    is written; [_save_progress] catches the exception and returns. The
    progress file then holds the beginning of the document, no backup is
    written, and [_load_progress] restores nothing: the two processed pages,
    the two hotels, the four results and the counters are not loaded. *)
Example checkpoint_lost_on_surrogate :
  let env := scenario_env TimedOut in
  let saved := _save_progress env surrogate_parser empty_world in
  let loaded := _load_progress fresh_parser saved in
  state_encodable surrogate_parser = false /\
  (exists ts, files saved !! PROGRESS_FILE (config surrogate_parser) = Some (JsonDoc ts)
              /\ json_load ts = None) /\
  files saved !! backup_path (time_time env 1%nat) = None /\
  loaded = fresh_parser /\
  elements (processed_pages surrogate_parser) = [2; 1] /\
  elements (processed_pages loaded) = [] /\
  length (results surrogate_parser) = 4%nat /\
  results loaded = [] /\
  total_requests surrogate_parser = 7 /\
  total_requests loaded = 0.
Proof.
  cbv zeta. repeat apply conj; try (vm_compute; reflexivity).
  eexists. split; vm_compute; reflexivity.
Qed.

(** C4 (amended): when the strings of the state [p] (the URLs of the
    processed hotels, the keys and the string values of the results) and
    the time stamp can be encoded in UTF-8, the document of the checkpoint
    can be written, and [_save_progress] followed by [_load_progress] (into
    any parser [p0] that uses the same progress file, such as the one a new
    process constructs) yields the processed pages, the processed hotels,
    the results in their order and the two counters of [p]. When the
    document cannot be written, [_load_progress] after [_save_progress]
    leaves the loading parser as it is. *)
Theorem checkpoint_roundtrip (env : Env) (p p0 : Parser) (w : World) :
  PROGRESS_FILE (config p0) = PROGRESS_FILE (config p) ->
  let doc := encode (checkpoint_json p (now_isoformat env (clock_reads w))) in
  let loaded := _load_progress p0 (_save_progress env p w) in
  (state_encodable p = true -> encodable (now_isoformat env (clock_reads w)) = true ->
   dumpable doc = true) /\
  (dumpable doc = true ->
   processed_pages loaded = processed_pages p /\
   processed_hotels loaded = processed_hotels p /\
   results loaded = results p /\
   total_requests loaded = total_requests p /\
   blocked_count loaded = blocked_count p) /\
  (dumpable doc = false -> loaded = p0).
Proof.
  intros Hpath doc loaded. repeat apply conj.
  - apply checkpoint_dumpable.
  - intros Hd. subst loaded.
    rewrite (load_checkpoint_json p0 (_save_progress env p w) p
               (now_isoformat env (clock_reads w))).
    + repeat split; reflexivity.
    + rewrite Hpath. now apply progress_file_after_save.
  - intros Hd. subst loaded.
    destruct (save_progress_failed env p w Hd) as (k & Hk & ->).
    apply (load_unparsable p0 _ (take k doc)).
    + rewrite Hpath, files_save_progress_stopped by exact Hk. apply lookup_insert_eq.
    + apply (json_load_strict_prefix (checkpoint_json p (now_isoformat env (clock_reads w)))).
      now apply strict_prefix_take.
Qed.

Lemma checkpoint_roundtrip_witness :
  let env := scenario_env TimedOut in
  let doc := encode (checkpoint_json busy_parser (now_isoformat env 0%nat)) in
  let loaded := _load_progress fresh_parser (_save_progress env busy_parser empty_world) in
  (state_encodable busy_parser = true -> encodable (now_isoformat env 0%nat) = true ->
   dumpable doc = true) /\
  (dumpable doc = true ->
   processed_pages loaded = processed_pages busy_parser /\
   processed_hotels loaded = processed_hotels busy_parser /\
   results loaded = results busy_parser /\
   total_requests loaded = total_requests busy_parser /\
   blocked_count loaded = blocked_count busy_parser) /\
  (dumpable doc = false -> loaded = fresh_parser).
Proof.
  intros env.
  apply (checkpoint_roundtrip env busy_parser fresh_parser empty_world).
  reflexivity.
Defined.

(** ** C5: a status-200 response without block signature *)

(** C5, as stated, fails in both parts. An empty body with status 200 is
    shorter than 1000 characters, has no block signature and no content
    marker, and is not classified as blocked; a body of twelve characters
    that consists of the content marker is not classified as blocked either:
    the marker lifts the short-body rule at any length. *)
Example short_body_not_always_blocked :
  let env := scenario_env TimedOut in
  has_block_indicator env [] = false /\
  contains (py "product-list") [] = false /\
  (len [] <? 1000) = true /\
  _is_blocked_response env (html_response []) = false /\
  has_block_indicator env (py "product-list") = false /\
  len (py "product-list") = 12 /\
  _is_blocked_response env (html_response (py "product-list")) = false.
Proof. vm_compute. repeat split; reflexivity. Qed.

(** C5 (amended): a status-200 response whose body has no block signature is
    classified as blocked exactly when the body is not empty, is shorter
    than 1000 characters and lacks the content marker. *)
Theorem blocked_200_without_signature (env : Env) (r : Response) :
  status_code r = 200 ->
  has_block_indicator env (text r) = false ->
  _is_blocked_response env r
  = str_truthy (text r) && (len (text r) <? 1000)
    && negb (contains (py "product-list") (text r)).
Proof. apply is_blocked_200. Qed.

Lemma blocked_200_without_signature_witness :
  let env := scenario_env TimedOut in
  let r := html_response (py "<html>Service info</html>") in
  _is_blocked_response env r
  = str_truthy (text r) && (len (text r) <? 1000)
    && negb (contains (py "product-list") (text r)).
Proof.
  intros env r. apply (blocked_200_without_signature env r); vm_compute; reflexivity.
Defined.

(** ** C6: the backoff after a block *)

Lemma random_choice_nonempty env (l : list pystr) w :
  l <> [] ->
  exists x w', random_choice env l w = (Ret x, w') /\ x ∈ l /\ trace w' = trace w.
Proof.
  intros Hl. unfold random_choice.
  destruct (l !! (random_index env (random_draws w) mod length l)%nat) as [x|] eqn:Hx.
  - exists x. eexists. split; [reflexivity|]. split; [|reflexivity].
    eapply list_elem_of_lookup_2. exact Hx.
  - apply lookup_ge_None in Hx.
    assert (length l <> 0%nat) by (destruct l; [congruence|discriminate]).
    pose proof (Nat.mod_upper_bound (random_index env (random_draws w)) (length l)). lia.
Qed.

(** C6: for a parser whose configuration went through the constructor (which
    sets the backoff base to 10 and needs a non-empty pool of user agents), a
    blocked response at attempt [a] (counted from 0) below [MAX_RETRIES]
    makes [make_request] sleep [10 * (a + 1)] seconds (a fixed, positive,
    strictly increasing function of [a]), replace the User-Agent by one
    drawn from the pool, and try again with attempt [a + 1]: the parser of
    the retry has the drawn User-Agent in its session and one more block
    counted, and the request that the retry sends carries the drawn
    User-Agent. This is so whenever [time.sleep] accepts the wait, which it
    does up to a million seconds at least; a wait that it refuses ends
    [make_request] with the exception of [time.sleep], the block being
    counted. At [a] equal to [MAX_RETRIES] (or above) the blocked response
    makes it return [None] without a backoff sleep. *)
Theorem blocked_backoff (env : Env) (c : Config) (url : pystr)
    (referer_arg : option pystr) (a : Z) (p : Parser) (w : World) (response : Response) :
  config p = init_config c ->
  USER_AGENTS c <> [] ->
  0 <= a ->
  attempt_result env url w = Responded response ->
  _is_blocked_response env response = true ->
  block_wait p a = NInt (10 * (a + 1)) /\
  0 < 10 * (a + 1) /\
  (forall b, a < b -> 10 * (a + 1) < 10 * (b + 1)) /\
  (a < MAX_RETRIES c ->
   10 * (a + 1) <= 1000000 \/ sleep_far env (NInt (10 * (a + 1))) = None ->
   exists new_agent w2,
     let w1 := attempt_world env url referer_arg p w in
     let retry := set_user_agent new_agent
                    (set_blocked_count (blocked_count (attempt_parser referer_arg p) + 1)
                       (attempt_parser referer_arg p)) in
     sleep env (block_wait p a) w1 = (Ret tt, emit (EvSleep (NInt (10 * (a + 1)))) w1) /\
     random_choice env (USER_AGENTS c) (emit (EvSleep (NInt (10 * (a + 1)))) w1)
     = (Ret new_agent, w2) /\
     new_agent ∈ USER_AGENTS c /\
     trace w2
     = trace w ++ [EvSleepUniform (DELAY_MIN (config p)) (DELAY_MAX (config p));
                   EvRequest url referer_arg (session (attempt_parser referer_arg p));
                   EvSleep (NInt (10 * (a + 1)))] /\
     make_request env url referer_arg a p w
     = make_request env url referer_arg (a + 1) retry w2 /\
     user_agent (session retry) = new_agent /\
     blocked_count retry = blocked_count p + 1 /\
     total_requests retry = total_requests p + 1 /\
     user_agent (session (attempt_parser referer_arg retry)) = new_agent /\
     trace (attempt_world env url referer_arg retry w2)
     = trace w2 ++ [EvSleepUniform (DELAY_MIN (config p)) (DELAY_MAX (config p));
                    EvRequest url referer_arg (session (attempt_parser referer_arg retry))]) /\
  (a < MAX_RETRIES c ->
   forall e,
     1000000 < 10 * (a + 1) ->
     sleep_far env (NInt (10 * (a + 1))) = Some e ->
     make_request env url referer_arg a p w
     = (Raise e,
        set_blocked_count (blocked_count (attempt_parser referer_arg p) + 1)
          (attempt_parser referer_arg p),
        attempt_world env url referer_arg p w)) /\
  (MAX_RETRIES c <= a ->
   make_request env url referer_arg a p w
   = (Ret None,
      set_blocked_count (blocked_count (attempt_parser referer_arg p) + 1)
        (attempt_parser referer_arg p),
      attempt_world env url referer_arg p w) /\
   trace (attempt_world env url referer_arg p w)
   = trace w ++ [EvSleepUniform (DELAY_MIN (config p)) (DELAY_MAX (config p));
                 EvRequest url referer_arg (session (attempt_parser referer_arg p))]).
Proof.
  intros Hc Hpool Hnonneg Hresp Hblocked.
  assert (Hwait : block_wait p a = NInt (10 * (a + 1))).
  { unfold block_wait. rewrite Hc. reflexivity. }
  assert (Hretries : MAX_RETRIES (config p) = MAX_RETRIES c) by now rewrite Hc.
  assert (Hagents : USER_AGENTS (config p) = USER_AGENTS c) by now rewrite Hc.
  assert (Hbase : DELAY_AFTER_BLOCK (config p) = NInt 10) by now rewrite Hc.
  repeat apply conj.
  - exact Hwait.
  - lia.
  - intros b Hab. lia.
  - intros Hlt Hbound.
    assert (Hsl : sleep env (block_wait p a) (attempt_world env url referer_arg p w)
                  = (Ret tt, emit (EvSleep (NInt (10 * (a + 1))))
                               (attempt_world env url referer_arg p w))).
    { rewrite Hwait. apply sleep_ok; [lia|exact Hbound]. }
    destruct (random_choice_nonempty env (USER_AGENTS c)
                (emit (EvSleep (NInt (10 * (a + 1))))
                   (attempt_world env url referer_arg p w)) Hpool)
      as (ua & w2 & Hch & Hin & Ht).
    exists ua, w2. cbv zeta.
    pose proof (ff_trace _ _ _ _ _ (fetch_frame_attempt env url referer_arg p w)) as Ha.
    repeat apply conj.
    + exact Hsl.
    + exact Hch.
    + exact Hin.
    + rewrite Ht. cbn [emit trace]. rewrite Ha, <- app_assoc. reflexivity.
    + rewrite make_request_unfold. cbv zeta. rewrite Hresp, Hblocked, Hretries.
      apply Z.ltb_lt in Hlt. rewrite Hlt, Hagents.
      unfold block_wait in Hsl. rewrite Hsl, Hch. reflexivity.
    + reflexivity.
    + unfold attempt_parser. destruct referer_arg as [r|]; [destruct (str_truthy r)|];
        reflexivity.
    + unfold attempt_parser. destruct referer_arg as [r|]; [destruct (str_truthy r)|];
        reflexivity.
    + unfold attempt_parser. destruct referer_arg as [r|]; [destruct (str_truthy r)|];
        reflexivity.
    + match goal with
      | |- trace (attempt_world _ _ _ ?q _) = _ =>
          pose proof (ff_trace _ _ _ _ _ (fetch_frame_attempt env url referer_arg q w2)) as Hb
      end.
      rewrite Hb. unfold attempt_parser.
      destruct referer_arg as [r|]; [destruct (str_truthy r)|]; reflexivity.
  - intros Hlt e Hfar He.
    rewrite make_request_unfold. cbv zeta. rewrite Hresp, Hblocked, Hretries.
    apply Z.ltb_lt in Hlt. rewrite Hlt, Hbase. cbn [pynum_mul_int].
    now rewrite (sleep_far_raises env _ _ e Hfar He).
  - intros Hge. split.
    + rewrite make_request_unfold. cbv zeta. rewrite Hresp, Hblocked, Hretries.
      apply Z.ltb_ge in Hge. now rewrite Hge.
    + apply (ff_trace _ _ _ _ _ (fetch_frame_attempt env url referer_arg p w)).
Qed.

Lemma blocked_backoff_witness :
  let env := scenario_env (Responded captcha_page) in
  let url := hotel_url hotel_a in
  let p := fresh_parser in
  let w := empty_world in
  block_wait p 0 = NInt (10 * (0 + 1)) /\
  0 < 10 * (0 + 1) /\
  (forall b, 0 < b -> 10 * (0 + 1) < 10 * (b + 1)) /\
  (0 < MAX_RETRIES default_config ->
   10 * (0 + 1) <= 1000000 \/ sleep_far env (NInt (10 * (0 + 1))) = None ->
   exists new_agent w2,
     let w1 := attempt_world env url None p w in
     let retry := set_user_agent new_agent
                    (set_blocked_count (blocked_count (attempt_parser None p) + 1)
                       (attempt_parser None p)) in
     sleep env (block_wait p 0) w1 = (Ret tt, emit (EvSleep (NInt (10 * (0 + 1)))) w1) /\
     random_choice env (USER_AGENTS default_config) (emit (EvSleep (NInt (10 * (0 + 1)))) w1)
     = (Ret new_agent, w2) /\
     new_agent ∈ USER_AGENTS default_config /\
     trace w2
     = trace w ++ [EvSleepUniform (DELAY_MIN (config p)) (DELAY_MAX (config p));
                   EvRequest url None (session (attempt_parser None p));
                   EvSleep (NInt (10 * (0 + 1)))] /\
     make_request env url None 0 p w
     = make_request env url None (0 + 1) retry w2 /\
     user_agent (session retry) = new_agent /\
     blocked_count retry = blocked_count p + 1 /\
     total_requests retry = total_requests p + 1 /\
     user_agent (session (attempt_parser None retry)) = new_agent /\
     trace (attempt_world env url None retry w2)
     = trace w2 ++ [EvSleepUniform (DELAY_MIN (config p)) (DELAY_MAX (config p));
                    EvRequest url None (session (attempt_parser None retry))]) /\
  (0 < MAX_RETRIES default_config ->
   forall e,
     1000000 < 10 * (0 + 1) ->
     sleep_far env (NInt (10 * (0 + 1))) = Some e ->
     make_request env url None 0 p w
     = (Raise e,
        set_blocked_count (blocked_count (attempt_parser None p) + 1) (attempt_parser None p),
        attempt_world env url None p w)) /\
  (MAX_RETRIES default_config <= 0 ->
   make_request env url None 0 p w
   = (Ret None,
      set_blocked_count (blocked_count (attempt_parser None p) + 1) (attempt_parser None p),
      attempt_world env url None p w) /\
   trace (attempt_world env url None p w)
   = trace w ++ [EvSleepUniform (DELAY_MIN (config p)) (DELAY_MAX (config p));
                 EvRequest url None (session (attempt_parser None p))]).
Proof.
  intros env url p w.
  apply (blocked_backoff env default_config url None 0 p w captcha_page).
  - reflexivity.
  - vm_compute. discriminate.
  - lia.
  - vm_compute. reflexivity.
  - vm_compute. reflexivity.
Defined.

(** ** C7: a 404 response *)

(** C7, as stated, fails in its last part: the value returned for a 404
    response is the value returned when the retries are used up. With the
    page of hotel A answered by status 404 [make_request] returns [None]
    after one request; with the page answered by a block page each time it
    returns [None] after four requests. *)
Example not_found_same_as_give_up :
  let missing := make_request (scenario_env (Responded (status_response 404)))
                   (hotel_url hotel_a) None 0 fresh_parser empty_world in
  let exhausted := make_request (scenario_env (Responded captcha_page))
                     (hotel_url hotel_a) None 0 fresh_parser empty_world in
  missing.1.1 = Ret None /\
  exhausted.1.1 = Ret None /\
  missing.1.1 = exhausted.1.1 /\
  requests_sent missing.2 = 1%nat /\
  requests_sent exhausted.2 = 4%nat.
Proof. vm_compute. repeat split; reflexivity. Qed.

(** C7 (amended): a 404 response is never retried and uses no retry budget:
    whatever the attempt count, [make_request] returns after that one
    request, without a backoff sleep and without counting a block. It
    returns [None], which is also what it returns for a blocked response
    once the retries are used up, so the returned value does not tell the
    two apart. *)
Theorem not_found_not_retried (env : Env) (url : pystr) (referer_arg : option pystr)
    (a : Z) (p : Parser) (w : World) (response : Response) :
  attempt_result env url w = Responded response ->
  status_code response = 404 ->
  make_request env url referer_arg a p w
  = (Ret None, attempt_parser referer_arg p, attempt_world env url referer_arg p w) /\
  trace (attempt_world env url referer_arg p w)
  = trace w ++ [EvSleepUniform (DELAY_MIN (config p)) (DELAY_MAX (config p));
                EvRequest url referer_arg (session (attempt_parser referer_arg p))] /\
  blocked_count (attempt_parser referer_arg p) = blocked_count p /\
  (forall env' url' referer_arg' a' p' w' blocked_response,
     attempt_result env' url' w' = Responded blocked_response ->
     _is_blocked_response env' blocked_response = true ->
     MAX_RETRIES (config p') <= a' ->
     (make_request env' url' referer_arg' a' p' w').1.1
     = (make_request env url referer_arg a p w).1.1).
Proof.
  intros Hresp Hstatus.
  assert (Hmissing : make_request env url referer_arg a p w
            = (Ret None, attempt_parser referer_arg p,
               attempt_world env url referer_arg p w)).
  { rewrite make_request_unfold. cbv zeta. rewrite Hresp.
    rewrite is_blocked_falsy by lia. rewrite Hstatus. reflexivity. }
  repeat apply conj.
  - exact Hmissing.
  - apply (ff_trace _ _ _ _ _ (fetch_frame_attempt env url referer_arg p w)).
  - unfold attempt_parser. destruct referer_arg as [r|]; [destruct (str_truthy r)|]; reflexivity.
  - intros env' url' referer_arg' a' p' w' blocked_response Hr Hb Hge.
    rewrite Hmissing, make_request_unfold. cbv zeta. rewrite Hr, Hb.
    apply Z.ltb_ge in Hge. now rewrite Hge.
Qed.

Lemma not_found_not_retried_witness :
  let env := scenario_env (Responded (status_response 404)) in
  let url := hotel_url hotel_a in
  let p := fresh_parser in
  let w := empty_world in
  make_request env url None 0 p w
  = (Ret None, attempt_parser None p, attempt_world env url None p w) /\
  trace (attempt_world env url None p w)
  = trace w ++ [EvSleepUniform (DELAY_MIN (config p)) (DELAY_MAX (config p));
                EvRequest url None (session (attempt_parser None p))] /\
  blocked_count (attempt_parser None p) = blocked_count p /\
  (forall env' url' referer_arg' a' p' w' blocked_response,
     attempt_result env' url' w' = Responded blocked_response ->
     _is_blocked_response env' blocked_response = true ->
     MAX_RETRIES (config p') <= a' ->
     (make_request env' url' referer_arg' a' p' w').1.1
     = (make_request env url None 0 p w).1.1).
Proof.
  intros env url p w.
  apply (not_found_not_retried env url None 0 p w (status_response 404)).
  - vm_compute. reflexivity.
  - reflexivity.
Defined.

(** ** C8: duplicates are dropped when the results are written *)

(** The loop appends the reviews of a hotel to the buffer as they are; it
    does not look at their identifiers. *)
Lemma scrape_hotels_appends env page_url n i hotel rest p w html p1 w1 :
  hotel_url hotel ∉ processed_hotels p ->
  reviews_count hotel <> 0 ->
  make_request env (hotel_url hotel) (Some page_url) 0 p w = (Ret (Some html), p1, w1) ->
  str_truthy html = true ->
  ratings_printable (parse_hotel_page env (config p1) html hotel) = true ->
  exists p2 w2,
    scrape_hotels env page_url n i (hotel :: rest) p w
    = scrape_hotels env page_url n (i + 1) rest p2 w2 /\
    results p2 = results p ++ parse_hotel_page env (config p1) html hotel /\
    hotel_url hotel ∈ processed_hotels p2.
Proof.
  intros Hnew Hcount Hfetch Hhtml Hprint. cbn [scrape_hotels].
  rewrite bool_decide_eq_false_2 by exact Hnew.
  apply Z.eqb_neq in Hcount. rewrite Hcount, Hfetch.
  cbv beta iota zeta. cbn [opt_truthy default from_option id]. rewrite Hhtml. cbn [negb].
  rewrite Hprint. cbn [negb].
  destruct (make_request_crawl _ _ _ _ _ _ _ _ _ Hfetch) as (evs & F & _).
  eexists. eexists. split; [reflexivity|]. split.
  - destruct (parse_hotel_page env (config p1) html hotel) as [|r l]; cbn.
    + rewrite app_nil_r. apply (ff_results _ _ _ _ _ F).
    + now rewrite (ff_results _ _ _ _ _ F).
  - destruct (parse_hotel_page env (config p1) html hotel);
      apply elem_of_union; left; now apply elem_of_singleton.
Qed.



(** ** C9: the configuration during a run *)

(** C9, as stated, fails: the delays supplied at construction are not the
    ones in effect. The default configuration supplies 8 as the minimal
    delay between requests and 60 as the wait after a block; the parser
    constructed from it has 3.0 and 10 instead, and the first request of its
    run is preceded by a sleep drawn between 3.0 and 5.0. *)
Example constructor_overrides_delays :
  let env := scenario_env TimedOut in
  DELAY_MIN default_config = NInt 8 /\
  DELAY_AFTER_BLOCK default_config = NInt 60 /\
  (__init__ env default_config empty_world).1 = Ret fresh_parser /\
  DELAY_MIN (config fresh_parser) = NFloat (float_of_Z 3) /\
  DELAY_AFTER_BLOCK (config fresh_parser) = NInt 10 /\
  config fresh_parser <> default_config /\
  head (trace (run env 1 (Some 1) fresh_parser empty_world).2)
  = Some (EvSleepUniform (NFloat (float_of_Z 3)) (NFloat (float_of_Z 5))).
Proof.
  cbv zeta. repeat split; try (vm_compute; reflexivity).
  vm_compute. discriminate.
Qed.

Lemma random_choice_raises env (l : list pystr) w e w' :
  random_choice env l w = (Raise e, w') -> l = [].
Proof.
  intros H. destruct l as [|x l]; [reflexivity|].
  destruct (random_choice_nonempty env (x :: l) w) as (y & w2 & Hy & _); [discriminate|].
  rewrite Hy in H. discriminate H.
Qed.

(** C9 (amended): the constructor overwrites the seven delay attributes of
    the configuration object with fixed values (3.0 and 5.0 for the three
    ranges, 10 after a block) and sets [TIMEOUT] to 10 when it is absent; it
    keeps every other attribute, among them the retry limit and the caps per
    page and per hotel; it fails only for an empty pool of user agents.
    After construction no attribute of the configuration is modified:
    [make_request], [scrape_page] and [run] leave it as it is. *)
Theorem config_fixed_after_construction (env : Env) :
  (forall c w,
     match __init__ env c w with
     | (Ret p, _) => config p = init_config c
     | (Raise _, _) => USER_AGENTS c = []
     end) /\
  (forall c,
     DELAY_MIN (init_config c) = NFloat (float_of_Z 3) /\
     DELAY_MAX (init_config c) = NFloat (float_of_Z 5) /\
     DELAY_BETWEEN_HOTELS_MIN (init_config c) = NFloat (float_of_Z 3) /\
     DELAY_BETWEEN_HOTELS_MAX (init_config c) = NFloat (float_of_Z 5) /\
     DELAY_BETWEEN_PAGES_MIN (init_config c) = NFloat (float_of_Z 3) /\
     DELAY_BETWEEN_PAGES_MAX (init_config c) = NFloat (float_of_Z 5) /\
     DELAY_AFTER_BLOCK (init_config c) = NInt 10 /\
     TIMEOUT (init_config c) = Some (default (NInt 10) (TIMEOUT c)) /\
     MAX_RETRIES (init_config c) = MAX_RETRIES c /\
     MAX_PAGES (init_config c) = MAX_PAGES c /\
     MAX_HOTELS_PER_PAGE (init_config c) = MAX_HOTELS_PER_PAGE c /\
     MAX_REVIEWS_PER_HOTEL (init_config c) = MAX_REVIEWS_PER_HOTEL c /\
     BASE_URL (init_config c) = BASE_URL c /\
     OUTPUT_FILE (init_config c) = OUTPUT_FILE c /\
     PROGRESS_FILE (init_config c) = PROGRESS_FILE c /\
     USER_AGENTS (init_config c) = USER_AGENTS c /\
     SELECTORS_LIST (init_config c) = SELECTORS_LIST c /\
     SELECTORS_HOTEL (init_config c) = SELECTORS_HOTEL c) /\
  (forall url referer_arg a p w,
     config (make_request env url referer_arg a p w).1.2 = config p) /\
  (forall page_num p w, config (scrape_page env page_num p w).1.2 = config p) /\
  (forall start_page end_page p w, config (run env start_page end_page p w).1 = config p).
Proof.
  repeat apply conj.
  - intros c w. unfold __init__, _create_session. cbv zeta.
    destruct (random_choice env (USER_AGENTS (init_config c)) w) as [[ua|e] w'] eqn:Hch.
    + unfold _load_progress.
      repeat case_match; reflexivity.
    + exact (random_choice_raises _ _ _ _ _ Hch).
  - intros c. repeat split; try reflexivity.
    cbn. destruct (TIMEOUT c); reflexivity.
  - intros url referer_arg a p w.
    destruct (make_request env url referer_arg a p w) as [[o p'] w'] eqn:Hm.
    apply make_request_crawl in Hm as (evs & F & _). apply (ff_config _ _ _ _ _ F).
  - intros page_num p w.
    destruct (scrape_page env page_num p w) as [[o p'] w'] eqn:Hs.
    apply scrape_page_frame in Hs as (evs & F & _). apply (cf_config _ _ _ _ _ F).
  - intros start_page end_page p w.
    destruct (run env start_page end_page p w) as [p' w'] eqn:Hr.
    apply run_frame in Hr as (evs & F & _). apply (cf_config _ _ _ _ _ F).
Qed.

(** ** C10: when [make_request] returns a body *)

(** C10: [make_request] returns a body only if the last response it received
    has status 200, a Content-Type containing [text/html] and more than 1000
    characters (it is then not classified as blocked, and the body returned
    is its text). A status-200 response that is not classified as blocked
    and fails the Content-Type or the length check makes it return [None] at
    once; one that fails the check when no retry is left makes it return
    [None] whether classified as blocked or not; and [None] is also what it
    returns when timeouts have used up the retries. *)
Theorem body_only_from_valid_200 (env : Env) (url : pystr) (referer_arg : option pystr)
    (a : Z) (p : Parser) (w : World) :
  (forall body,
     (make_request env url referer_arg a p w).1.1 = Ret (Some body) ->
     exists response,
       (requests_sent w < requests_sent (make_request env url referer_arg a p w).2)%nat /\
       server env (Nat.pred (requests_sent (make_request env url referer_arg a p w).2)) url
       = Responded response /\
       _is_blocked_response env response = false /\
       status_code response = 200 /\
       contains (py "text/html") (content_type_or_empty response) = true /\
       1000 < len (text response) /\
       body = text response) /\
  (forall response,
     attempt_result env url w = Responded response ->
     status_code response = 200 ->
     _is_blocked_response env response = false ->
     contains (py "text/html") (content_type_or_empty response)
       && (1000 <? len (text response)) = false ->
     make_request env url referer_arg a p w
     = (Ret None, attempt_parser referer_arg p, attempt_world env url referer_arg p w)) /\
  (forall response,
     attempt_result env url w = Responded response ->
     status_code response = 200 ->
     contains (py "text/html") (content_type_or_empty response)
       && (1000 <? len (text response)) = false ->
     MAX_RETRIES (config p) <= a ->
     (make_request env url referer_arg a p w).1.1 = Ret None) /\
  (attempt_result env url w = TimedOut ->
   MAX_RETRIES (config p) <= a ->
   make_request env url referer_arg a p w
   = (Ret None, attempt_parser referer_arg p, attempt_world env url referer_arg p w)).
Proof.
  repeat apply conj.
  - intros body Hbody.
    destruct (make_request env url referer_arg a p w) as [[o p'] w'] eqn:Hm.
    cbn in Hbody. subst o.
    exact (make_request_body env url referer_arg _ a p w body p' w' eq_refl Hm).
  - intros response Hresp Hstatus Hallowed Hcheck.
    rewrite make_request_unfold. cbv zeta.
    rewrite Hresp, Hallowed, Hstatus. cbn [Z.eqb Pos.eqb]. now rewrite Hcheck.
  - intros response Hresp Hstatus Hcheck Hge.
    rewrite make_request_unfold. cbv zeta. rewrite Hresp.
    apply Z.ltb_ge in Hge. rewrite Hge, Hstatus. cbn [Z.eqb Pos.eqb]. rewrite Hcheck.
    destruct (_is_blocked_response env response); reflexivity.
  - intros Hresp Hge. rewrite make_request_unfold. cbv zeta. rewrite Hresp.
    apply Z.ltb_ge in Hge. now rewrite Hge.
Qed.

(** A short page that carries the content marker is not classified as
    blocked, and [make_request] returns [None] for it. *)
Lemma body_only_from_valid_200_witness :
  let short_page := html_response (py "product-list") in
  let env := scenario_env (Responded short_page) in
  _is_blocked_response env short_page = false /\
  make_request env (hotel_url hotel_a) None 0 fresh_parser empty_world
  = (Ret None, attempt_parser None fresh_parser,
     attempt_world env (hotel_url hotel_a) None fresh_parser empty_world).
Proof.
  intros short_page env. split; [vm_compute; reflexivity|].
  apply (proj1 (proj2 (body_only_from_valid_200 env (hotel_url hotel_a) None 0
                         fresh_parser empty_world)) short_page);
    vm_compute; reflexivity.
Defined.

(** * Further properties *)

(** ** The retry budget of [make_request] *)

Lemma total_requests_attempt r p :
  total_requests (attempt_parser r p) = total_requests p + 1.
Proof. unfold attempt_parser. destruct r as [r|]; [destruct (str_truthy r)|]; reflexivity. Qed.

Lemma blocked_count_attempt r p :
  blocked_count (attempt_parser r p) = blocked_count p.
Proof. unfold attempt_parser. destruct r as [r|]; [destruct (str_truthy r)|]; reflexivity. Qed.

Lemma user_agent_attempt r p :
  user_agent (session (attempt_parser r p)) = user_agent (session p).
Proof. unfold attempt_parser. destruct r as [r|]; [destruct (str_truthy r)|]; reflexivity. Qed.

(** One call of [make_request] from attempt [rc], with [n] retries left. *)
Lemma make_request_account env url r n : forall rc p w o p' w',
  Z.to_nat (MAX_RETRIES (config p) - rc) = n ->
  make_request env url r rc p w = (o, p', w') ->
  1 <= requests_made w w' <= 1 + Z.of_nat n /\
  total_requests p' = total_requests p + requests_made w w' /\
  blocked_count p <= blocked_count p' <= blocked_count p + requests_made w w'.
Proof.
  induction n as [n IH] using lt_wf_ind. intros rc p w o p' w' Hn.
  rewrite make_request_unfold. cbv zeta.
  assert (Hrec : forall p1 w1, config p1 = config p ->
            requests_sent w1 = S (requests_sent w) ->
            total_requests p1 = total_requests p + 1 ->
            blocked_count p <= blocked_count p1 <= blocked_count p + 1 ->
            (rc <? MAX_RETRIES (config p)) = true ->
            make_request env url r (rc + 1) p1 w1 = (o, p', w') ->
            1 <= requests_made w w' <= 1 + Z.of_nat n /\
            total_requests p' = total_requests p + requests_made w w' /\
            blocked_count p <= blocked_count p' <= blocked_count p + requests_made w w').
  { intros p1 w1 Hc Hs Ht Hb Hlt Hm. apply Z.ltb_lt in Hlt.
    destruct (IH (Z.to_nat (MAX_RETRIES (config p1) - (rc + 1)))
                (ltac:(rewrite Hc; lia)) (rc + 1) p1 w1 o p' w' eq_refl Hm)
      as (Hr & Ht' & Hb').
    rewrite Hc in Hr. unfold requests_made in *. rewrite Hs in *. lia. }
  assert (Hone : requests_made w (attempt_world env url r p w) = 1).
  { unfold requests_made. rewrite requests_sent_attempt. lia. }
  pose proof (total_requests_attempt r p) as Ht1.
  pose proof (blocked_count_attempt r p) as Hb1.
  destruct (attempt_result env url w) as [resp| |].
  - destruct (_is_blocked_response env resp).
    + destruct (rc <? MAX_RETRIES (config p)) eqn:Hlt.
      * destruct (sleep env _ _) as [[[]|e] w2] eqn:Hsl.
        -- pose proof (requests_sent_sleep _ _ _ _ _ Hsl) as Hs2.
           destruct (random_choice _ _ _) as [[ua|e] w3] eqn:Hch.
           ++ apply Hrec; [apply config_attempt_parser| | | |reflexivity].
              ** now rewrite (requests_sent_choice _ _ _ _ _ Hch), Hs2.
              ** cbn. exact Ht1.
              ** cbn. lia.
           ++ intros [= <- <- <-].
              assert (requests_made w w3 = 1).
              { unfold requests_made. rewrite (requests_sent_choice _ _ _ _ _ Hch), Hs2.
                exact Hone. }
              cbn [total_requests blocked_count set_blocked_count]. lia.
        -- intros [= <- <- <-].
           assert (requests_made w w2 = 1).
           { unfold requests_made. rewrite (requests_sent_sleep _ _ _ _ _ Hsl). exact Hone. }
           cbn [total_requests blocked_count set_blocked_count]. lia.
      * intros [= <- <- <-]. cbn [total_requests blocked_count set_blocked_count]. lia.
    + destruct (status_code resp =? 200); [destruct (contains _ _ && _)|];
        intros [= <- <- <-]; lia.
  - destruct (rc <? MAX_RETRIES (config p)) eqn:Hlt.
    + destruct (sleep env _ _) as [[[]|e] w2] eqn:Hsl.
      * apply Hrec; [apply config_attempt_parser| |exact Ht1|lia|reflexivity].
        now rewrite (requests_sent_sleep _ _ _ _ _ Hsl).
      * intros [= <- <- <-].
        assert (requests_made w w2 = 1).
        { unfold requests_made. rewrite (requests_sent_sleep _ _ _ _ _ Hsl). exact Hone. }
        lia.
    + intros [= <- <- <-]. lia.
  - destruct (rc <? MAX_RETRIES (config p)) eqn:Hlt.
    + destruct (sleep env _ _) as [[[]|e] w2] eqn:Hsl.
      * apply Hrec; [apply config_attempt_parser| |exact Ht1|lia|reflexivity].
        now rewrite (requests_sent_sleep _ _ _ _ _ Hsl).
      * intros [= <- <- <-].
        assert (requests_made w w2 = 1).
        { unfold requests_made. rewrite (requests_sent_sleep _ _ _ _ _ Hsl). exact Hone. }
        lia.
    + intros [= <- <- <-]. lia.
Qed.

(** X1: one call of [make_request] at attempt [a] sends at least one request
    and at most one more than the retries that are left,
    [MAX_RETRIES - a] (none when [a] is at or above the limit), whatever the
    server answers. *)
Theorem make_request_attempts_bounded (env : Env) (url : pystr) (referer_arg : option pystr)
    (a : Z) (p : Parser) (w : World) :
  1 <= requests_made w (make_request env url referer_arg a p w).2
    <= 1 + Z.max 0 (MAX_RETRIES (config p) - a).
Proof.
  destruct (make_request env url referer_arg a p w) as [[o p'] w'] eqn:Hm.
  destruct (make_request_account env url referer_arg _ a p w o p' w' eq_refl Hm) as (H & _).
  cbn [snd]. lia.
Qed.

(** X2: over one call of [make_request], retries included, [total_requests]
    advances by exactly the number of requests sent, and [blocked_count]
    never decreases and advances by at most that number. *)
Theorem make_request_counts_requests (env : Env) (url : pystr) (referer_arg : option pystr)
    (a : Z) (p : Parser) (w : World) :
  let p' := (make_request env url referer_arg a p w).1.2 in
  let w' := (make_request env url referer_arg a p w).2 in
  total_requests p' = total_requests p + requests_made w w' /\
  blocked_count p <= blocked_count p' <= blocked_count p + requests_made w w'.
Proof.
  destruct (make_request env url referer_arg a p w) as [[o p'] w'] eqn:Hm.
  destruct (make_request_account env url referer_arg _ a p w o p' w' eq_refl Hm) as (_ & H).
  exact H.
Qed.

(** ** Timeouts and network errors *)





(** Called at attempt -2 against a server that times out, [make_request]
    sends one request and [time.sleep(-2)] raises [ValueError]. *)
Example timeout_at_negative_attempt :
  let res := make_request (scenario_env TimedOut) (hotel_url hotel_a) None (-2)
               fresh_parser empty_world in
  res.1.1 = Raise ValueError /\ requests_sent res.2 = 1%nat.
Proof. vm_compute. split; reflexivity. Qed.

(** ** Block detection on any response *)

(** X4: [_is_blocked_response] classifies a response as blocked exactly when
    the response object is true (its status is outside 400..599), its body
    is not empty, and the body carries a block indicator or is shorter than
    1000 characters without the content marker. The test of the status code
    against 403, 429 and 503 never decides: a response with one of these
    codes is false as an object and is classified as not blocked. *)
Theorem blocked_response_characterised (env : Env) (r : Response) :
  _is_blocked_response env r
  = response_truthy r && str_truthy (text r)
    && (has_block_indicator env (text r)
        || (len (text r) <? 1000) && negb (contains (py "product-list") (text r))) /\
  (existsb (Z.eqb (status_code r)) [403; 429; 503] = true ->
   _is_blocked_response env r = false).
Proof.
  assert (Hdead : response_truthy r = true ->
            existsb (Z.eqb (status_code r)) [403; 429; 503] = false).
  { unfold response_truthy. intros Ht. cbn [existsb].
    apply negb_true_iff, andb_false_iff in Ht.
    rewrite !orb_false_iff. repeat split; try reflexivity; apply Z.eqb_neq; intros E;
      rewrite E in Ht; destruct Ht as [Ht|Ht]; discriminate Ht. }
  split.
  - unfold _is_blocked_response.
    destruct (response_truthy r) eqn:Ht; cbn [negb andb]; [|reflexivity].
    rewrite (Hdead eq_refl).
    destruct (str_truthy (text r)); [|reflexivity].
    destruct (has_block_indicator env (text r)); [reflexivity|]. cbn [orb].
    destruct ((len (text r) <? 1000) && negb (contains (py "product-list") (text r)));
      reflexivity.
  - intros Hs. unfold _is_blocked_response.
    destruct (response_truthy r) eqn:Ht; [|reflexivity].
    rewrite (Hdead eq_refl) in Hs. discriminate Hs.
Qed.

(** X5: a response with a status from 400 to 599 (403, 429 and 503 among
    them) ends [make_request] at once, at any attempt: it returns [None]
    after that single request, with no backoff sleep, no change of
    User-Agent and no block counted. *)
Theorem error_status_not_retried (env : Env) (url : pystr) (referer_arg : option pystr)
    (a : Z) (p : Parser) (w : World) (response : Response) :
  attempt_result env url w = Responded response ->
  400 <= status_code response < 600 ->
  make_request env url referer_arg a p w
  = (Ret None, attempt_parser referer_arg p, attempt_world env url referer_arg p w) /\
  requests_made w (attempt_world env url referer_arg p w) = 1 /\
  trace (attempt_world env url referer_arg p w)
  = trace w ++ [EvSleepUniform (DELAY_MIN (config p)) (DELAY_MAX (config p));
                EvRequest url referer_arg (session (attempt_parser referer_arg p))] /\
  blocked_count (attempt_parser referer_arg p) = blocked_count p /\
  user_agent (session (attempt_parser referer_arg p)) = user_agent (session p).
Proof.
  intros Hresp Hstatus. repeat apply conj.
  - rewrite make_request_unfold. cbv zeta. rewrite Hresp.
    rewrite is_blocked_falsy by exact Hstatus.
    destruct (status_code response =? 200) eqn:E; [|reflexivity].
    apply Z.eqb_eq in E. lia.
  - unfold requests_made. rewrite requests_sent_attempt. lia.
  - apply (ff_trace _ _ _ _ _ (fetch_frame_attempt env url referer_arg p w)).
  - apply blocked_count_attempt.
  - apply user_agent_attempt.
Qed.

(** A page answered with status 429. *)
Lemma error_status_not_retried_witness :
  let env := scenario_env (Responded (status_response 429)) in
  let url := hotel_url hotel_a in
  let p := fresh_parser in
  let w := empty_world in
  make_request env url None 0 p w
  = (Ret None, attempt_parser None p, attempt_world env url None p w) /\
  requests_made w (attempt_world env url None p w) = 1 /\
  trace (attempt_world env url None p w)
  = trace w ++ [EvSleepUniform (DELAY_MIN (config p)) (DELAY_MAX (config p));
                EvRequest url None (session (attempt_parser None p))] /\
  blocked_count (attempt_parser None p) = blocked_count p /\
  user_agent (session (attempt_parser None p)) = user_agent (session p).
Proof.
  intros env url p w.
  apply (error_status_not_retried env url None 0 p w (status_response 429)).
  - vm_compute. reflexivity.
  - cbn. lia.
Defined.

(** ** The session headers across a fetch *)

Lemma make_request_headers_rec env url r n : forall rc p w o p' w',
  Z.to_nat (MAX_RETRIES (config p) - rc) = n ->
  make_request env url r rc p w = (o, p', w') ->
  referer (session p') = (if opt_truthy r then default [] r else referer (session p)) /\
  (user_agent (session p') = user_agent (session p)
   \/ user_agent (session p') ∈ USER_AGENTS (config p)).
Proof.
  induction n as [n IH] using lt_wf_ind. intros rc p w o p' w' Hn.
  rewrite make_request_unfold. cbv zeta.
  assert (Hra : referer (session (attempt_parser r p))
                = (if opt_truthy r then default [] r else referer (session p))).
  { unfold attempt_parser. destruct r as [r|]; [cbn; destruct (str_truthy r)|]; reflexivity. }
  pose proof (user_agent_attempt r p) as Hua.
  pose proof (config_attempt_parser r p) as Hc.
  assert (Hrec : forall p1 w1, config p1 = config p ->
            referer (session p1) = referer (session (attempt_parser r p)) ->
            (user_agent (session p1) = user_agent (session p)
             \/ user_agent (session p1) ∈ USER_AGENTS (config p)) ->
            (rc <? MAX_RETRIES (config p)) = true ->
            make_request env url r (rc + 1) p1 w1 = (o, p', w') ->
            referer (session p') = (if opt_truthy r then default [] r else referer (session p)) /\
            (user_agent (session p') = user_agent (session p)
             \/ user_agent (session p') ∈ USER_AGENTS (config p))).
  { intros p1 w1 Hc1 Hr1 Hu1 Hlt Hm. apply Z.ltb_lt in Hlt.
    destruct (IH (Z.to_nat (MAX_RETRIES (config p1) - (rc + 1)))
                (ltac:(rewrite Hc1; lia)) (rc + 1) p1 w1 o p' w' eq_refl Hm) as (Hr & Hu).
    split.
    - rewrite Hr. destruct (opt_truthy r); [reflexivity|]. now rewrite Hr1, Hra.
    - rewrite Hc1 in Hu. destruct Hu as [Hu|Hu]; [rewrite Hu; exact Hu1|now right]. }
  destruct (attempt_result env url w) as [resp| |].
  - destruct (_is_blocked_response env resp).
    + destruct (rc <? MAX_RETRIES (config p)) eqn:Hlt.
      * destruct (sleep env _ _) as [[[]|e] w2] eqn:Hsl.
        -- destruct (random_choice _ _ _) as [[ua|e] w3] eqn:Hch.
           ++ apply Hrec; [exact Hc|reflexivity| |reflexivity].
              right. cbn. unfold random_choice in Hch.
              destruct (USER_AGENTS (config p) !! _) as [x|] eqn:Hx; [|discriminate Hch].
              injection Hch as <- _. eapply list_elem_of_lookup_2. exact Hx.
           ++ intros [= <- <- <-]. split; [exact Hra|left; exact Hua].
        -- intros [= <- <- <-]. split; [exact Hra|left; exact Hua].
      * intros [= <- <- <-]. split; [exact Hra|left; exact Hua].
    + destruct (status_code resp =? 200); [destruct (contains _ _ && _)|];
        intros [= <- <- <-]; (split; [exact Hra|left; exact Hua]).
  - destruct (rc <? MAX_RETRIES (config p)) eqn:Hlt.
    + destruct (sleep env _ _) as [[[]|e] w2] eqn:Hsl.
      * apply Hrec; [exact Hc|reflexivity|left; exact Hua|reflexivity].
      * intros [= <- <- <-]. split; [exact Hra|left; exact Hua].
    + intros [= <- <- <-]. split; [exact Hra|left; exact Hua].
  - destruct (rc <? MAX_RETRIES (config p)) eqn:Hlt.
    + destruct (sleep env _ _) as [[[]|e] w2] eqn:Hsl.
      * apply Hrec; [exact Hc|reflexivity|left; exact Hua|reflexivity].
      * intros [= <- <- <-]. split; [exact Hra|left; exact Hua].
    + intros [= <- <- <-]. split; [exact Hra|left; exact Hua].
Qed.

(** X6: after [make_request], retries included, the Referer header of the
    session is the [referer] argument when one was given and is not empty,
    and is what it was before the call otherwise: the header set for a
    hotel page stays in force for the requests that follow. The User-Agent
    is the one in force before the call or a member of [USER_AGENTS]. *)
Theorem make_request_headers (env : Env) (url : pystr) (referer_arg : option pystr)
    (a : Z) (p : Parser) (w : World) :
  let p' := (make_request env url referer_arg a p w).1.2 in
  referer (session p')
  = (if opt_truthy referer_arg then default [] referer_arg else referer (session p)) /\
  (user_agent (session p') = user_agent (session p)
   \/ user_agent (session p') ∈ USER_AGENTS (config p)).
Proof.
  destruct (make_request env url referer_arg a p w) as [[o p'] w'] eqn:Hm.
  exact (make_request_headers_rec env url referer_arg _ a p w o p' w' eq_refl Hm).
Qed.

(** ** The URLs of the list pages *)

Lemma py_inj (s t : string) : py s = py t -> s = t.
Proof.
  unfold py. intros H.
  rewrite <- (string_of_list_ascii_of_string s), <- (string_of_list_ascii_of_string t).
  f_equal. revert H.
  generalize (list_ascii_of_string s) (list_ascii_of_string t).
  intros l. induction l as [|x l IH]; intros [|y l'] H; try discriminate H; [reflexivity|].
  cbn in H. injection H as Hx Hl.
  rewrite <- (ascii_N_embedding x), <- (ascii_N_embedding y), Hx. f_equal. now apply IH.
Qed.

Lemma to_int_not_nil (z : Z) :
  Z.to_int z <> Decimal.Pos Decimal.Nil /\ Z.to_int z <> Decimal.Neg Decimal.Nil.
Proof.
  split; intros E; pose proof (DecimalZ.of_to z) as H; rewrite E in H; cbn in H; subst z;
    discriminate E.
Qed.

(** [str] gives different integers different texts. *)
Lemma str_of_Z_inj (a b : Z) : str_of_Z a = str_of_Z b -> a = b.
Proof.
  unfold str_of_Z. intros H. apply py_inj in H.
  apply DecimalZ.to_int_inj.
  destruct (to_int_not_nil a) as [Ha1 Ha2]. destruct (to_int_not_nil b) as [Hb1 Hb2].
  pose proof (NilZero.isi _ Ha1 Ha2) as Ea. pose proof (NilZero.isi _ Hb1 Hb2) as Eb.
  rewrite H in Ea. rewrite Ea in Eb. now injection Eb.
Qed.

(** X7: [get_list_page_url] gives two page numbers the same URL only when
    they are the same number: page 1 is the base URL, every other page the
    base URL followed by the number and a slash. *)
Theorem list_page_urls_distinct (p : Parser) (a b : Z) :
  get_list_page_url p a = get_list_page_url p b <-> a = b.
Proof.
  split; [|intros ->; reflexivity].
  unfold get_list_page_url.
  destruct (a =? 1) eqn:Ea; destruct (b =? 1) eqn:Eb; intros H.
  - apply Z.eqb_eq in Ea, Eb. congruence.
  - apply (f_equal length) in H. rewrite !length_app in H.
    change (length (py "/")) with 1%nat in H. lia.
  - apply (f_equal length) in H. rewrite !length_app in H.
    change (length (py "/")) with 1%nat in H. lia.
  - apply app_inv_head in H. apply app_inv_tail in H. now apply str_of_Z_inj.
Qed.

(** ** A checkpoint with a damaged field *)

(** X8: [_load_progress] assigns the attributes one after the other. When
    the progress file holds an object whose [processed_hotels] is a list of
    strings and whose [processed_pages] is a number, a boolean or [null]
    (on which [set] raises), the parser ends up with the hotels of the file
    and with the pages, results and counters it had before: the checkpoint
    is applied in part. *)
Theorem load_progress_half_applied (p : Parser) (w : World) (ts : list token)
    (data : list (pystr * json)) (hotels : list pystr) (a : scalar) :
  files w !! PROGRESS_FILE (config p) = Some (JsonDoc ts) ->
  json_load ts = Some (JObj data) ->
  dict_get (py "processed_hotels") data
  = Some (JArr (List.map (fun u => JAtom (SStr u)) hotels)) ->
  dict_get (py "processed_pages") data = Some (JAtom a) ->
  (forall s, a <> SStr s) ->
  _load_progress p w = set_processed_hotels (list_to_set hotels) p /\
  processed_pages (_load_progress p w) = processed_pages p /\
  results (_load_progress p w) = results p /\
  total_requests (_load_progress p w) = total_requests p /\
  blocked_count (_load_progress p w) = blocked_count p.
Proof.
  intros Hf Hl H1 H2 Ha.
  assert (E : _load_progress p w = set_processed_hotels (list_to_set hotels) p).
  { unfold _load_progress, get_or. rewrite Hf, Hl, H1, H2.
    cbn [json_str_list]. rewrite mapM_json_str. reflexivity. }
  rewrite E. repeat split; reflexivity.
Qed.

Lemma load_progress_half_applied_witness :
  _load_progress busy_parser damaged_world
  = set_processed_hotels (list_to_set [hotel_url hotel_a]) busy_parser /\
  processed_pages (_load_progress busy_parser damaged_world) = processed_pages busy_parser /\
  results (_load_progress busy_parser damaged_world) = results busy_parser /\
  total_requests (_load_progress busy_parser damaged_world) = total_requests busy_parser /\
  blocked_count (_load_progress busy_parser damaged_world) = blocked_count busy_parser.
Proof.
  apply (load_progress_half_applied busy_parser damaged_world
           (encode damaged_checkpoint)
           [ (py "processed_hotels", JArr [JAtom (SStr (hotel_url hotel_a))]);
             (py "processed_pages", JAtom SNone);
             (py "results", JArr []);
             (py "total_requests", JAtom (SInt 40));
             (py "blocked_count", JAtom (SInt 3)) ]
           [hotel_url hotel_a] SNone).
  - vm_compute. reflexivity.
  - vm_compute. reflexivity.
  - vm_compute. reflexivity.
  - vm_compute. reflexivity.
  - intros s. discriminate.
Defined.

(** ** The frame that is written *)


(** ** The two files of [_save_results] *)










(** ** Invariants of the crawl *)

(** A relation between the states of the crawl that every step of the crawl
    respects is respected by the loops built from these steps. *)
Section crawl_invariant.
Variable env : Env.
Variable R : Parser -> World -> Parser -> World -> Prop.
Hypothesis R_refl : forall p w, R p w p w.
Hypothesis R_trans : forall p w p1 w1 p2 w2,
  R p w p1 w1 -> R p1 w1 p2 w2 -> R p w p2 w2.
Hypothesis R_fetch_list : forall url rc p w o p' w',
  make_request env url None rc p w = (o, p', w') -> R p w p' w'.
Hypothesis R_fetch_hotel : forall url page_url rc p w o p' w',
  make_request env url (Some page_url) rc p w = (o, p', w') -> R p w p' w'.
Hypothesis R_mark_hotel : forall u p w, R p w (mark_hotel u p) w.
Hypothesis R_mark_page : forall n p w, R p w (mark_page n p) w.
Hypothesis R_extend : forall rs p w, R p w (set_results (results p ++ rs) p) w.
Hypothesis R_save_progress : forall p w, R p w p (_save_progress env p w).
Hypothesis R_save_results : forall p w, R p w p (_save_results env p w).
Hypothesis R_sleep : forall lo hi p w, R p w p (sleep_uniform lo hi w).

Lemma scrape_hotels_respects page_url n hotels : forall i p w o p' w',
  scrape_hotels env page_url n i hotels p w = (o, p', w') -> R p w p' w'.
Proof.
  induction hotels as [|hotel rest IH]; intros i p w o p' w'; cbn [scrape_hotels].
  { intros [= <- <- <-]. apply R_refl. }
  destruct (bool_decide (hotel_url hotel ∈ processed_hotels p)); [apply IH|].
  destruct (reviews_count hotel =? 0).
  { intros H. eapply R_trans; [apply R_mark_hotel|]. eapply IH, H. }
  destruct (make_request env (hotel_url hotel) (Some page_url) 0 p w)
    as [[[html|e] p1] w1] eqn:Hm; apply R_fetch_hotel in Hm.
  2: { intros [= <- <- <-]. exact Hm. }
  destruct (negb (opt_truthy html)).
  { intros H. eapply R_trans; [exact Hm|]. eapply IH, H. }
  cbv zeta.
  assert (Hext : R p1 w1
            match parse_hotel_page env (config p1) (default [] html) hotel with
            | [] => p1
            | _ :: _ => set_results
                          (results p1 ++ parse_hotel_page env (config p1) (default [] html) hotel) p1
            end w1).
  { destruct (parse_hotel_page env (config p1) (default [] html) hotel) eqn:E;
      [apply R_refl|rewrite <- E; apply R_extend]. }
  destruct (negb (ratings_printable _)).
  { intros [= <- <- <-]. eapply R_trans; [exact Hm|exact Hext]. }
  intros H. apply IH in H.
  eapply R_trans; [exact Hm|]. eapply R_trans; [exact Hext|].
  eapply R_trans; [apply R_mark_hotel|]. eapply R_trans; [|exact H].
  eapply R_trans with (w1 := if i mod 10 =? 0 then _ else _).
  - destruct (i mod 10 =? 0); [|apply R_refl].
    eapply R_trans; [apply R_save_progress|apply R_save_results].
  - destruct (i <? n); [apply R_sleep|apply R_refl].
Qed.

Lemma scrape_page_respects page_num p w o p' w' :
  scrape_page env page_num p w = (o, p', w') -> R p w p' w'.
Proof.
  unfold scrape_page.
  destruct (bool_decide (page_num ∈ processed_pages p)).
  { intros [= <- <- <-]. apply R_refl. }
  cbv zeta.
  destruct (make_request env (get_list_page_url p page_num) None 0 p w)
    as [[[html|e] p1] w1] eqn:Hm; apply R_fetch_list in Hm.
  2: { intros [= <- <- <-]. exact Hm. }
  destruct (negb (opt_truthy html)).
  { intros [= <- <- <-]. exact Hm. }
  destruct (parse_list_page env (config p1) (default [] html) page_num
              (get_list_page_url p page_num)) as [|hotel hotels] eqn:Hh.
  { intros [= <- <- <-]. eapply R_trans; [exact Hm|].
    eapply R_trans; [apply R_mark_page|apply R_save_progress]. }
  destruct (scrape_hotels env _ _ 1 (hotel :: hotels) p1 w1) as [[[u|e] p2] w2] eqn:Hs;
    apply scrape_hotels_respects in Hs; intros [= <- <- <-].
  - eapply R_trans; [exact Hm|]. eapply R_trans; [exact Hs|].
    eapply R_trans; [apply R_mark_page|].
    eapply R_trans; [apply R_save_progress|apply R_save_results].
  - eapply R_trans; [exact Hm|exact Hs].
Qed.

Lemma run_pages_respects end_page pages : forall p w o p' w',
  run_pages env end_page pages p w = (o, p', w') -> R p w p' w'.
Proof.
  induction pages as [|page_num rest IH]; intros p w o p' w'; cbn [run_pages].
  { intros [= <- <- <-]. apply R_refl. }
  destruct (scrape_page env page_num p w) as [[[b|e] p1] w1] eqn:Hs;
    apply scrape_page_respects in Hs.
  2: { intros [= <- <- <-]. exact Hs. }
  intros H. apply IH in H. eapply R_trans; [exact Hs|]. eapply R_trans; [|exact H].
  destruct (page_num <? end_page); [apply R_sleep|apply R_refl].
Qed.

End crawl_invariant.

(** ** The counters and the buffer over a crawl *)

Lemma crawl_account_refl p w : crawl_account p w p w.
Proof. split; unfold requests_made; try lia. reflexivity. Qed.

Lemma crawl_account_trans p w p1 w1 p2 w2 :
  crawl_account p w p1 w1 -> crawl_account p1 w1 p2 w2 -> crawl_account p w p2 w2.
Proof.
  intros [S1 R1 B1 P1] [S2 R2 B2 P2]. unfold requests_made in *.
  split; unfold requests_made; try lia. etrans; eassumption.
Qed.

Lemma crawl_account_world p w w' :
  requests_sent w' = requests_sent w -> crawl_account p w p w'.
Proof. intros E. split; unfold requests_made; rewrite ?E; try lia. reflexivity. Qed.

Lemma crawl_account_fetch env url r rc p w o p' w' :
  make_request env url r rc p w = (o, p', w') -> crawl_account p w p' w'.
Proof.
  intros Hm.
  destruct (make_request_account env url r _ rc p w o p' w' eq_refl Hm) as (Hr & Ht & Hb).
  destruct (make_request_crawl _ _ _ _ _ _ _ _ _ Hm) as (evs & F & _).
  split; try assumption.
  - unfold requests_made in Hr. lia.
  - rewrite (ff_results _ _ _ _ _ F). reflexivity.
Qed.

(** Every step of the crawl keeps the accounts. *)
Ltac crawl_account_steps :=
  [> apply crawl_account_refl
   | apply crawl_account_trans
   | intros url; apply crawl_account_fetch
   | intros url page_url; apply crawl_account_fetch
   | intros u q w0; split; unfold requests_made; cbn; try lia; reflexivity
   | intros n q w0; split; unfold requests_made; cbn; try lia; reflexivity
   | intros rs q w0; split; unfold requests_made; try (cbn; lia); now apply prefix_app_r
   | intros q w0; apply crawl_account_world, requests_sent_save_progress
   | intros q w0; apply crawl_account_world, requests_sent_save_results
   | intros lo hi q w0; now apply crawl_account_world ].

Lemma scrape_page_account env page_num p w o p' w' :
  scrape_page env page_num p w = (o, p', w') -> crawl_account p w p' w'.
Proof. apply (scrape_page_respects env crawl_account); crawl_account_steps. Qed.

Lemma run_pages_account env end_page pages p w o p' w' :
  run_pages env end_page pages p w = (o, p', w') -> crawl_account p w p' w'.
Proof. apply (run_pages_respects env crawl_account); crawl_account_steps. Qed.

Lemma run_account env start_page end_page p w p' w' :
  run env start_page end_page p w = (p', w') -> crawl_account p w p' w'.
Proof.
  intros Hrun.
  destruct (run_end env start_page end_page p w) as (o & p1 & w1 & Hr & Hp1 & _ & Hs1).
  rewrite Hrun in Hp1, Hs1. cbn [fst snd] in Hp1, Hs1. subst p1.
  apply run_pages_account in Hr. eapply crawl_account_trans; [exact Hr|].
  now apply crawl_account_world.
Qed.

(** X12: over a [scrape_page] and over a whole [run] that no interruption
    from the keyboard cuts short, whether they come to their end or an
    exception raised by an operation of the program ends them,
    [total_requests] advances by exactly the number of requests the process
    sent, and [blocked_count] never decreases and advances by at most that
    number. (An interruption that arrives between the increment of
    [total_requests] and the request is not covered.) *)
Theorem crawl_counts_requests (env : Env) :
  (forall page_num p w,
     let p' := (scrape_page env page_num p w).1.2 in
     let w' := (scrape_page env page_num p w).2 in
     0 <= requests_made w w' /\
     total_requests p' = total_requests p + requests_made w w' /\
     blocked_count p <= blocked_count p' <= blocked_count p + requests_made w w') /\
  (forall start_page end_page p w,
     let p' := (run env start_page end_page p w).1 in
     let w' := (run env start_page end_page p w).2 in
     0 <= requests_made w w' /\
     total_requests p' = total_requests p + requests_made w w' /\
     blocked_count p <= blocked_count p' <= blocked_count p + requests_made w w').
Proof.
  split.
  - intros page_num p w.
    destruct (scrape_page env page_num p w) as [[o p'] w'] eqn:Hs.
    apply scrape_page_account in Hs as [S R B _]. cbn [fst snd].
    repeat split; try assumption; try apply B. unfold requests_made. lia.
  - intros start_page end_page p w.
    destruct (run env start_page end_page p w) as [p' w'] eqn:Hr.
    apply run_account in Hr as [S R B _]. cbn [fst snd].
    repeat split; try assumption; try apply B. unfold requests_made. lia.
Qed.

(** X13: the buffer of results is only appended to. [make_request] leaves it
    as it is; after [scrape_page] and after [run], however they end, the
    buffer they started from is an initial part of the buffer: no record is
    removed, replaced or reordered in memory. *)
Theorem results_append_only (env : Env) :
  (forall url referer_arg a p w,
     results (make_request env url referer_arg a p w).1.2 = results p) /\
  (forall page_num p w,
     results p `prefix_of` results (scrape_page env page_num p w).1.2) /\
  (forall start_page end_page p w,
     results p `prefix_of` results (run env start_page end_page p w).1).
Proof.
  repeat apply conj.
  - intros url referer_arg a p w.
    destruct (make_request env url referer_arg a p w) as [[o p'] w'] eqn:Hm.
    apply make_request_crawl in Hm as (evs & F & _). apply (ff_results _ _ _ _ _ F).
  - intros page_num p w.
    destruct (scrape_page env page_num p w) as [[o p'] w'] eqn:Hs.
    apply scrape_page_account in Hs. apply (ca_results _ _ _ _ Hs).
  - intros start_page end_page p w.
    destruct (run env start_page end_page p w) as [p' w'] eqn:Hr.
    apply run_account in Hr. apply (ca_results _ _ _ _ Hr).
Qed.

(** ** How [scrape_page] ends *)

Lemma scrape_hotels_pages env page_url n hotels i p w o p' w' :
  scrape_hotels env page_url n i hotels p w = (o, p', w') ->
  processed_pages p' = processed_pages p.
Proof.
  apply (scrape_hotels_respects env (fun p w p' w' => processed_pages p' = processed_pages p)).
  - reflexivity.
  - intros. congruence.
  - intros url pu rc q w0 o0 q' w0' Hm.
    apply make_request_crawl in Hm as (evs & F & _). apply (ff_pages _ _ _ _ _ F).
  - reflexivity.
  - reflexivity.
  - reflexivity.
  - reflexivity.
  - reflexivity.
Qed.

(** X14: the value that [scrape_page] returns tells whether the page is in
    [processed_pages] afterwards: [True] exactly when it is (it was there
    already, or the listing was fetched and the loop over its hotels came to
    its end), [False] when the listing could not be fetched; and when an
    exception raised by an operation of the program ([random.choice],
    [time.sleep], the arithmetic on ratings) leaves [scrape_page], the page
    is not in [processed_pages]. Interruptions from the keyboard are not
    covered. *)
Theorem scrape_page_true_iff_marked (env : Env) (page_num : Z) (p : Parser) (w : World) :
  match scrape_page env page_num p w with
  | (Ret b, p', _) => b = bool_decide (page_num ∈ processed_pages p')
  | (Raise _, p', _) => bool_decide (page_num ∈ processed_pages p') = false
  end.
Proof.
  unfold scrape_page.
  destruct (bool_decide (page_num ∈ processed_pages p)) eqn:Hin; [now rewrite Hin|].
  cbv zeta.
  destruct (make_request env (get_list_page_url p page_num) None 0 p w)
    as [[[html|e] p1] w1] eqn:Hm;
    apply make_request_crawl in Hm as (evs & F & _);
    pose proof (ff_pages _ _ _ _ _ F) as Ep.
  2: { now rewrite Ep. }
  destruct (negb (opt_truthy html)); [now rewrite Ep|].
  destruct (parse_list_page env (config p1) (default [] html) page_num
              (get_list_page_url p page_num)) as [|hotel hotels].
  { symmetry. apply bool_decide_eq_true_2. apply elem_of_union. left.
    now apply elem_of_singleton. }
  destruct (scrape_hotels env _ _ 1 (hotel :: hotels) p1 w1) as [[[u|e] p2] w2] eqn:Hs;
    apply scrape_hotels_pages in Hs.
  - symmetry. apply bool_decide_eq_true_2. apply elem_of_union. left.
    now apply elem_of_singleton.
  - now rewrite Hs, Ep.
Qed.

(** X15: when the fetch of a list page that is not yet processed ends in
    [None], [scrape_page] returns [False] in the state the fetch left: the
    page is not added to [processed_pages], no hotel and no result is added,
    and the progress file is not written. [run] goes on with the next page
    (after the pause between pages, unless this was the last page); it does
    not come back to the page. *)
Theorem failed_list_page_left_unmarked (env : Env) (page_num : Z) (p p1 : Parser)
    (w w1 : World) :
  page_num ∉ processed_pages p ->
  make_request env (get_list_page_url p page_num) None 0 p w = (Ret None, p1, w1) ->
  scrape_page env page_num p w = (Ret false, p1, w1) /\
  processed_pages p1 = processed_pages p /\
  processed_hotels p1 = processed_hotels p /\
  results p1 = results p /\
  files w1 !! PROGRESS_FILE (config p) = files w !! PROGRESS_FILE (config p) /\
  (forall end_page rest,
     run_pages env end_page (page_num :: rest) p w
     = run_pages env end_page rest p1
         (if page_num <? end_page
          then sleep_uniform (DELAY_BETWEEN_PAGES_MIN (config p1))
                 (DELAY_BETWEEN_PAGES_MAX (config p1)) w1
          else w1)).
Proof.
  intros Hnew Hm.
  assert (Hs : scrape_page env page_num p w = (Ret false, p1, w1)).
  { unfold scrape_page. rewrite bool_decide_eq_false_2 by exact Hnew.
    cbv zeta. rewrite Hm. reflexivity. }
  apply make_request_crawl in Hm as (evs & F & _).
  repeat split; try apply F; [exact Hs|now rewrite (ff_files _ _ _ _ _ F)|].
  intros end_page rest. cbn [run_pages]. rewrite Hs. reflexivity.
Qed.

(** Page 1 when no request is answered. *)
Lemma failed_list_page_left_unmarked_witness :
  let fetch := make_request offline_env (get_list_page_url fresh_parser 1) None 0
                 fresh_parser empty_world in
  scrape_page offline_env 1 fresh_parser empty_world = (Ret false, fetch.1.2, fetch.2) /\
  processed_pages fetch.1.2 = processed_pages fresh_parser /\
  processed_hotels fetch.1.2 = processed_hotels fresh_parser /\
  results fetch.1.2 = results fresh_parser /\
  files fetch.2 !! PROGRESS_FILE (config fresh_parser)
  = files empty_world !! PROGRESS_FILE (config fresh_parser) /\
  (forall end_page rest,
     run_pages offline_env end_page (1 :: rest) fresh_parser empty_world
     = run_pages offline_env end_page rest fetch.1.2
         (if 1 <? end_page
          then sleep_uniform (DELAY_BETWEEN_PAGES_MIN (config fetch.1.2))
                 (DELAY_BETWEEN_PAGES_MAX (config fetch.1.2)) fetch.2
          else fetch.2)).
Proof.
  intros fetch.
  apply (failed_list_page_left_unmarked offline_env 1 fresh_parser fetch.1.2
           empty_world fetch.2).
  - by_evaluation.
  - vm_compute. reflexivity.
Defined.

(** The progress printout after a hotel raises on a rating that is not a
    number. *)
Lemma scrape_hotels_unprintable (env : Env) (page_url : pystr) (n i : Z)
    (hotel : Hotel) (rest : list Hotel) (p p1 : Parser) (w w1 : World) (html : pystr)
    (reviews : list record) :
  hotel_url hotel ∉ processed_hotels p ->
  reviews_count hotel <> 0 ->
  make_request env (hotel_url hotel) (Some page_url) 0 p w = (Ret (Some html), p1, w1) ->
  parse_hotel_page env (config p1) html hotel = reviews ->
  ratings_printable reviews = false ->
  scrape_hotels env page_url n i (hotel :: rest) p w
  = (Raise TypeError, set_results (results p ++ reviews) p1, w1) /\
  reviews <> [] /\
  (hotel_url hotel ∉ processed_hotels (set_results (results p ++ reviews) p1)) /\
  files w1 !! PROGRESS_FILE (config p) = files w !! PROGRESS_FILE (config p).
Proof.
  intros Hnew Hcount Hm Hparse Hprint.
  assert (Hlong : str_truthy html = true).
  { destruct (make_request_body env _ _ _ 0 p w html p1 w1 eq_refl Hm)
      as (resp & _ & _ & _ & _ & _ & Hlen & ->).
    unfold len in Hlen. destruct (text resp); [cbn in Hlen; lia|reflexivity]. }
  assert (Hne : reviews <> []).
  { intros E. rewrite E in Hprint. discriminate Hprint. }
  destruct (make_request_crawl _ _ _ _ _ _ _ _ _ Hm) as (evs & F & _).
  repeat apply conj.
  - cbn [scrape_hotels]. rewrite bool_decide_eq_false_2 by exact Hnew.
    apply Z.eqb_neq in Hcount. rewrite Hcount, Hm.
    cbv beta iota zeta. cbn [opt_truthy default from_option id]. rewrite Hlong. cbn [negb].
    rewrite Hparse, Hprint. cbn [negb].
    destruct reviews; [now contradiction Hne|].
    now rewrite (ff_results _ _ _ _ _ F).
  - exact Hne.
  - cbn. now rewrite (ff_hotels _ _ _ _ _ F).
  - now rewrite (ff_files _ _ _ _ _ F).
Qed.

(** X16: when the reviews parsed from a hotel page include one whose
    [review_rating_numeric] is not a number (it is [None] for a review
    without rating element), the progress printout raises [TypeError] after
    the reviews were appended to the buffer and before the hotel is added to
    [processed_hotels]: the loop over the hotels of the page stops there,
    the rest of the page is not visited, and the progress file has not been
    written since the fetch. *)
Theorem unprintable_rating_aborts (env : Env) (page_url : pystr) (n i : Z)
    (hotel : Hotel) (rest : list Hotel) (p p1 : Parser) (w w1 : World) (html : pystr)
    (reviews : list record) :
  hotel_url hotel ∉ processed_hotels p ->
  reviews_count hotel <> 0 ->
  make_request env (hotel_url hotel) (Some page_url) 0 p w = (Ret (Some html), p1, w1) ->
  parse_hotel_page env (config p1) html hotel = reviews ->
  ratings_printable reviews = false ->
  scrape_hotels env page_url n i (hotel :: rest) p w
  = (Raise TypeError, set_results (results p ++ reviews) p1, w1) /\
  reviews <> [] /\
  (hotel_url hotel ∉ processed_hotels (set_results (results p ++ reviews) p1)) /\
  files w1 !! PROGRESS_FILE (config p) = files w !! PROGRESS_FILE (config p).
Proof.
  apply scrape_hotels_unprintable.
Qed.

(** The page of hotel A yields one review without rating. *)
Lemma unprintable_rating_aborts_witness :
  let page_url := BASE_URL default_config in
  let fetch := make_request unrated_env (hotel_url hotel_a) (Some page_url) 0
                 fresh_parser empty_world in
  let reviews := [review_unrated] in
  scrape_hotels unrated_env page_url 2 1 [hotel_a; hotel_b] fresh_parser empty_world
  = (Raise TypeError, set_results (results fresh_parser ++ reviews) fetch.1.2, fetch.2) /\
  reviews <> [] /\
  (hotel_url hotel_a
     ∉ processed_hotels (set_results (results fresh_parser ++ reviews) fetch.1.2)) /\
  files fetch.2 !! PROGRESS_FILE (config fresh_parser)
  = files empty_world !! PROGRESS_FILE (config fresh_parser).
Proof.
  intros page_url fetch reviews.
  apply (unprintable_rating_aborts unrated_env page_url 2 1 hotel_a [hotel_b]
           fresh_parser fetch.1.2 empty_world fetch.2 real_page reviews).
  - by_evaluation.
  - vm_compute. discriminate.
  - vm_compute. reflexivity.
  - reflexivity.
  - vm_compute. reflexivity.
Defined.

(** X17: when [scrape_page] returns [True] for a page that was not yet
    processed, the page is in [processed_pages] and the method has ended
    with a [_save_progress] of the state it returns, followed by
    [_save_results] unless the listing was empty. When the strings of that
    state and the time stamp can be encoded, the progress file as this
    [_save_progress] leaves it loads back (into any parser that uses the
    same progress file) to the processed pages, this page among them, the
    processed hotels, the results and the two counters of that state. What
    the progress file holds once the results are exported depends on
    whether the export writes to the same file. *)
Theorem page_end_checkpoint (env : Env) (page_num : Z) (p p' p0 : Parser) (w w' : World) :
  page_num ∉ processed_pages p ->
  scrape_page env page_num p w = (Ret true, p', w') ->
  PROGRESS_FILE (config p0) = PROGRESS_FILE (config p) ->
  page_num ∈ processed_pages p' /\
  exists w2,
    (w' = _save_progress env p' w2 \/ w' = _save_results env p' (_save_progress env p' w2)) /\
    (state_encodable p' = true ->
     encodable (now_isoformat env (clock_reads w2)) = true ->
     page_num ∈ processed_pages (_load_progress p0 (_save_progress env p' w2)) /\
     processed_pages (_load_progress p0 (_save_progress env p' w2)) = processed_pages p' /\
     processed_hotels (_load_progress p0 (_save_progress env p' w2)) = processed_hotels p' /\
     results (_load_progress p0 (_save_progress env p' w2)) = results p' /\
     total_requests (_load_progress p0 (_save_progress env p' w2)) = total_requests p' /\
     blocked_count (_load_progress p0 (_save_progress env p' w2)) = blocked_count p').
Proof.
  intros Hnew Hs Hp0.
  pose proof (scrape_page_frame _ _ _ _ _ _ _ Hs) as (evs0 & F & _).
  pose proof (cf_config _ _ _ _ _ F) as Hc.
  assert (Hmarked : page_num ∈ processed_pages p' /\
            exists w2, w' = _save_progress env p' w2
                       \/ w' = _save_results env p' (_save_progress env p' w2)).
  { revert Hs. unfold scrape_page. rewrite bool_decide_eq_false_2 by exact Hnew. cbv zeta.
    destruct (make_request env (get_list_page_url p page_num) None 0 p w)
      as [[[html|e] p1] w1] eqn:Hm; [|discriminate].
    destruct (negb (opt_truthy html)); [discriminate|].
    destruct (parse_list_page env (config p1) (default [] html) page_num
                (get_list_page_url p page_num)) as [|hotel hotels].
    - intros [= <- <-]. split.
      + apply elem_of_union. left. now apply elem_of_singleton.
      + exists w1. now left.
    - destruct (scrape_hotels env _ _ 1 (hotel :: hotels) p1 w1) as [[[u|e] p2] w2] eqn:Hh;
        [|discriminate].
      intros [= <- <-]. split.
      + apply elem_of_union. left. now apply elem_of_singleton.
      + exists w2. now right. }
  destruct Hmarked as (Hin & w2 & Hw). split; [exact Hin|].
  exists w2. split; [exact Hw|]. intros He Hstamp.
  rewrite (load_checkpoint_json p0 (_save_progress env p' w2) p'
             (now_isoformat env (clock_reads w2))).
  - repeat split; try reflexivity. exact Hin.
  - rewrite Hp0, <- Hc. apply progress_file_after_save.
    now apply checkpoint_dumpable.
Qed.

(** Page 1 of the scenario, scraped by a fresh parser. *)
Lemma page_end_checkpoint_witness :
  let env := scenario_env (Responded (html_response real_page)) in
  let done := scrape_page env 1 fresh_parser empty_world in
  let p' := done.1.2 in
  1 ∈ processed_pages p' /\
  exists w2,
    (done.2 = _save_progress env p' w2
     \/ done.2 = _save_results env p' (_save_progress env p' w2)) /\
    (state_encodable p' = true ->
     encodable (now_isoformat env (clock_reads w2)) = true ->
     1 ∈ processed_pages (_load_progress fresh_parser (_save_progress env p' w2)) /\
     processed_pages (_load_progress fresh_parser (_save_progress env p' w2))
     = processed_pages p' /\
     processed_hotels (_load_progress fresh_parser (_save_progress env p' w2))
     = processed_hotels p' /\
     results (_load_progress fresh_parser (_save_progress env p' w2)) = results p' /\
     total_requests (_load_progress fresh_parser (_save_progress env p' w2))
     = total_requests p' /\
     blocked_count (_load_progress fresh_parser (_save_progress env p' w2))
     = blocked_count p').
Proof.
  intros env done p'.
  apply (page_end_checkpoint env 1 fresh_parser p' fresh_parser empty_world done.2).
  - by_evaluation.
  - vm_compute. reflexivity.
  - reflexivity.
Defined.

(** ** The list pages a run requests *)

Lemma traced_refl (P : list Event -> Prop) w : P [] -> traced P w w.
Proof. intros H. exists []. split; [now rewrite app_nil_r|exact H]. Qed.

Lemma traced_same (P : list Event -> Prop) w w' : P [] -> trace w' = trace w -> traced P w w'.
Proof. intros H E. exists []. split; [now rewrite app_nil_r|exact H]. Qed.

Lemma traced_trans (P : list Event -> Prop) w w1 w2 :
  (forall a b, P a -> P b -> P (a ++ b)) ->
  traced P w w1 -> traced P w1 w2 -> traced P w w2.
Proof.
  intros Happ (e1 & T1 & P1) (e2 & T2 & P2). exists (e1 ++ e2).
  split; [rewrite T2, T1; now rewrite app_assoc|now apply Happ].
Qed.

Lemma no_list_request_app a b :
  no_list_request a -> no_list_request b -> no_list_request (a ++ b).
Proof. intros. now apply Forall_app. Qed.

(** The loop over the hotels of a page requests no list page. *)
Lemma scrape_hotels_no_list_request env page_url n hotels i p w o p' w' :
  scrape_hotels env page_url n i hotels p w = (o, p', w') ->
  traced no_list_request w w'.
Proof.
  apply (scrape_hotels_respects env (fun _ w _ w' => traced no_list_request w w')).
  - intros _ w0. apply traced_refl. constructor.
  - intros _ w0 _ w1 _ w2. apply traced_trans, no_list_request_app.
  - intros url pu rc q w0 o0 q' w0' Hm.
    apply make_request_crawl in Hm as (evs & F & R). exists evs.
    split; [apply (ff_trace _ _ _ _ _ F)|].
    eapply Forall_impl; [exact R|]. intros [u [r|] s| |]; cbn; try tauto. intros [_ [=]].
  - intros _ _ w0. apply traced_refl. constructor.
  - intros _ _ w0. apply traced_refl. constructor.
  - intros q w0. apply traced_same; [constructor|apply trace_save_progress].
  - intros q w0. apply traced_same; [constructor|apply trace_save_results].
  - intros lo hi _ w0. exists [EvSleepUniform lo hi]. split; [reflexivity|repeat constructor].
Qed.

Lemma list_requests_within_app p ok a b :
  list_requests_within p ok a -> list_requests_within p ok b ->
  list_requests_within p ok (a ++ b).
Proof. intros. now apply Forall_app. Qed.

Lemma list_requests_within_none p ok evs :
  no_list_request evs -> list_requests_within p ok evs.
Proof.
  intros H. eapply Forall_impl; [exact H|]. intros [u [r|] s| |]; cbn; tauto.
Qed.

Lemma list_requests_within_mono p p' (ok ok' : Z -> Prop) evs :
  config p' = config p ->
  processed_pages p ⊆ processed_pages p' ->
  (forall k, ok' k -> ok k) ->
  list_requests_within p' ok' evs -> list_requests_within p ok evs.
Proof.
  intros Hc Hsub Hok H. eapply Forall_impl; [exact H|].
  intros [u [r|] s| |]; cbn; try tauto.
  intros (k & Hk & Hn & ->). exists k. repeat split; [now apply Hok| |].
  - intros Hin. apply Hn. now apply Hsub.
  - unfold get_list_page_url. now rewrite Hc.
Qed.

Lemma scrape_page_list_requests env page_num p w o p' w' :
  scrape_page env page_num p w = (o, p', w') ->
  traced (list_requests_within p (eq page_num)) w w'.
Proof.
  unfold scrape_page.
  destruct (bool_decide (page_num ∈ processed_pages p)) eqn:Hin.
  { intros [= <- <- <-]. apply traced_refl. constructor. }
  apply bool_decide_eq_false in Hin. cbv zeta.
  assert (Hfetch : forall evs, requests_only (get_list_page_url p page_num) None evs ->
            list_requests_within p (eq page_num) evs).
  { intros evs R. eapply Forall_impl; [exact R|].
    intros [u [r|] s| |]; cbn; try tauto. intros [-> _]. now exists page_num. }
  destruct (make_request env (get_list_page_url p page_num) None 0 p w)
    as [[[html|e] p1] w1] eqn:Hm;
    apply make_request_crawl in Hm as (evs1 & F1 & R1);
    assert (T1 : traced (list_requests_within p (eq page_num)) w w1)
      by (exists evs1; split; [apply (ff_trace _ _ _ _ _ F1)|now apply Hfetch]).
  2: { intros [= <- <- <-]. exact T1. }
  destruct (negb (opt_truthy html)).
  { intros [= <- <- <-]. exact T1. }
  destruct (parse_list_page env (config p1) (default [] html) page_num
              (get_list_page_url p page_num)) as [|hotel hotels].
  { intros [= <- <- <-]. destruct T1 as (evs & T & P). exists evs. split; [|exact P].
    now rewrite trace_save_progress. }
  destruct (scrape_hotels env _ _ 1 (hotel :: hotels) p1 w1) as [[[u|e] p2] w2] eqn:Hs;
    apply scrape_hotels_no_list_request in Hs as (evs2 & T2 & N2);
    assert (T12 : traced (list_requests_within p (eq page_num)) w w2)
      by (eapply traced_trans; [apply list_requests_within_app|exact T1|];
          exists evs2; split; [exact T2|now apply list_requests_within_none]);
    intros [= <- <- <-]; [|exact T12].
  destruct T12 as (evs & T & P). exists evs. split; [|exact P].
  now rewrite trace_save_results, trace_save_progress.
Qed.

Lemma run_pages_list_requests env end_page pages : forall p w o p' w',
  run_pages env end_page pages p w = (o, p', w') ->
  traced (list_requests_within p (fun k => k ∈ pages)) w w'.
Proof.
  induction pages as [|page_num rest IH]; intros p w o p' w'; cbn [run_pages].
  { intros [= <- <- <-]. apply traced_refl. constructor. }
  destruct (scrape_page env page_num p w) as [[[b|e] p1] w1] eqn:Hs;
    pose proof (scrape_page_frame _ _ _ _ _ _ _ Hs) as (evs0 & F & _);
    apply scrape_page_list_requests in Hs as (evs1 & T1 & P1);
    assert (P1' : list_requests_within p (fun k => k ∈ page_num :: rest) evs1)
      by (eapply list_requests_within_mono; [reflexivity|reflexivity| |exact P1];
          intros k <-; apply list_elem_of_here).
  2: { intros [= <- <- <-]. exists evs1. split; assumption. }
  intros H. apply IH in H as (evs3 & T3 & P3).
  eapply traced_trans; [apply list_requests_within_app|exists evs1; split; eassumption|].
  assert (P3' : list_requests_within p (fun k => k ∈ page_num :: rest) evs3).
  { eapply list_requests_within_mono; [apply (cf_config _ _ _ _ _ F)
                                      |apply (cf_pages _ _ _ _ _ F)| |exact P3].
    intros k Hk. now apply list_elem_of_further. }
  destruct (page_num <? end_page).
  - exists (EvSleepUniform (DELAY_BETWEEN_PAGES_MIN (config p1))
              (DELAY_BETWEEN_PAGES_MAX (config p1)) :: evs3).
    split; [rewrite T3; cbn; now rewrite <- app_assoc|].
    constructor; [exact I|exact P3'].
  - exists evs3. split; assumption.
Qed.

Lemma run_list_requests env start_page end_page p w p' w' :
  run env start_page end_page p w = (p', w') ->
  traced (list_requests_within p
            (fun k => start_page <= k <= default (MAX_PAGES (config p)) end_page)) w w'.
Proof.
  intros Hrun.
  destruct (run_end env start_page end_page p w) as (o & p1 & w1 & Hr & _ & Ht1 & _).
  rewrite Hrun in Ht1. cbn [snd] in Ht1.
  apply run_pages_list_requests in Hr as (evs & T & P).
  exists evs. split.
  - now rewrite Ht1.
  - eapply list_requests_within_mono; [reflexivity|reflexivity| |exact P].
    intros k Hk. apply elem_of_seqZ in Hk. lia.
Qed.

(** X18: every request that [run] makes for a list page is for the page of a
    number between [start_page] and the last page of the run ([end_page], or
    [MAX_PAGES] when none is given), and that number was not in
    [processed_pages] when the run started: no list page outside the range
    and no list page already processed is requested. *)
Theorem run_list_requests_in_range (env : Env) (start_page : Z) (end_page : option Z)
    (p : Parser) (w : World) :
  exists evs,
    trace (run env start_page end_page p w).2 = trace w ++ evs /\
    list_requests_within p
      (fun k => start_page <= k <= default (MAX_PAGES (config p)) end_page) evs.
Proof.
  destruct (run env start_page end_page p w) as [p' w'] eqn:Hr.
  exact (run_list_requests _ _ _ _ _ _ _ Hr).
Qed.

(** ** How many requests a run can send *)

Lemma attempts_limit_config p p' : config p' = config p -> attempts_limit p' = attempts_limit p.
Proof. unfold attempts_limit. now intros ->. Qed.

Lemma make_request_limit env url r p w o p' w' :
  make_request env url r 0 p w = (o, p', w') ->
  (requests_sent w <= requests_sent w')%nat /\ requests_made w w' <= attempts_limit p.
Proof.
  intros Hm.
  destruct (make_request_account env url r _ 0 p w o p' w' eq_refl Hm) as (H & _).
  unfold attempts_limit, requests_made in *. lia.
Qed.

Lemma scrape_hotels_requests_bound env page_url n hotels : forall i p w o p' w',
  scrape_hotels env page_url n i hotels p w = (o, p', w') ->
  (requests_sent w <= requests_sent w')%nat /\
  requests_made w w' <= Z.of_nat (length hotels) * attempts_limit p.
Proof.
  induction hotels as [|hotel rest IH]; intros i p w o p' w'; cbn [scrape_hotels].
  { intros [= <- <- <-]. unfold requests_made. cbn. lia. }
  assert (Hpos : 1 <= attempts_limit p) by (unfold attempts_limit; lia).
  assert (Hlen : Z.of_nat (length (hotel :: rest)) = 1 + Z.of_nat (length rest))
    by (cbn [length]; lia).
  rewrite Hlen.
  assert (Hrest : forall j p2 w2,
            config p2 = config p ->
            (requests_sent w <= requests_sent w2)%nat ->
            requests_made w w2 <= attempts_limit p ->
            scrape_hotels env page_url n j rest p2 w2 = (o, p', w') ->
            (requests_sent w <= requests_sent w')%nat /\
            requests_made w w' <= (1 + Z.of_nat (length rest)) * attempts_limit p).
  { intros j p2 w2 Hc Hs Hb H. apply IH in H as [Hs' Hb'].
    rewrite (attempts_limit_config _ _ Hc) in Hb'. unfold requests_made in *. split; lia. }
  destruct (bool_decide (hotel_url hotel ∈ processed_hotels p)).
  { apply Hrest; [reflexivity|lia|unfold requests_made; lia]. }
  destruct (reviews_count hotel =? 0).
  { apply Hrest; [reflexivity|lia|unfold requests_made; lia]. }
  destruct (make_request env (hotel_url hotel) (Some page_url) 0 p w)
    as [[[html|e] p1] w1] eqn:Hm;
    pose proof (make_request_limit _ _ _ _ _ _ _ _ Hm) as [Hs1 Hb1];
    apply make_request_crawl in Hm as (evs & F & _);
    pose proof (ff_config _ _ _ _ _ F) as Hc1.
  2: { intros [= <- <- <-]. split; [exact Hs1|]. nia. }
  destruct (negb (opt_truthy html)).
  { apply Hrest; assumption. }
  cbv zeta. destruct (negb (ratings_printable _)).
  { intros [= <- <- <-]. split; [exact Hs1|]. nia. }
  apply Hrest.
  - destruct (parse_hotel_page _ _ _ _); exact Hc1.
  - destruct (i <? n), (i mod 10 =? 0); cbn [sleep_uniform emit requests_sent];
      rewrite ?requests_sent_save_results, ?requests_sent_save_progress; exact Hs1.
  - unfold requests_made in *.
    destruct (i <? n), (i mod 10 =? 0); cbn [sleep_uniform emit requests_sent];
      rewrite ?requests_sent_save_results, ?requests_sent_save_progress; exact Hb1.
Qed.

(** When, under the configuration [c0], a listing never yields more than
    [h] hotels. *)
Section bounded_listing.
Variable env : Env.
Variable c0 : Config.
Variable h : nat.
Hypothesis listing_bound : forall html page_num page_url,
  (length (parse_list_page env c0 html page_num page_url) <= h)%nat.

Lemma scrape_page_requests_bound page_num p w o p' w' :
  config p = c0 ->
  scrape_page env page_num p w = (o, p', w') ->
  (requests_sent w <= requests_sent w')%nat /\
  requests_made w w' <= (1 + Z.of_nat h) * attempts_limit p.
Proof.
  intros Hc0.
  assert (Hpos : 1 <= attempts_limit p) by (unfold attempts_limit; lia).
  unfold scrape_page.
  destruct (bool_decide (page_num ∈ processed_pages p)).
  { intros [= <- <- <-]. unfold requests_made. split; [lia|nia]. }
  cbv zeta.
  destruct (make_request env (get_list_page_url p page_num) None 0 p w)
    as [[[html|e] p1] w1] eqn:Hm;
    pose proof (make_request_limit _ _ _ _ _ _ _ _ Hm) as [Hs1 Hb1];
    apply make_request_crawl in Hm as (evs & F & _);
    pose proof (ff_config _ _ _ _ _ F) as Hc1.
  2: { intros [= <- <- <-]. split; [exact Hs1|nia]. }
  destruct (negb (opt_truthy html)).
  { intros [= <- <- <-]. split; [exact Hs1|nia]. }
  pose proof (listing_bound (default [] html) page_num
                (get_list_page_url p page_num)) as Hh.
  rewrite <- Hc0, <- Hc1 in Hh.
  destruct (parse_list_page env (config p1) (default [] html) page_num
              (get_list_page_url p page_num)) as [|hotel hotels].
  { intros [= <- <- <-]. rewrite requests_sent_save_progress.
    unfold requests_made in *. rewrite requests_sent_save_progress. split; [exact Hs1|nia]. }
  destruct (scrape_hotels env _ _ 1 (hotel :: hotels) p1 w1) as [[o2 p2] w2] eqn:Hs.
  apply scrape_hotels_requests_bound in Hs as [Hs2 Hb2].
  rewrite (attempts_limit_config _ _ Hc1) in Hb2.
  assert (requests_made w w2 <= (1 + Z.of_nat h) * attempts_limit p)
    by (unfold requests_made in *; nia).
  destruct o2; intros [= <- <- <-].
  - unfold requests_made in *.
    rewrite requests_sent_save_results, requests_sent_save_progress. split; [lia|assumption].
  - split; [lia|assumption].
Qed.

Lemma run_pages_requests_bound end_page pages : forall p w o p' w',
  config p = c0 ->
  run_pages env end_page pages p w = (o, p', w') ->
  (requests_sent w <= requests_sent w')%nat /\
  requests_made w w' <= Z.of_nat (length pages) * ((1 + Z.of_nat h) * attempts_limit p).
Proof.
  induction pages as [|page_num rest IH]; intros p w o p' w' Hc0; cbn [run_pages].
  { intros [= <- <- <-]. unfold requests_made. cbn. lia. }
  assert (Hpos : 1 <= attempts_limit p) by (unfold attempts_limit; lia).
  destruct (scrape_page env page_num p w) as [[[b|e] p1] w1] eqn:Hs;
    pose proof (scrape_page_frame _ _ _ _ _ _ _ Hs) as (evs0 & F & _);
    apply (scrape_page_requests_bound _ _ _ _ _ _ Hc0) in Hs as [Hs1 Hb1].
  2: { intros [= <- <- <-]. split; [exact Hs1|]. cbn [length]. nia. }
  intros H. apply IH in H as [Hs2 Hb2]; [|now rewrite (cf_config _ _ _ _ _ F)].
  rewrite (attempts_limit_config _ _ (cf_config _ _ _ _ _ F)) in Hb2.
  assert (E : requests_sent (if page_num <? end_page
                             then sleep_uniform (DELAY_BETWEEN_PAGES_MIN (config p1))
                                    (DELAY_BETWEEN_PAGES_MAX (config p1)) w1
                             else w1) = requests_sent w1)
    by (destruct (page_num <? end_page); reflexivity).
  unfold requests_made in *. rewrite E in *. cbn [length]. split; [lia|nia].
Qed.

Lemma run_requests_bound start_page end_page p w :
  config p = c0 ->
  requests_made w (run env start_page end_page p w).2
  <= Z.max 0 (default (MAX_PAGES (config p)) end_page + 1 - start_page)
     * ((1 + Z.of_nat h) * attempts_limit p).
Proof.
  intros Hc0.
  destruct (run_end env start_page end_page p w) as (o & p1 & w1 & Hr & _ & _ & Hs1).
  apply run_pages_requests_bound in Hr as [_ Hb]; [|exact Hc0].
  rewrite length_seqZ in Hb.
  replace (Z.of_nat (Z.to_nat (default (MAX_PAGES (config p)) end_page + 1 - start_page)))
    with (Z.max 0 (default (MAX_PAGES (config p)) end_page + 1 - start_page)) in Hb by lia.
  unfold requests_made in *. rewrite Hs1. exact Hb.
Qed.
End bounded_listing.

(** X19: when the extraction of a listing never yields more than [h] hotels
    ([parse_list_page] looks at no more than [MAX_HOTELS_PER_PAGE]
    containers), the loop over the hotels of a page sends at most
    [MAX_RETRIES + 1] requests per hotel, [scrape_page] at most
    [(1 + h) * (MAX_RETRIES + 1)], and a [run] at most that number for each
    page of its range ([MAX_RETRIES] counting as 0 when negative). *)
Theorem run_requests_bounded (env : Env) (h : nat) (start_page : Z) (end_page : option Z)
    (p : Parser) (w : World) :
  (forall c html page_num page_url,
     (length (parse_list_page env c html page_num page_url) <= h)%nat) ->
  requests_made w (run env start_page end_page p w).2
  <= Z.max 0 (default (MAX_PAGES (config p)) end_page + 1 - start_page)
     * ((1 + Z.of_nat h) * attempts_limit p) /\
  (forall page_num p w,
     requests_made w (scrape_page env page_num p w).2 <= (1 + Z.of_nat h) * attempts_limit p) /\
  (forall page_url n i hotels p w,
     requests_made w (scrape_hotels env page_url n i hotels p w).2
     <= Z.of_nat (length hotels) * attempts_limit p).
Proof.
  intros Hh. repeat apply conj.
  - apply (run_requests_bound env (config p) h (Hh (config p))). reflexivity.
  - intros page_num q w0.
    destruct (scrape_page env page_num q w0) as [[o p'] w'] eqn:Hs.
    now apply (scrape_page_requests_bound env (config q) h (Hh (config q)) _ _ _ _ _ _ eq_refl)
      in Hs.
  - intros page_url n i hotels q w0.
    destruct (scrape_hotels env page_url n i hotels q w0) as [[o p'] w'] eqn:Hs.
    now apply scrape_hotels_requests_bound in Hs.
Qed.

(** Two pages with at most two hotels each, every hotel page blocked. *)
Lemma run_requests_bounded_witness :
  let env := scenario_env (Responded captcha_page) in
  requests_made empty_world (run env 1 (Some 2) fresh_parser empty_world).2
  <= Z.max 0 (default (MAX_PAGES (config fresh_parser)) (Some 2) + 1 - 1)
     * ((1 + Z.of_nat 2) * attempts_limit fresh_parser) /\
  (forall page_num p w,
     requests_made w (scrape_page env page_num p w).2
     <= (1 + Z.of_nat 2) * attempts_limit p) /\
  (forall page_url n i hotels p w,
     requests_made w (scrape_hotels env page_url n i hotels p w).2
     <= Z.of_nat (length hotels) * attempts_limit p).
Proof.
  intros env.
  apply (run_requests_bounded env 2 1 (Some 2) fresh_parser empty_world).
  intros c html page_num page_url. cbn. destruct (page_num =? 1); cbn; lia.
Defined.

(** ** The page range of [main] *)

(** X20: the range that [main] passes to [run] is never empty: its start is
    at most its end, the start is at most [MAX_PAGES] and the end at least
    1. It lies within 1..[MAX_PAGES] when [MAX_PAGES] is at least 1, a
    start that was entered is at most [MAX_PAGES] and an end that was
    entered is at least 1; an ordered pair of inputs within 1..[MAX_PAGES]
    is passed on as it is. The exchange of start and end can leave the
    bounds: a start above [MAX_PAGES] with no end entered gives the range
    from [MAX_PAGES] to that start, and an end below 1 with no start
    entered gives the range from that end to 1. *)
Theorem page_range_ordered (max_pages : Z) (start_input end_input : option Z) :
  let r := page_range max_pages start_input end_input in
  r.1 <= r.2 /\
  r.1 <= max_pages /\
  1 <= r.2 /\
  (1 <= max_pages ->
   (forall n, start_input = Some n -> n <= max_pages) ->
   (forall n, end_input = Some n -> 1 <= n) ->
   1 <= r.1 /\ r.2 <= max_pages) /\
  (forall n, start_input = Some n -> end_input = None -> 1 <= max_pages < n ->
     r = (max_pages, n)) /\
  (forall n, start_input = None -> end_input = Some n -> n < 1 ->
     n <= max_pages -> r = (n, 1)) /\
  (forall s e, start_input = Some s -> end_input = Some e -> 1 <= s <= e -> e <= max_pages ->
     r = (s, e)).
Proof.
  cbv zeta. unfold page_range.
  set (s0 := match start_input with Some n => Z.max 1 n | None => 1 end).
  set (e0 := match end_input with Some n => Z.min n max_pages | None => max_pages end).
  assert (Hs0 : 1 <= s0) by (subst s0; destruct start_input; lia).
  assert (He0 : e0 <= max_pages) by (subst e0; destruct end_input; lia).
  cbv zeta.
  replace (s0 <? 1) with false by (symmetry; apply Z.ltb_ge; lia).
  replace (max_pages <? e0) with false by (symmetry; apply Z.ltb_ge; lia).
  destruct (Z.ltb_spec e0 s0) as [Hswap|Hkeep]; cbn [fst snd];
    (repeat apply conj; [lia|lia|lia| | | |]).
  - intros HM Hsi Hei.
    assert (s0 <= max_pages)
      by (subst s0; destruct start_input as [n|]; [specialize (Hsi n eq_refl)|]; lia).
    assert (1 <= e0)
      by (subst e0; destruct end_input as [n|]; [specialize (Hei n eq_refl)|]; lia).
    lia.
  - intros n Es Ee Hn. subst s0 e0. rewrite Es, Ee. f_equal; lia.
  - intros n Es Ee Hn Hle. subst s0 e0. rewrite Es, Ee. f_equal; lia.
  - intros s e Es Ee Hse Hle. subst s0 e0. rewrite Es, Ee in Hswap. lia.
  - intros HM Hsi Hei. lia.
  - intros n Es Ee Hn. subst s0 e0. rewrite Es, Ee in Hkeep. lia.
  - intros n Es Ee Hn Hle. subst s0 e0. rewrite Es, Ee in Hkeep. lia.
  - intros s e Es Ee Hse Hle. subst s0 e0. rewrite Es, Ee. f_equal; lia.
Qed.

(** ** Construction without a progress file *)

(** X21: constructed when no progress file exists and with a pool of user
    agents that is not empty, the parser has the configuration with the
    fixed delays, a User-Agent from the pool, the Referer of the site root,
    no result, no processed page or hotel, and both counters at 0; the
    constructor sends no request and does not sleep. *)
Theorem constructor_cold_start (env : Env) (c : Config) (w : World) :
  files w !! PROGRESS_FILE c = None ->
  USER_AGENTS c <> [] ->
  exists ua w',
    __init__ env c w
    = (Ret {| config := init_config c;
              session := {| user_agent := ua; referer := py "https://otzovik.com/" |};
              results := []; processed_hotels := ∅; processed_pages := ∅;
              total_requests := 0; blocked_count := 0 |}, w') /\
    ua ∈ USER_AGENTS c /\
    trace w' = trace w /\
    requests_made w w' = 0.
Proof.
  intros Hfile Hpool. unfold __init__, _create_session. cbv zeta.
  change (USER_AGENTS (init_config c)) with (USER_AGENTS c).
  destruct (random_choice_nonempty env (USER_AGENTS c) w Hpool) as (ua & w' & Hch & Hin & Htr).
  rewrite Hch. exists ua, w'. repeat split.
  - f_equal. f_equal. unfold _load_progress. cbn [config PROGRESS_FILE init_config].
    rewrite (files_random_choice _ _ _ _ _ Hch), Hfile. reflexivity.
  - exact Hin.
  - exact Htr.
  - unfold requests_made. rewrite (requests_sent_choice _ _ _ _ _ Hch). lia.
Qed.

Lemma constructor_cold_start_witness :
  exists ua w',
    __init__ (scenario_env TimedOut) default_config empty_world
    = (Ret {| config := init_config default_config;
              session := {| user_agent := ua; referer := py "https://otzovik.com/" |};
              results := []; processed_hotels := ∅; processed_pages := ∅;
              total_requests := 0; blocked_count := 0 |}, w') /\
    ua ∈ USER_AGENTS default_config /\
    trace w' = trace empty_world /\
    requests_made empty_world w' = 0.
Proof.
  apply (constructor_cold_start (scenario_env TimedOut) default_config empty_world).
  - reflexivity.
  - discriminate.
Defined.

(** ** The hotels of a listing *)

Lemma length_omap_le {A B : Type} (f : A -> option B) (l : list A) :
  (length (omap f l) <= length l)%nat.
Proof. induction l as [|x l IH]; cbn; [lia|]. destruct (f x); cbn; lia. Qed.

Lemma length_slice_to {A : Type} (n : Z) (l : list A) :
  (length (slice_to n l) <= length l)%nat /\
  (0 <= n -> Z.of_nat (length (slice_to n l)) <= n) /\
  (n < 0 -> Z.of_nat (length (slice_to n l)) = Z.max 0 (Z.of_nat (length l) + n)).
Proof.
  unfold slice_to. destruct (Z.leb_spec 0 n); rewrite length_take; lia.
Qed.

Lemma length_list_page_hotels lib c containers page_num page_url :
  0 <= MAX_HOTELS_PER_PAGE c ->
  Z.of_nat (length (list_page_hotels lib c containers page_num page_url))
  <= MAX_HOTELS_PER_PAGE c.
Proof.
  intros Hn. unfold list_page_hotels. destruct containers as [|k0 ks]; [cbn; lia|].
  pose proof (length_omap_le (hotel_of lib page_num page_url)
                (slice_to (MAX_HOTELS_PER_PAGE c) (k0 :: ks))) as Ho.
  destruct (length_slice_to (MAX_HOTELS_PER_PAGE c) (k0 :: ks)) as (_ & H2 & _).
  specialize (H2 Hn). lia.
Qed.

(** X22: [parse_list_page] returns at most as many hotels as the selector
    found containers, and at most [MAX_HOTELS_PER_PAGE] when that limit is
    not negative (a negative limit leaves out that many containers from the
    end instead). Every hotel it returns carries the number and the URL of
    the list page it was called with and the identifier built from its own
    URL, and comes from a container with a hotel link whose [href] is not
    empty: the URL of the hotel is that [href] when it starts with [http],
    and the [href] joined to the site root otherwise. *)
Theorem listing_capped (lib : ListLib) (c : Config) (containers : list Container)
    (page_num : Z) (page_url : pystr) :
  let hotels := list_page_hotels lib c containers page_num page_url in
  (length hotels <= length containers)%nat /\
  (0 <= MAX_HOTELS_PER_PAGE c -> Z.of_nat (length hotels) <= MAX_HOTELS_PER_PAGE c) /\
  (MAX_HOTELS_PER_PAGE c < 0 ->
   Z.of_nat (length hotels)
   <= Z.max 0 (Z.of_nat (length containers) + MAX_HOTELS_PER_PAGE c)) /\
  (forall h : Hotel, h ∈ hotels ->
     list_page h = page_num /\
     list_url h = page_url /\
     hotel_id h = py "hotel_" ++ hash_digits lib (hotel_url h) /\
     exists k : Container,
       k ∈ containers /\
       exists href name,
         link k = Some (Some href, name) /\ href <> [] /\ hotel_name h = name /\
         (if starts_with (py "http") href then hotel_url h = href
          else urljoin_site lib href = Some (hotel_url h))).
Proof.
  cbv zeta. unfold list_page_hotels.
  destruct containers as [|k0 ks].
  { cbn. repeat apply conj; try lia. intros h Hh. now apply elem_of_nil in Hh. }
  set (cs := k0 :: ks).
  pose proof (length_omap_le (hotel_of lib page_num page_url)
                (slice_to (MAX_HOTELS_PER_PAGE c) cs)) as Ho.
  destruct (length_slice_to (MAX_HOTELS_PER_PAGE c) cs) as (H1 & H2 & H3).
  repeat apply conj.
  - lia.
  - intros Hn. specialize (H2 Hn). lia.
  - intros Hn. specialize (H3 Hn). lia.
  - intros h Hh. apply list_elem_of_omap in Hh as (k & Hk & Hof).
    assert (Hkc : k ∈ cs).
    { unfold slice_to in Hk. destruct (0 <=? MAX_HOTELS_PER_PAGE c);
        eapply elem_of_sublist; [exact Hk|apply sublist_take|exact Hk|apply sublist_take]. }
    unfold hotel_of in Hof.
    destruct (link k) as [[[href|] name]|] eqn:Hl; try discriminate Hof.
    destruct (str_truthy href) eqn:Ht; cbn [negb] in Hof; [|discriminate Hof].
    destruct (starts_with (py "http") href) eqn:Hs.
    + injection Hof as <-. cbn. repeat (split; [reflexivity|]).
      exists k. split; [exact Hkc|]. exists href, name.
      split; [exact Hl|]. split; [intros ->; discriminate Ht|].
      split; [reflexivity|]. rewrite Hs. reflexivity.
    + destruct (urljoin_site lib href) as [url|] eqn:Hu; [|discriminate Hof].
      injection Hof as <-. cbn. repeat (split; [reflexivity|]).
      exists k. split; [exact Hkc|]. exists href, name.
      split; [exact Hl|]. split; [intros ->; discriminate Ht|].
      split; [reflexivity|]. rewrite Hs. exact Hu.
Qed.

(** X23: with [parse_list_page] as it is written (the hotels of the
    containers that the selector finds in the page) and a limit
    [MAX_HOTELS_PER_PAGE] that is not negative, [scrape_page] sends at most
    [(1 + MAX_HOTELS_PER_PAGE) * (MAX_RETRIES + 1)] requests and a [run] at
    most that number for each page of its range ([MAX_RETRIES] counting as
    0 when negative). *)
Theorem run_requests_capped (env : Env) (lib : ListLib)
    (soup : Config -> pystr -> list Container)
    (start_page : Z) (end_page : option Z) (p : Parser) (w : World) :
  (forall c html page_num page_url,
     parse_list_page env c html page_num page_url
     = list_page_hotels lib c (soup c html) page_num page_url) ->
  0 <= MAX_HOTELS_PER_PAGE (config p) ->
  requests_made w (run env start_page end_page p w).2
  <= Z.max 0 (default (MAX_PAGES (config p)) end_page + 1 - start_page)
     * ((1 + MAX_HOTELS_PER_PAGE (config p)) * attempts_limit p) /\
  (forall page_num,
     requests_made w (scrape_page env page_num p w).2
     <= (1 + MAX_HOTELS_PER_PAGE (config p)) * attempts_limit p).
Proof.
  intros Hparse Hmax.
  assert (Hh : forall html page_num page_url,
            (length (parse_list_page env (config p) html page_num page_url)
             <= Z.to_nat (MAX_HOTELS_PER_PAGE (config p)))%nat).
  { intros html page_num page_url. rewrite Hparse.
    pose proof (length_list_page_hotels lib (config p) (soup (config p) html)
                  page_num page_url Hmax). lia. }
  replace (1 + MAX_HOTELS_PER_PAGE (config p))
    with (1 + Z.of_nat (Z.to_nat (MAX_HOTELS_PER_PAGE (config p)))) by lia.
  split.
  - apply (run_requests_bound env (config p) _ Hh). reflexivity.
  - intros page_num.
    destruct (scrape_page env page_num p w) as [[o p'] w'] eqn:Hs.
    now apply (scrape_page_requests_bound env (config p) _ Hh _ _ _ _ _ _ eq_refl) in Hs.
Qed.

(** Two pages of the listing with one hotel link, under the default limit
    of 20 hotels per page and 3 retries. *)
Lemma run_requests_capped_witness :
  requests_made empty_world (run listing_env 1 (Some 2) fresh_parser empty_world).2
  <= Z.max 0 (default (MAX_PAGES (config fresh_parser)) (Some 2) + 1 - 1)
     * ((1 + MAX_HOTELS_PER_PAGE (config fresh_parser)) * attempts_limit fresh_parser) /\
  (forall page_num,
     requests_made empty_world (scrape_page listing_env page_num fresh_parser empty_world).2
     <= (1 + MAX_HOTELS_PER_PAGE (config fresh_parser)) * attempts_limit fresh_parser).
Proof.
  apply (run_requests_capped listing_env listing_lib
           (fun _ _ => [container_a; container_bare]) 1 (Some 2) fresh_parser empty_world).
  - intros c html page_num page_url. reflexivity.
  - vm_compute. discriminate.
Defined.

(** ** The run that [main] starts *)

(** X24: without confirmation [main] constructs no parser and sends no
    request; when the constructor raises, [main] ends there; otherwise the
    run it starts is the one over the range computed by [page_range], so
    every list page it requests has a number between the two ends of that
    range and was not recorded as processed by the progress file the
    constructor loaded. *)
Theorem main_list_requests (env : Env) (c : Config) (start_input end_input : option Z)
    (w : World) :
  let r := page_range (MAX_PAGES c) start_input end_input in
  main env c start_input end_input false w = (None, w) /\
  (forall e w0,
     __init__ env c w = (Raise e, w0) ->
     main env c start_input end_input true w = (None, w0)) /\
  (forall p0 w0,
     __init__ env c w = (Ret p0, w0) ->
     (main env c start_input end_input true w).1
     = Some (run env r.1 (Some r.2) p0 w0).1 /\
     trace w0 = trace w /\
     traced (list_requests_within p0 (fun k => r.1 <= k <= r.2))
       w0 (main env c start_input end_input true w).2).
Proof.
  cbv zeta. repeat apply conj.
  - reflexivity.
  - intros e w0 Hinit. unfold main. cbv zeta. now rewrite Hinit.
  - intros p0 w0 Hinit. unfold main. cbv zeta. rewrite Hinit.
    destruct (run env _ _ p0 w0) as [p' w'] eqn:Hr. cbn [fst snd].
    repeat split.
    + revert Hinit. unfold __init__, _create_session. cbv zeta.
      destruct (random_choice env (USER_AGENTS (init_config c)) w) as [[ua|e] w1] eqn:Hch;
        [|discriminate].
      intros [= _ <-].
      pose proof (ff_trace _ _ _ _ _ (fetch_frame_choice env _ w _ w1 p0 Hch)) as T.
      now rewrite app_nil_r in T.
    + exact (run_list_requests _ _ _ _ _ _ _ Hr).
Qed.

(** ** The rating of a review *)

(** The order of the floats is transitive. *)
Lemma SFleb_trans (a b c : spec_float) :
  SFleb a b = true -> SFleb b c = true -> SFleb a c = true.
Proof.
  unfold SFleb, SFcompare.
  destruct a as [[]|[]| |[] ma ea], b as [[]|[]| |[] mb eb], c as [[]|[]| |[] mc ec];
    try discriminate; try reflexivity;
    change (PosDef.Pos.compare_cont Eq) with Pos.compare;
    destruct (Z.compare_spec ea eb), (Z.compare_spec eb ec), (Z.compare_spec ea ec);
    try discriminate; try reflexivity; try lia; subst;
    destruct (Pos.compare_spec ma mb), (Pos.compare_spec mb mc), (Pos.compare_spec ma mc);
    cbn; try discriminate; try reflexivity; try lia.
Qed.

Lemma stars_of_range (f : spec_float) : 1 <= stars_of f <= 5.
Proof. unfold stars_of. repeat case_match; lia. Qed.

Lemma stars_of_mono (f g : spec_float) :
  SFleb f g = true -> stars_of f <= stars_of g.
Proof.
  intros Hfg. unfold stars_of.
  assert (Hup : forall t, SFleb t f = true -> SFleb t g = true)
    by (intros t Ht; exact (SFleb_trans t f g Ht Hfg)).
  destruct (SFleb (float_of_halves 9) f) eqn:H9; [rewrite (Hup _ H9); lia|].
  destruct (SFleb (float_of_halves 7) f) eqn:H7;
    [rewrite (Hup _ H7); destruct (SFleb (float_of_halves 9) g); lia|].
  destruct (SFleb (float_of_halves 5) f) eqn:H5;
    [rewrite (Hup _ H5); repeat case_match; lia|].
  destruct (SFleb (float_of_halves 3) f) eqn:H3;
    [rewrite (Hup _ H3); repeat case_match; lia|].
  repeat case_match; lia.
Qed.

(** X25: [extract_review_rating] returns an empty text and no numeric rating
    when the review has no rating element, and the text of the element
    otherwise; the stars are absent exactly when the numeric rating is, and
    are computed from it otherwise; they lie between 1 and 5 and do not
    decrease when the rating increases; a rating of 4.5 or of 5 gives five
    stars, of 4 four, of 0 one. *)
Theorem rating_stars_follow_numeric (lib : ReviewLib) (rating_elem : option pystr) :
  let rd := extract_review_rating lib rating_elem in
  (rating_elem = None -> rd_text rd = [] /\ rd_numeric rd = None) /\
  (forall rating_text, rating_elem = Some rating_text -> rd_text rd = rating_text) /\
  (rd_numeric rd = None -> rd_stars rd = None) /\
  (forall f, rd_numeric rd = Some f -> rd_stars rd = Some (stars_of f)) /\
  (forall f, 1 <= stars_of f <= 5) /\
  (forall f g, SFleb f g = true -> stars_of f <= stars_of g) /\
  stars_of (float_of_Z 5) = 5 /\
  stars_of (float_of_halves 9) = 5 /\
  stars_of (float_of_Z 4) = 4 /\
  stars_of (float_of_Z 0) = 1.
Proof.
  cbv zeta. unfold extract_review_rating.
  repeat apply conj.
  - intros ->. split; reflexivity.
  - intros rating_text ->. repeat case_match; reflexivity.
  - repeat case_match; cbn; intros; congruence.
  - intros f. repeat case_match; cbn; intros; congruence.
  - apply stars_of_range.
  - apply stars_of_mono.
  - vm_compute. reflexivity.
  - vm_compute. reflexivity.
  - vm_compute. reflexivity.
  - vm_compute. reflexivity.
Qed.

(** ** The year of a review *)

Lemma scan_texts_year lib texts d : date_year (scan_texts lib texts d) = date_year d.
Proof.
  revert d. induction texts as [|text rest IH]; intros d; [reflexivity|].
  cbn [scan_texts].
  destruct (str_truthy text); [destruct (find_date lib text)|];
    cbn [date_display]; (destruct (str_truthy _); [reflexivity|]); rewrite IH; reflexivity.
Qed.

Lemma date_from_content_year lib content fallback d :
  date_year (date_from_content lib content fallback d) = date_year d
  \/ exists dt, fromisoformat lib (iso_input content) = Some dt /\
                date_year (date_from_content lib content fallback d) = iso_year dt.
Proof.
  unfold date_from_content. destruct (fromisoformat lib (iso_input content)) as [dt|].
  - right. now exists dt.
  - left. reflexivity.
Qed.

Lemma date_from_text_year lib date_text :
  date_year (date_from_text lib date_text).1 = []
  \/ exists day month_ru,
       search_date_words lib date_text
       = Some (day, month_ru, date_year (date_from_text lib date_text).1).
Proof.
  unfold date_from_text.
  destruct (search_date_words lib date_text) as [[[day month_ru] year]|].
  - right. exists day, month_ru. destruct (int_of_text lib day); reflexivity.
  - left. destruct (_ || _); reflexivity.
Qed.

Lemma date_first_way_year lib item :
  date_year (date_first_way lib item).1 = []
  \/ year_source lib item (date_year (date_first_way lib item).1).
Proof.
  unfold date_first_way.
  destruct (item_date item) as [e|] eqn:He; [|now left].
  destruct (content_attr e) as [content|] eqn:Hc.
  - cbn [fst].
    destruct (date_from_content_year lib content (str_strip lib (elem_text e)) empty_date)
      as [E|(dt & Hiso & E)]; [left; exact E|].
    right. left. exists content, dt. split; [left; now exists e|]. now split.
  - destruct (str_truthy (elem_text e)); [|now left].
    destruct (date_from_text_year lib (str_strip lib (elem_text e))) as [E|(day & month_ru & E)];
      [now left|].
    right. right. exists e, day, month_ru. repeat split; assumption.
Qed.

Lemma date_second_way_year lib item d :
  date_year d = [] \/ year_source lib item (date_year d) ->
  date_year (date_second_way lib item d) = []
  \/ year_source lib item (date_year (date_second_way lib item d)).
Proof.
  intros Hd. unfold date_second_way.
  destruct (str_truthy (date_display d)); [exact Hd|].
  destruct (item_date_meta item) as [content|] eqn:Hm; [|exact Hd].
  destruct (date_from_content_year lib content (iso_input content) d)
    as [E|(dt & Hiso & E)].
  - now rewrite E.
  - right. left. exists content, dt. split; [now right|]. now split.
Qed.

Lemma extract_review_date_year lib item :
  date_year (extract_review_date lib item) = []
  \/ year_source lib item (date_year (extract_review_date lib item)).
Proof.
  unfold extract_review_date.
  pose proof (date_first_way_year lib item) as H1.
  destruct (date_first_way lib item) as [d1 raised]. cbn [fst] in H1.
  destruct raised; [exact H1|]. cbv zeta.
  destruct (str_truthy (date_display (date_second_way lib item d1)));
    [|rewrite scan_texts_year]; now apply date_second_way_year.
Qed.

(** X26: the year of a review, when [extract_review_date] gives one, is the
    year of an ISO date read from the [content] attribute of the date
    element or of the meta element, or the year group of the pattern with a
    month name matched in the text of the date element. A date element
    without [content] attribute whose text does not match that pattern (a
    date written as 08.10.2019 or 2019-10-08) gives its text as the display
    date and no year, so that [before_2020] is [False] whatever the date;
    and so does an item that has neither date element nor meta element. *)
Theorem review_year_sources (lib : ReviewLib) (item : Item) :
  let d := extract_review_date lib item in
  (date_year d <> [] -> year_source lib item (date_year d)) /\
  (forall e,
     item_date item = Some e ->
     content_attr e = None ->
     elem_text e <> [] ->
     str_strip lib (elem_text e) <> [] ->
     search_date_words lib (str_strip lib (elem_text e)) = None ->
     date_year d = [] /\ date_display d = str_strip lib (elem_text e) /\
     before_2020_of lib (date_year d) = Some false) /\
  (item_date item = None -> item_date_meta item = None ->
   date_year d = [] /\ before_2020_of lib (date_year d) = Some false).
Proof.
  cbv zeta. repeat apply conj.
  - intros Hy. destruct (extract_review_date_year lib item) as [H|H];
      [now contradiction Hy|exact H].
  - intros e He Hc Ht Hs Hw.
    assert (E : date_first_way lib item
                = ({| date_display := str_strip lib (elem_text e); date_iso := [];
                      date_raw := if search_date_dots lib (str_strip lib (elem_text e))
                                     || search_date_dashes lib (str_strip lib (elem_text e))
                                  then str_strip lib (elem_text e) else [];
                      date_year := []; date_month := []; date_day := [] |}, false)).
    { unfold date_first_way. rewrite He, Hc.
      destruct (elem_text e) as [|x l] eqn:Et; [now contradiction Ht|].
      cbn [str_truthy]. unfold date_from_text. rewrite Hw.
      destruct (_ || _); reflexivity. }
    unfold extract_review_date. rewrite E. cbv zeta. unfold date_second_way.
    cbn [date_display].
    destruct (str_strip lib (elem_text e)) as [|x l] eqn:Es; [now contradiction Hs|].
    cbn [str_truthy date_display date_year]. repeat split.
  - intros He Hm. unfold extract_review_date, date_first_way, date_second_way.
    rewrite He, Hm. cbn.
    rewrite scan_texts_year. split; reflexivity.
Qed.

(** ** The reviews of a hotel page *)

(** The entries of the dictionary [review] that the crawl looks at. *)
Lemma review_dict_lookup
    (v1 v2 v3 v4 v5 v6 v7 v8 v9 v10 v11 v12 v13 v14 v15 v16 v17 v18 v19 v20 v21 v22 v23 v24
       v25 v26 v27 v28 : scalar) :
  let r := dict_of
    [ (py "review_id", v1); (py "hotel_id", v2); (py "hotel_name", v3);
      (py "hotel_url", v4); (py "hotel_rating", v5); (py "review_rating_text", v6);
      (py "review_rating_numeric", v7); (py "review_rating_stars", v8);
      (py "review_title", v9); (py "review_text", v10); (py "review_teaser", v11);
      (py "review_plus", v12); (py "review_minus", v13); (py "review_date", v14);
      (py "review_date_iso", v15); (py "review_date_raw", v16); (py "review_year", v17);
      (py "review_month", v18); (py "review_day", v19); (py "before_2020", v20);
      (py "review_author", v21); (py "review_author_location", v22);
      (py "recommendations", v23); (py "comments", v24); (py "images_count", v25);
      (py "images", v26); (py "list_page", v27); (py "scraped_at", v28) ] in
  r !! py "review_id" = Some v1 /\
  r !! py "hotel_url" = Some v4 /\
  r !! py "review_rating_numeric" = Some v7 /\
  r !! py "review_rating_stars" = Some v8 /\
  r !! py "review_date" = Some v14 /\
  r !! py "review_year" = Some v17 /\
  r !! py "before_2020" = Some v20 /\
  r !! py "list_page" = Some v27.
Proof. cbv zeta. vm_compute. repeat split. Qed.

Lemma review_of_fields (lib : ReviewLib) (hotel : Hotel) (idx : Z) (item : Item) (r : record) :
  review_of lib hotel idx item = Some r ->
  r !! py "review_id"
  = Some (SStr (hotel_id hotel ++ py "_review_" ++ str_of_Z idx ++ py "_"
                ++ hash_digits4 lib (text_or_empty (item_title item)
                                     ++ date_display (extract_review_date lib item)))) /\
  r !! py "hotel_url" = Some (SStr (hotel_url hotel)) /\
  r !! py "review_rating_numeric"
  = Some (scalar_of_float (rd_numeric (extract_review_rating lib (item_rating item)))) /\
  r !! py "review_rating_stars"
  = Some (scalar_of_int (rd_stars (extract_review_rating lib (item_rating item)))) /\
  r !! py "review_date" = Some (SStr (date_display (extract_review_date lib item))) /\
  r !! py "review_year" = Some (SStr (date_year (extract_review_date lib item))) /\
  SBool <$> before_2020_of lib (date_year (extract_review_date lib item))
  = r !! py "before_2020" /\
  r !! py "list_page" = Some (SInt (list_page hotel)).
Proof.
  unfold review_of. cbv zeta.
  destruct (before_2020_of lib (date_year (extract_review_date lib item))) as [b|];
    [|discriminate].
  destruct (counter_of lib (item_recommendations item)) as [recs|]; [|discriminate].
  destruct (counter_of lib (item_comments item)) as [coms|]; [|discriminate].
  intros [= <-].
  match goal with
  | |- context [dict_of [ (_, ?v1); (_, ?v2); (_, ?v3); (_, ?v4); (_, ?v5); (_, ?v6);
                          (_, ?v7); (_, ?v8); (_, ?v9); (_, ?v10); (_, ?v11); (_, ?v12);
                          (_, ?v13); (_, ?v14); (_, ?v15); (_, ?v16); (_, ?v17); (_, ?v18);
                          (_, ?v19); (_, ?v20); (_, ?v21); (_, ?v22); (_, ?v23); (_, ?v24);
                          (_, ?v25); (_, ?v26); (_, ?v27); (_, ?v28) ]] =>
      destruct (review_dict_lookup v1 v2 v3 v4 v5 v6 v7 v8 v9 v10 v11 v12 v13 v14 v15 v16
                  v17 v18 v19 v20 v21 v22 v23 v24 v25 v26 v27 v28)
        as (H1 & H4 & H7 & H8 & H14 & H17 & H20 & H27)
  end.
  repeat apply conj; try assumption.
Qed.

Lemma length_reviews_from (lib : ReviewLib) (hotel : Hotel) (items : list Item) : forall idx,
  (length (reviews_from lib hotel idx items) <= length items)%nat.
Proof.
  induction items as [|item rest IH]; intros idx; cbn [reviews_from length]; [lia|].
  specialize (IH (idx + 1)). destruct (review_of lib hotel idx item); cbn [length]; lia.
Qed.

(** The reviews are those of the items, each at its position. *)
Lemma elem_of_reviews_from (lib : ReviewLib) (hotel : Hotel) (items : list Item) (r : record) :
  forall idx,
  r ∈ reviews_from lib hotel idx items <->
  exists (i : nat) item,
    items !! i = Some item /\ review_of lib hotel (idx + Z.of_nat i) item = Some r.
Proof.
  induction items as [|item rest IH]; intros idx; cbn [reviews_from].
  { split; [intros H; now apply elem_of_nil in H|intros (i & it & H & _); discriminate H]. }
  assert (Hrest : r ∈ reviews_from lib hotel (idx + 1) rest <->
            exists (i : nat) it, (item :: rest) !! S i = Some it
                                 /\ review_of lib hotel (idx + Z.of_nat (S i)) it = Some r).
  { rewrite IH. split; intros (i & it & Hl & Hr); exists i, it; (split; [exact Hl|]).
    - rewrite <- Hr. f_equal. lia.
    - rewrite <- Hr. f_equal. lia. }
  split.
  - intros Hin.
    assert (Hcases : review_of lib hotel idx item = Some r
                     \/ r ∈ reviews_from lib hotel (idx + 1) rest).
    { destruct (review_of lib hotel idx item) as [r0|]; [|now right].
      apply elem_of_cons in Hin as [->|Hin]; [now left|now right]. }
    destruct Hcases as [H0|Hin'].
    + exists 0%nat, item. split; [reflexivity|]. now rewrite Z.add_0_r.
    + apply Hrest in Hin' as (i & it & Hl & Hr). now exists (S i), it.
  - intros ([|i] & it & Hl & Hr).
    + injection Hl as <-. rewrite Z.add_0_r in Hr. rewrite Hr. apply list_elem_of_here.
    + assert (Hin : r ∈ reviews_from lib hotel (idx + 1) rest)
        by (apply Hrest; now exists i, it).
      destruct (review_of lib hotel idx item); [now apply list_elem_of_further|exact Hin].
Qed.

Lemma lookup_slice_to {A : Type} (n : Z) (l : list A) (i : nat) (x : A) :
  slice_to n l !! i = Some x -> l !! i = Some x /\ (0 <= n -> Z.of_nat i < n).
Proof.
  unfold slice_to. destruct (Z.leb_spec 0 n) as [Hn|Hn]; intros Hl;
    apply lookup_take_Some in Hl as [H1 H2]; (split; [exact H1|lia]).
Qed.

(** X27: [parse_hotel_page] returns at most one review per review item of
    the page, and at most [MAX_REVIEWS_PER_HOTEL] of them when that setting
    is not negative. Each review comes from an item among the first
    [MAX_REVIEWS_PER_HOTEL]; it carries the URL and the list page of the
    hotel it was asked for, the numeric rating, the displayed date and the
    year extracted from its item ([None] as the rating of an item without
    rating element; for an item without date element whose meta element
    holds something else than an ISO date, that content with [+00:00] in
    the place of a final [Z] as the date), and [before_2020] is [True] only
    for a year that is not empty, is made of digits and is read by [int]
    below 2020. *)
Theorem hotel_page_reviews_shape (lib : ReviewLib) (c : Config) (review_items : list Item)
    (hotel_data : Hotel) :
  let reviews := hotel_page_reviews lib c review_items hotel_data in
  (length reviews <= length review_items)%nat /\
  (0 <= MAX_REVIEWS_PER_HOTEL c -> Z.of_nat (length reviews) <= MAX_REVIEWS_PER_HOTEL c) /\
  (forall r : record, r ∈ reviews ->
     exists (i : nat) item,
       review_items !! i = Some item /\
       (0 <= MAX_REVIEWS_PER_HOTEL c -> Z.of_nat i < MAX_REVIEWS_PER_HOTEL c) /\
       review_of lib hotel_data (1 + Z.of_nat i) item = Some r /\
       r !! py "hotel_url" = Some (SStr (hotel_url hotel_data)) /\
       r !! py "list_page" = Some (SInt (list_page hotel_data)) /\
       r !! py "review_rating_numeric"
       = Some (scalar_of_float (rd_numeric (extract_review_rating lib (item_rating item)))) /\
       (item_rating item = None -> rating_or_zero r = SNone) /\
       r !! py "review_date" = Some (SStr (date_display (extract_review_date lib item))) /\
       (item_date item = None ->
        forall content,
          item_date_meta item = Some content ->
          fromisoformat lib (iso_input content) = None ->
          iso_input content <> [] ->
          r !! py "review_date" = Some (SStr (iso_input content))) /\
       r !! py "review_year" = Some (SStr (date_year (extract_review_date lib item))) /\
       (r !! py "before_2020" = Some (SBool true) ->
        date_year (extract_review_date lib item) <> [] /\
        str_isdigit lib (date_year (extract_review_date lib item)) = true /\
        exists y, int_of_text lib (date_year (extract_review_date lib item)) = Some y
                  /\ y < 2020)).
Proof.
  cbv zeta. unfold hotel_page_reviews.
  destruct review_items as [|it0 its].
  { repeat apply conj; cbn; try lia. intros r Hr. now apply elem_of_nil in Hr. }
  set (items := it0 :: its).
  pose proof (length_reviews_from lib hotel_data
                (slice_to (MAX_REVIEWS_PER_HOTEL c) items) 1) as Hlen.
  destruct (length_slice_to (MAX_REVIEWS_PER_HOTEL c) items) as (H1 & H2 & _).
  repeat apply conj.
  - lia.
  - intros Hn. specialize (H2 Hn). lia.
  - intros r Hr. apply elem_of_reviews_from in Hr as (i & item & Hl & Hrev).
    apply lookup_slice_to in Hl as [Hl Hi].
    exists i, item. split; [exact Hl|]. split; [exact Hi|]. split; [exact Hrev|].
    destruct (review_of_fields _ _ _ _ _ Hrev) as (_ & Hu & Hn & _ & Hd & Hy & Hb & Hp).
    repeat apply conj; try assumption.
    + intros Hnone. unfold rating_or_zero. rewrite Hn, Hnone. reflexivity.
    + intros Hno content Hmeta Hiso Hne. rewrite Hd. do 2 f_equal.
      unfold extract_review_date, date_first_way, date_second_way, date_from_content.
      rewrite Hno, Hmeta, Hiso. cbn [str_truthy empty_date date_display].
      destruct (iso_input content) as [|x l]; [now contradiction Hne|reflexivity].
    + intros Htrue. rewrite Htrue in Hb. unfold before_2020_of in Hb.
      destruct (str_truthy (date_year (extract_review_date lib item))) eqn:Ht;
        cbn [andb] in Hb; [|discriminate Hb].
      destruct (str_isdigit lib _); [|discriminate Hb].
      destruct (int_of_text lib _) as [y|]; [|discriminate Hb].
      injection Hb as Hb. repeat apply conj.
      * intros E. rewrite E in Ht. discriminate Ht.
      * reflexivity.
      * exists y. split; [reflexivity|]. now apply Z.ltb_lt.
Qed.

(** ** A review without rating *)

Lemma ratings_printable_elem (reviews : list record) (r : record) :
  r ∈ reviews -> is_number (rating_or_zero r) = false -> ratings_printable reviews = false.
Proof.
  intros Hin Hr. unfold ratings_printable.
  destruct (forallb _ reviews) eqn:E; [|reflexivity].
  rewrite forallb_forall in E. apply list_elem_of_In in Hin.
  specialize (E r Hin). cbv beta in E. congruence.
Qed.

(** X28: when the page of a hotel is parsed by [parse_hotel_page] and one of
    its first [MAX_REVIEWS_PER_HOTEL] review items gives no numeric rating
    (it has no rating element, or no number is found in its text) while its
    review is built, then the reviews of the page are appended to the
    buffer and the progress printout raises [TypeError]: the hotel is not
    added to [processed_hotels] and the remaining hotels of the list page
    are not visited. *)
Theorem unrated_review_stops_page (env : Env) (lib : ReviewLib) (page_url : pystr) (n i : Z)
    (hotel : Hotel) (rest : list Hotel) (p p1 : Parser) (w w1 : World) (html : pystr)
    (review_items : list Item) (k : nat) (item : Item) :
  hotel_url hotel ∉ processed_hotels p ->
  reviews_count hotel <> 0 ->
  make_request env (hotel_url hotel) (Some page_url) 0 p w = (Ret (Some html), p1, w1) ->
  parse_hotel_page env (config p1) html hotel
  = hotel_page_reviews lib (config p1) review_items hotel ->
  slice_to (MAX_REVIEWS_PER_HOTEL (config p1)) review_items !! k = Some item ->
  rd_numeric (extract_review_rating lib (item_rating item)) = None ->
  is_Some (review_of lib hotel (1 + Z.of_nat k) item) ->
  let reviews := hotel_page_reviews lib (config p1) review_items hotel in
  scrape_hotels env page_url n i (hotel :: rest) p w
  = (Raise TypeError, set_results (results p ++ reviews) p1, w1) /\
  reviews <> [] /\
  (hotel_url hotel ∉ processed_hotels (set_results (results p ++ reviews) p1)).
Proof.
  intros Hnew Hcount Hm Hparse Hk Hnum [r Hr] reviews.
  assert (Hin : r ∈ reviews).
  { unfold reviews, hotel_page_reviews. destruct review_items as [|it0 its].
    - unfold slice_to in Hk. destruct (0 <=? _); rewrite take_nil in Hk; discriminate Hk.
    - apply elem_of_reviews_from. now exists k, item. }
  assert (Hbad : is_number (rating_or_zero r) = false).
  { destruct (review_of_fields _ _ _ _ _ Hr) as (_ & _ & Hn & _).
    unfold rating_or_zero. rewrite Hn, Hnum. reflexivity. }
  destruct (scrape_hotels_unprintable env page_url n i hotel rest p p1 w w1 html reviews
              Hnew Hcount Hm Hparse (ratings_printable_elem _ _ Hin Hbad))
    as (H1 & H2 & H3 & _).
  repeat apply conj; assumption.
Qed.

(** The page of hotel A shows one review item, without rating element. *)
Lemma unrated_review_stops_page_witness :
  let page_url := BASE_URL default_config in
  let fetch := make_request reviewing_env (hotel_url hotel_a) (Some page_url) 0
                 fresh_parser empty_world in
  let reviews := hotel_page_reviews review_lib (config fetch.1.2) [item_unrated] hotel_a in
  scrape_hotels reviewing_env page_url 2 1 [hotel_a; hotel_b] fresh_parser empty_world
  = (Raise TypeError, set_results (results fresh_parser ++ reviews) fetch.1.2, fetch.2) /\
  reviews <> [] /\
  (hotel_url hotel_a
     ∉ processed_hotels (set_results (results fresh_parser ++ reviews) fetch.1.2)).
Proof.
  intros page_url fetch.
  apply (unrated_review_stops_page reviewing_env review_lib page_url 2 1 hotel_a [hotel_b]
           fresh_parser fetch.1.2 empty_world fetch.2 real_page [item_unrated] 0 item_unrated).
  - by_evaluation.
  - vm_compute. discriminate.
  - vm_compute. reflexivity.
  - reflexivity.
  - vm_compute. reflexivity.
  - reflexivity.
  - apply (bool_decide_unpack _). vm_compute. exact I.
Defined.
